(** * Objection.js typings: a model of the declarations and of their example

    The repository holds one ambient declarations file
    ([typings/objection/index.d.ts], namespace [Objection]) and a short usage
    example.  The development has these layers:

    - [TypeSyntax]: the syntax of the type expressions the declarations use,
      and the type aliases of the namespace as functions on that syntax;
    - [Methods]: the call signatures of the method interfaces of the query
      builder;
    - [Source], [Declarations], [Example]: the constructs of the two files,
      member by member, as data;
    - [Semantics]: types as values, member access, assignability, the
      conditional and mapped types, and the typing of a method call;
    - [Inventory] and [Chains]: what a file implements, and chains of calls;
    - the properties of the declarations, at the end. *)

From Stdlib Require Import String List Bool ZArith Lia.
Import ListNotations.
Open Scope string_scope.
Set Warnings "-register-all".

(* ------------------------------------------------------------------ *)
(** ** Type expressions as the declarations write them *)

Module TypeSyntax.

Inductive texpr : Type :=
| TN (name : string)                         (* a named type, a primitive, a type parameter *)
| TApp (name : string) (args : list texpr)   (* Name<A, B> *)
| TTypeof (name : string)                    (* typeof Name *)
| TArrOf (elem : texpr)                      (* T[] *)
| TOr (l r : texpr)                          (* L | R *)
| TLitS (s : string)                         (* 'literal' *)
| TIdx (obj : texpr) (key : string)          (* T['key'] *)
| TAt (obj idx : texpr)                      (* T[K] *)
| TKeyof (t : texpr)                         (* keyof T *)
| TFn (params : list texpr) (ret : texpr)    (* (a: A, b: B) => R *)
| TObjT (fields : list (string * bool * texpr)) (* { name: T; name?: T } *)
| TCondT (chk ext thn els : texpr).          (* C extends E ? T : F *)

Inductive pmode : Type := Req | Opt | Rest.

Record param : Type := mkParam {
  p_name : string;
  p_mode : pmode;
  p_type : texpr
}.

(** One call signature: [<tparams>(this: T, params): ret].  A type parameter
    carries its constraint when it has one. *)
Record overload : Type := mkOverload {
  o_tparams : list (string * option texpr);
  o_this : option texpr;
  o_params : list param;
  o_ret : texpr
}.

Definition req (n : string) (t : texpr) : param := mkParam n Req t.
Definition opt (n : string) (t : texpr) : param := mkParam n Opt t.
Definition rest (n : string) (t : texpr) : param := mkParam n Rest t.

(** *** The type aliases of the namespace (lines 31, 89-220, 226, 240, 288) *)

Definition QBType : texpr :=
  TOr (TLitS "Array") (TOr (TLitS "Single") (TOr (TLitS "Number") (TLitS "Page"))).

Definition Raw : texpr := TN "RawBuilder".
Definition Operator : texpr := TN "string".
Definition AnyQueryBuilder : texpr := TApp "QueryBuilder" [TN "any"].
Definition NonPrimitiveValue : texpr :=
  TOr Raw (TOr (TN "ReferenceBuilder") (TOr (TN "LiteralBuilder") AnyQueryBuilder)).
Definition ColumnRef : texpr := TOr (TN "string") (TOr Raw (TN "ReferenceBuilder")).
Definition TableRef : texpr := TOr ColumnRef AnyQueryBuilder.

Definition PrimitiveValue : texpr :=
  TOr (TN "string") (TOr (TN "number") (TOr (TN "boolean") (TOr (TN "Date")
  (TOr (TArrOf (TN "string")) (TOr (TArrOf (TN "number")) (TOr (TArrOf (TN "boolean"))
  (TOr (TArrOf (TN "Date")) (TOr (TN "null") (TN "Buffer"))))))))).

Definition Value : texpr := TOr NonPrimitiveValue PrimitiveValue.

Definition Id : texpr := TOr (TN "string") (TN "number").
Definition CompositeId : texpr := TArrOf Id.
Definition MaybeCompositeId : texpr := TOr Id CompositeId.

Definition Identity (T : texpr) : texpr := TFn [T] T.
Definition AnyModelClass : texpr := TTypeof "Model".
Definition Modifier (QB : texpr) : texpr :=
  TOr (TFn [QB] (TN "void")) (TOr (TN "string") (TN "object")).
Definition OrderByDirection : texpr :=
  TOr (TLitS "asc") (TOr (TLitS "desc") (TOr (TLitS "ASC") (TLitS "DESC"))).
Definition RelationExpression (M : texpr) : texpr := TOr (TN "string") (TN "object").

Definition GraphParameters : texpr :=
  TObjT [("#dbRef", true, MaybeCompositeId); ("#ref", true, TN "string");
         ("#id", true, TN "string")].

Definition ModelType (QB : texpr) : texpr := TIdx QB "ModelType".
Definition ResultType (QB : texpr) : texpr := TIdx QB "ResultType".
Definition SingleQueryBuilder (QB : texpr) : texpr := TIdx QB "SingleQueryBuilderType".
Definition ArrayQueryBuilder (QB : texpr) : texpr := TIdx QB "ArrayQueryBuilderType".
Definition NumberQueryBuilder (QB : texpr) : texpr := TIdx QB "NumberQueryBuilderType".
Definition PageQueryBuilder (QB : texpr) : texpr := TIdx QB "PageQueryBuilderType".

Definition CallbackVoid (T : texpr) : texpr := TApp "CallbackVoid" [T].
Definition Selection (QB : texpr) : texpr :=
  TOr ColumnRef (TOr AnyQueryBuilder (CallbackVoid QB)).
Definition QBOrCallback (QB : texpr) : texpr := TOr AnyQueryBuilder (CallbackVoid QB).

Definition DeriveQBType (QB Type_ : texpr) : texpr :=
  TCondT Type_ (TLitS "Array") (TIdx QB "ArrayQueryBuilderType")
  (TCondT Type_ (TLitS "Single") (TIdx QB "SingleQueryBuilderType")
  (TCondT Type_ (TLitS "Number") (TIdx QB "NumberQueryBuilderType")
  (TCondT Type_ (TLitS "Page") (TIdx QB "PageQueryBuilderType")
  (TN "never")))).

(** The mapped types [PartialModelObject], [PartialModelGraph] and
    [ModelProps] are referred to by name in parameter positions; their meaning,
    and that of [NonFunctionPropertyNames], [ItemType] and
    [RelatedQueryBuilder], is given in [Semantics]. *)
Definition PartialModelObject (T : texpr) : texpr := TApp "PartialModelObject" [T].
Definition PartialModelGraph (T : texpr) : texpr := TApp "PartialModelGraph" [T].
Definition ModelProps (QB : texpr) : texpr := TApp "ModelProps" [QB].

Definition ModelClassFactory : texpr := TFn [] (TTypeof "Model").
Definition ModelClassSpecifier : texpr :=
  TOr ModelClassFactory (TOr (TTypeof "Model") (TN "string")).
Definition RelationMappingHook : texpr :=
  TFn [TTypeof "Model"; TN "QueryContext"] (TOr (TApp "Promise" [TN "void"]) (TN "void")).
Definition RelationMappingColumnRef : texpr :=
  TOr (TN "string") (TOr (TN "ReferenceBuilder")
      (TArrOf (TOr (TN "string") (TN "ReferenceBuilder")))).

Definition ValidationErrorType : texpr :=
  TOr (TLitS "ModelValidation") (TOr (TLitS "RelationExpression")
  (TOr (TLitS "UnallowedRelation") (TLitS "InvalidGraph"))).

(** The members of a union, left to right. *)
Fixpoint alternatives (t : texpr) : list texpr :=
  match t with
  | TOr l r => alternatives l ++ alternatives r
  | _ => [t]
  end.

End TypeSyntax.

(* ------------------------------------------------------------------ *)
(** ** The method interfaces of the query builder (lines 222-568) *)

Module Methods.
Import TypeSyntax.

Definition QB : texpr := TN "QB".
Definition M : texpr := TN "M".

(** [<QB extends AnyQueryBuilder, ...>(this: QB, ...): ret] *)
Definition onQB (more : list (string * option texpr)) (ps : list param) (ret : texpr)
  : overload :=
  mkOverload (("QB", Some AnyQueryBuilder) :: more) (Some QB) ps ret.

Definition tM : string * option texpr := ("M", Some (ModelType QB)).
Definition tQBP : string * option texpr := ("QBP", Some QB).
Definition tQBA : string * option texpr := ("QBA", Some AnyQueryBuilder).
Definition tAQB : string * option texpr := ("AQB", Some AnyQueryBuilder).

Definition InstanceQueryBuilderType (MC : texpr) : texpr :=
  TIdx (TApp "InstanceType" [MC]) "QueryBuilderType".

Definition ForClassMethod : list overload :=
  [ mkOverload [("M", Some (TTypeof "Model"))] None [req "modelClass" M]
      (InstanceQueryBuilderType M) ].

Definition SelectMethod : list overload :=
  [ onQB [tAQB] [rest "columns" (TArrOf (Selection (TN "AQB")))] QB;
    onQB [tAQB] [req "columns" (TArrOf (Selection (TN "AQB")))] QB ].

Definition FromMethod : list overload :=
  [ onQB [] [req "table" (TN "string")] QB;
    onQB [] [req "cb" (CallbackVoid QB)] QB;
    onQB [] [req "raw" Raw] QB;
    onQB [tQBA] [req "qb" (TN "QBA")] QB ].

Definition WhereMethod (Type_ : texpr) : list overload :=
  let R := DeriveQBType QB Type_ in
  [ onQB [tQBP] [req "col" (ModelProps (TN "QBP")); req "op" Operator; req "value" Value] R;
    onQB [tQBP] [req "col" (ModelProps (TN "QBP")); req "value" Value] R;
    onQB [] [req "col" ColumnRef; req "op" Operator; req "value" Value] R;
    onQB [] [req "col" ColumnRef; req "value" Value] R;
    onQB [] [req "condition" (TN "boolean")] R;
    onQB [] [req "cb" (CallbackVoid QB)] R;
    onQB [] [req "raw" Raw] R;
    onQB [tQBA] [req "qb" (TN "QBA")] R;
    onQB [] [req "obj" (PartialModelObject (ModelType QB))] R;
    onQB [] [req "obj" (TN "object")] R ].

Definition WhereWrappedMethod : list overload :=
  [ onQB [] [req "cb" (CallbackVoid QB)] QB ].

Definition WhereExistsMethod : list overload :=
  [ onQB [] [req "cb" (CallbackVoid QB)] QB;
    onQB [] [req "raw" Raw] QB;
    onQB [tQBA] [req "qb" (TN "QBA")] QB ].

Definition WhereInMethod : list overload :=
  let cols := TOr ColumnRef (TArrOf ColumnRef) in
  [ onQB [tQBP] [req "col" (ModelProps (TN "QBP")); req "value" Value] QB;
    onQB [tQBP] [req "col" (ModelProps (TN "QBP")); req "cb" (CallbackVoid QB)] QB;
    onQB [tQBP] [req "col" (ModelProps (TN "QBP")); req "qb" AnyQueryBuilder] QB;
    onQB [] [req "col" cols; req "value" (TArrOf Value)] QB;
    onQB [] [req "col" cols; req "cb" (CallbackVoid QB)] QB;
    onQB [] [req "col" cols; req "qb" AnyQueryBuilder] QB ].

Definition BaseSetOperations : list overload :=
  [ onQB [] [req "callbackOrBuilder" (QBOrCallback QB); opt "wrap" (TN "boolean")] QB;
    onQB [] [req "callbacksOrBuilders" (TArrOf (QBOrCallback QB));
             opt "wrap" (TN "boolean")] QB ].

(** An interface that extends another lists its own call signatures first. *)
Definition SetOperations : list overload :=
  [ onQB [] [rest "callbacksOrBuilders" (TArrOf (QBOrCallback QB))] QB ]
  ++ BaseSetOperations.

Definition union_args (n : nat) : list param :=
  map (fun a => req a (QBOrCallback QB))
      (firstn n ["arg1"; "arg2"; "arg3"; "arg4"; "arg5"; "arg6"; "arg7"])
  ++ [opt "wrap" (TN "boolean")].

Definition UnionMethod : list overload :=
  map (fun n => onQB [] (union_args n) QB) [1; 2; 3; 4; 5; 6; 7]%nat
  ++ BaseSetOperations.

Definition JoinRelationMethod : list overload :=
  [ onQB [tM] [req "expr" (RelationExpression M); opt "opt" (TN "JoinRelationOptions")] QB ].

Definition JoinMethod : list overload :=
  [ onQB [] [req "table" TableRef; req "leftCol" ColumnRef; req "op" Operator;
             req "rightCol" ColumnRef] QB;
    onQB [] [req "table" TableRef; req "leftCol" ColumnRef; req "rightCol" ColumnRef] QB;
    onQB [] [req "table" TableRef; req "cb" (CallbackVoid (TN "knex.JoinClause"))] QB;
    onQB [] [req "table" TableRef; req "raw" Raw] QB;
    onQB [] [req "raw" Raw] QB ].

Definition IncrementDecrementMethod : list overload :=
  [ onQB [] [req "column" (TN "string"); opt "amount" (TN "number")] QB ].

Definition OrderByMethod : list overload :=
  [ onQB [] [req "column" ColumnRef; opt "order" OrderByDirection] QB;
    onQB [] [req "columns"
               (TArrOf (TOr (TObjT [("column", false, ColumnRef);
                                    ("order", true, OrderByDirection)]) ColumnRef))] QB ].

Definition FindByIdMethod : list overload :=
  [ onQB [] [req "id" MaybeCompositeId] (SingleQueryBuilder QB) ].

Definition FindByIdsMethod : list overload :=
  [ onQB [] [req "ids" (TArrOf MaybeCompositeId)] QB ].

Definition FirstMethod : list overload :=
  [ onQB [] [] (TCondT QB (ArrayQueryBuilder QB) (SingleQueryBuilder QB) QB) ].

Definition CastToMethod : list overload :=
  [ mkOverload [("M", Some (TTypeof "Model"))] None [req "modelClass" M]
      (InstanceQueryBuilderType M) ].

Definition UpdateMethod : list overload :=
  [ onQB [tM] [req "update" (PartialModelObject M)] (NumberQueryBuilder QB) ].

Definition UpdateAndFetchMethod : list overload :=
  [ onQB [tM] [req "update" (PartialModelObject M)] (SingleQueryBuilder QB) ].

Definition UpdateAndFetchByIdMethod : list overload :=
  [ onQB [tM] [req "id" MaybeCompositeId; req "update" (PartialModelObject M)]
      (SingleQueryBuilder QB) ].

Definition DeleteMethod : list overload :=
  [ onQB [] [] (NumberQueryBuilder QB) ].

Definition DeleteByIdMethod : list overload :=
  [ onQB [] [req "id" MaybeCompositeId] (NumberQueryBuilder QB) ].

Definition InsertMethod : list overload :=
  [ onQB [tM] [req "insert" (PartialModelObject M)] (SingleQueryBuilder QB);
    onQB [tM] [req "insert" (TArrOf (PartialModelObject M))] (ArrayQueryBuilder QB) ].

Definition EagerMethod : list overload :=
  [ onQB [tM] [req "expr" (RelationExpression M); opt "modifiers" (TN "Modifiers")] QB ].

Definition AllowGraphMethod : list overload :=
  [ onQB [tM] [req "expr" (RelationExpression M)] QB ].

Definition IdentityMethod : list overload := [ onQB [] [] QB ].

Definition OneArgMethod (T : texpr) : list overload := [ onQB [] [req "arg" T] QB ].

Definition StringReturningMethod : list overload := [ onQB [] [] (TN "string") ].

Definition BooleanReturningMethod : list overload := [ onQB [] [] (TN "boolean") ].

Definition TableRefForMethod : list overload :=
  [ onQB [] [req "modelClass" (TTypeof "Model")] (TN "string") ].

Definition ModelClassMethod : list overload := [ onQB [tM] [] M ].

Definition ReturningMethod : list overload :=
  [ onQB [] [req "column" (TOr (TN "string") (TArrOf (TN "string")))]
      (TCondT QB (ArrayQueryBuilder QB) (ArrayQueryBuilder QB)
         (TCondT QB (NumberQueryBuilder QB) (ArrayQueryBuilder QB)
            (SingleQueryBuilder QB))) ].

Definition PageMethod : list overload :=
  [ onQB [] [req "page" (TN "number"); req "pageSize" (TN "number")] (PageQueryBuilder QB) ].

Definition RangeMethod : list overload :=
  [ onQB [] [] (PageQueryBuilder QB);
    onQB [] [req "start" (TN "number"); req "end" (TN "number")] (PageQueryBuilder QB) ].

Definition RunBeforeCallback : list overload :=
  [ onQB [] [req "result" (TN "any"); req "query" QB] (TN "any") ].

Definition RunBeforeMethod : list overload :=
  [ onQB [] [req "cb" (TN "RunBeforeCallback")] QB ].

Definition RunAfterCallback : list overload :=
  [ onQB [] [req "result" (ResultType QB); req "query" QB] (TN "any") ].

Definition RunAfterMethod : list overload :=
  [ onQB [] [req "cb" (TN "RunAfterCallback")] QB ].

Definition OnBuildMethod : list overload :=
  [ onQB [] [req "cb" (CallbackVoid QB)] QB ].

Definition OnBuildKnexCallback : list overload :=
  [ onQB [] [req "knexQuery" (TN "knex.QueryBuilder"); req "query" QB] (TN "void") ].

Definition OnBuildKnexMethod : list overload :=
  [ onQB [] [req "cb" (TN "OnBuildKnexCallback")] QB ].

Definition OnErrorCallback : list overload :=
  [ onQB [] [req "error" (TN "Error"); req "query" QB] (TN "any") ].

Definition OnErrorMethod : list overload :=
  [ onQB [] [req "cb" (TN "OnErrorCallback")] QB ].

Definition InsertGraphMethod : list overload :=
  [ onQB [tM] [req "graph" (PartialModelGraph M); opt "options" (TN "InsertGraphOptions")]
      (SingleQueryBuilder QB);
    onQB [tM] [req "graph" (TArrOf (PartialModelGraph M));
               opt "options" (TN "InsertGraphOptions")]
      (ArrayQueryBuilder QB) ].

Definition UpsertGraphMethod : list overload :=
  [ onQB [tM] [req "graph" (PartialModelGraph M); opt "options" (TN "UpsertGraphOptions")]
      (SingleQueryBuilder QB);
    onQB [tM] [req "graph" (TArrOf (PartialModelGraph M));
               opt "options" (TN "UpsertGraphOptions")]
      (ArrayQueryBuilder QB) ].

Definition EagerAlgorithmMethod : list overload :=
  [ onQB [] [req "algorithm" (TN "EagerAlgorithm")] QB ].

Definition EagerOptionsMethod : list overload :=
  [ onQB [] [req "options" (TN "EagerOptions")] QB ].

Definition ModifyEagerMethod : list overload :=
  [ mkOverload [tM; ("QB", Some AnyQueryBuilder)] (Some QB)
      [req "expr" (RelationExpression M);
       req "modifier" (Modifier (TIdx M "QueryBuilderType"))] QB ].

Definition ContextMethod : list overload :=
  [ onQB [] [req "context" (TN "object")] QB;
    onQB [] [] (TN "QueryContext") ].

(** [RawInterface<R>]: [(sql: string, ...bindings: any[]): R], no [this]
    parameter. *)
Definition RawInterface (R : texpr) : list overload :=
  [ mkOverload [] None [req "sql" (TN "string"); rest "bindings" (TArrOf (TN "any"))] R ].

End Methods.

(* ------------------------------------------------------------------ *)
(** ** Constructs of a source file *)

Module Source.
Import TypeSyntax.

(** The only statement the repository contains is [return this;]. *)
Inductive stmt : Type := SReturnThis.

Inductive lit : Type :=
| LStr (s : string)
| LNum (n : Z)
| LObj (fields : list (string * lit)).

Inductive expr : Type :=
| EName (n : string)
| ENew (cls : string)
| ECall (recv : expr) (method : string) (args : list lit).

Inductive mshape : Type :=
| MProp (t : texpr)                                   (* name: T *)
| MMethod (sig : overload) (body : option (list stmt)) (* name(ps): R, or name() { ... } *)
| MCall (sig : overload)                              (* (ps): R *)
| MIndex (key : string) (ktype : texpr) (t : texpr)   (* [key: K]: T *)
| MCtor (ps : list param).                            (* constructor(ps) *)

Record member : Type := mkMember {
  m_name : string;
  m_static : bool;
  m_optional : bool;
  m_shape : mshape
}.

(** A type parameter: name, constraint, default. *)
Definition tparam : Type := (string * option texpr * option texpr)%type.

Inductive construct : Type :=
| CConst (name : string) (annot : option texpr) (init : option expr)
| CType (name : string) (exported : bool) (tps : list tparam)
| CInterface (name : string) (exported : bool) (tps : list tparam)
             (extends : list texpr) (members : list member)
| CClass (name : string) (exported : bool) (tps : list tparam)
         (extends : option texpr) (members : list member).

(** A file: whether its declarations sit in an ambient context
    ([declare namespace], a [.d.ts] file), what it imports, what it holds. *)
Record file : Type := mkFile {
  f_ambient : bool;
  f_imports : list string;
  f_export_assignment : option string;
  f_namespace : option string;
  f_constructs : list construct
}.

Definition prop (n : string) (t : texpr) : member := mkMember n false false (MProp t).
Definition oprop (n : string) (t : texpr) : member := mkMember n false true (MProp t).
Definition sprop (n : string) (t : texpr) : member := mkMember n true false (MProp t).
Definition meth (n : string) (sig : overload) : member :=
  mkMember n false false (MMethod sig None).
Definition smeth (n : string) (sig : overload) : member :=
  mkMember n true false (MMethod sig None).
Definition calls (sigs : list overload) : list member :=
  map (fun o => mkMember "" false false (MCall o)) sigs.
Definition indexed (key : string) (ktype t : texpr) : member :=
  mkMember "" false false (MIndex key ktype t).
Definition ctor (ps : list param) : member :=
  mkMember "constructor" false false (MCtor ps).

(** A plain signature [(ps): ret]. *)
Definition sig (ps : list param) (ret : texpr) : overload := mkOverload [] None ps ret.

Definition tp (n : string) : tparam := (n, None, None).
Definition tpc (n : string) (c : texpr) : tparam := (n, Some c, None).

Definition construct_name (c : construct) : string :=
  match c with
  | CConst n _ _ | CType n _ _ | CInterface n _ _ _ _ | CClass n _ _ _ _ => n
  end.

Definition construct_members (c : construct) : list member :=
  match c with
  | CInterface _ _ _ _ ms | CClass _ _ _ _ ms => ms
  | _ => []
  end.

Inductive ckind : Type := KConst | KTypeAlias | KInterface | KClass.

Definition kind_of (c : construct) : ckind :=
  match c with
  | CConst _ _ _ => KConst
  | CType _ _ _ => KTypeAlias
  | CInterface _ _ _ _ _ => KInterface
  | CClass _ _ _ _ _ => KClass
  end.

Definition ckind_eqb (a b : ckind) : bool :=
  match a, b with
  | KConst, KConst | KTypeAlias, KTypeAlias | KInterface, KInterface
  | KClass, KClass => true
  | _, _ => false
  end.

Definition find_construct (f : file) (n : string) : option construct :=
  find (fun c => String.eqb (construct_name c) n) (f_constructs f).

Definition find_member (c : construct) (n : string) : option member :=
  find (fun m => String.eqb (m_name m) n) (construct_members c).

Definition declares (f : file) (n : string) (k : ckind) : bool :=
  match find_construct f n with
  | Some c => ckind_eqb (kind_of c) k
  | None => false
  end.

(** *** Implementation content *)

Definition member_body (m : member) : option (list stmt) :=
  match m_shape m with
  | MMethod _ b => b
  | _ => None
  end.

Definition member_has_body (m : member) : bool :=
  match member_body m with Some _ => true | None => false end.

Definition construct_has_body (c : construct) : bool :=
  existsb member_has_body (construct_members c).

Definition construct_has_initialiser (c : construct) : bool :=
  match c with
  | CConst _ _ (Some _) => true
  | _ => false
  end.

(** Runtime content of a construct: a method body or an initialiser. *)
Definition has_runtime_content (c : construct) : bool :=
  construct_has_body c || construct_has_initialiser c.

(** A class is implemented when it is declared outside an ambient context:
    it is then emitted as a class of the running program. *)
Definition implemented_classes (f : file) : list construct :=
  if f_ambient f then []
  else filter (fun c => ckind_eqb (kind_of c) KClass) (f_constructs f).

Definition class_parent (c : construct) : option string :=
  match c with
  | CClass _ _ _ (Some (TN p)) _ => Some p
  | CClass _ _ _ (Some (TApp p _)) _ => Some p
  | _ => None
  end.

End Source.

(* ------------------------------------------------------------------ *)
(** ** The declarations file, [typings/objection/index.d.ts] *)

Module Declarations.
Import TypeSyntax Methods Source.

Definition knexish : texpr := TOr (TN "Transaction") (TN "knex").
Definition boolean_or_strings : texpr := TOr (TN "boolean") (TArrOf (TN "string")).
Definition this_ : texpr := TN "this".
Definition tQBparam : tparam :=
  ("QB", Some AnyQueryBuilder, Some AnyQueryBuilder).
Definition tModelClass (n : string) : string * option texpr := (n, Some (TTypeof "Model")).
Definition tModel (n : string) : string * option texpr := (n, Some (TN "Model")).

(** Lines 21-29. *)
Definition namespace_consts : list construct :=
  [ CConst "raw" (Some (TN "RawFunction")) None;
    CConst "lit" (Some (TN "LiteralFunction")) None;
    CConst "ref" (Some (TN "ReferenceFunction")) None;
    CConst "compose" (Some (TN "ComposeFunction")) None;
    CConst "mixin" (Some (TN "MixinFunction")) None;
    CConst "snakeCaseMappers" (Some (TN "SnakeCaseMappersFactory")) None;
    CConst "knexSnakeCaseMappers" (Some (TN "KnexSnakeCaseMappersFactory")) None ].

Definition Castable_members : list member :=
  map (fun n => meth n (sig [] this_))
      ["castText"; "castInt"; "castBigInt"; "castFloat"; "castDecimal"; "castReal";
       "castBool"; "castJson"; "castArray"; "asArray"]
  ++ [ meth "castType" (sig [req "sqlType" (TN "string")] this_);
       meth "castTo" (sig [req "sqlType" (TN "string")] this_) ].

(** Lines 31-220. *)
Definition builders_and_values : list construct :=
  [ CType "QBType" false [];
    CInterface "RawBuilder" true [] [TN "Aliasable"] [];
    CInterface "RawFunction" true [] [TApp "RawInterface" [TN "RawBuilder"]] [];
    CInterface "RawInterface" true [tp "R"] [] (calls (RawInterface (TN "R")));
    CInterface "LiteralBuilder" true [] [TN "Castable"] [];
    CInterface "LiteralFunction" true [] []
      (calls [sig [req "value" (TOr PrimitiveValue (TOr (TArrOf PrimitiveValue)
                     (TOr (TN "PrimitiveValueObject") (TArrOf (TN "PrimitiveValueObject")))))]
                  (TN "LiteralBuilder")]);
    CInterface "ReferenceBuilder" true [] [TN "Castable"] [];
    CInterface "ReferenceFunction" true [] []
      (calls [sig [req "expression" (TN "string")] (TN "ReferenceBuilder")]);
    CInterface "ComposeFunction" true [] []
      (calls [sig [rest "plugins" (TArrOf (TN "Plugin"))] (TN "Plugin");
              sig [req "plugins" (TArrOf (TN "Plugin"))] (TN "Plugin")]);
    CInterface "Plugin" true [] []
      (calls [mkOverload [tModelClass "M"] None [req "modelClass" M] M]);
    CInterface "MixinFunction" true [] []
      (calls [mkOverload [tModelClass "MC"] None
                [req "modelClass" (TN "MC"); rest "plugins" (TArrOf (TN "Plugin"))] (TN "MC");
              mkOverload [tModelClass "MC"] None
                [req "modelClass" (TN "MC"); req "plugins" (TArrOf (TN "Plugin"))] (TN "MC")]);
    CInterface "Aliasable" false [] [] [meth "as" (sig [req "alias" (TN "string")] this_)];
    CInterface "Castable" false [] [TN "Aliasable"] Castable_members;
    CType "Raw" false [];
    CType "Operator" false [];
    CType "NonPrimitiveValue" false [];
    CType "ColumnRef" false [];
    CType "TableRef" false [];
    CType "PrimitiveValue" false [];
    CType "Value" false [];
    CType "Id" false [];
    CType "CompositeId" false [];
    CType "MaybeCompositeId" false [];
    CInterface "ValueObject" false [] [] [ indexed "key" (TN "string") Value];
    CInterface "PrimitiveValueObject" false [] [] [ indexed "key" (TN "string") PrimitiveValue];
    CInterface "CallbackVoid" false [tp "T"] []
      (calls [mkOverload [] (Some (TN "T")) [req "arg" (TN "T")] (TN "void")]);
    CType "Identity" false [tp "T"];
    CType "AnyQueryBuilder" false [];
    CType "AnyModelClass" false [];
    CType "Modifier" false [tQBparam];
    CType "OrderByDirection" false [];
    CInterface "Modifiers" false [tQBparam] [] [ indexed "key" (TN "string") (Modifier QB)];
    CType "RelationExpression" false [tpc "M" (TN "Model")];
    CType "ItemType" false [tp "T"];
    CType "NonFunctionPropertyNames" false [tp "T"];
    CType "PartialModelObject" false [tpc "T" (TN "Model")];
    CType "GraphParameters" false [];
    CType "PartialModelGraph" false [tp "T"];
    CType "ModelType" false [tpc "QB" AnyQueryBuilder];
    CType "ResultType" false [tpc "QB" AnyQueryBuilder];
    CType "ModelProps" false
      [tpc "QB" AnyQueryBuilder; ("M", Some (ModelType QB), Some (ModelType QB))];
    CType "SingleQueryBuilder" false [tpc "QB" AnyQueryBuilder];
    CType "ArrayQueryBuilder" false [tpc "QB" AnyQueryBuilder];
    CType "NumberQueryBuilder" false [tpc "QB" AnyQueryBuilder];
    CType "PageQueryBuilder" false [tpc "QB" AnyQueryBuilder] ].

(** Lines 222-572: the method interfaces and the option objects between them. *)
Definition method_interfaces : list construct :=
  [ CInterface "ForClassMethod" false [] [] (calls ForClassMethod);
    CType "Selection" false [tpc "QB" AnyQueryBuilder];
    CInterface "SelectMethod" false [] [] (calls SelectMethod);
    CInterface "FromMethod" false [] [] (calls FromMethod);
    CType "DeriveQBType" false [tpc "QB" AnyQueryBuilder; tpc "Type" QBType];
    CInterface "WhereMethod" false [tpc "Type" QBType] [] (calls (WhereMethod (TN "Type")));
    CInterface "WhereWrappedMethod" false [] [] (calls WhereWrappedMethod);
    CInterface "WhereExistsMethod" false [] [] (calls WhereExistsMethod);
    CInterface "WhereInMethod" false [] [] (calls WhereInMethod);
    CType "QBOrCallback" false [tpc "QB" AnyQueryBuilder];
    CInterface "SetOperations" false [] [TN "BaseSetOperations"]
      (calls (firstn 1 SetOperations));
    CInterface "BaseSetOperations" false [] [] (calls BaseSetOperations);
    CInterface "UnionMethod" false [] [TN "BaseSetOperations"]
      (calls (firstn 7 UnionMethod));
    CInterface "JoinRelationOptions" false [] []
      [ oprop "alias" (TOr (TN "string") (TN "boolean"));
        oprop "aliases" (TApp "Record" [TN "string"; TN "string"]) ];
    CInterface "JoinRelationMethod" false [] [] (calls JoinRelationMethod);
    CInterface "JoinMethod" false [] [] (calls JoinMethod);
    CInterface "IncrementDecrementMethod" false [] [] (calls IncrementDecrementMethod);
    CInterface "OrderByMethod" false [] [] (calls OrderByMethod);
    CInterface "FindByIdMethod" false [] [] (calls FindByIdMethod);
    CInterface "FindByIdsMethod" false [] [] (calls FindByIdsMethod);
    CInterface "FirstMethod" false [] [] (calls FirstMethod);
    CInterface "CastToMethod" false [] [] (calls CastToMethod);
    CInterface "UpdateMethod" false [] [] (calls UpdateMethod);
    CInterface "UpdateAndFetchMethod" false [] [] (calls UpdateAndFetchMethod);
    CInterface "UpdateAndFetchByIdMethod" false [] [] (calls UpdateAndFetchByIdMethod);
    CInterface "DeleteMethod" false [] [] (calls DeleteMethod);
    CInterface "DeleteByIdMethod" false [] [] (calls DeleteByIdMethod);
    CInterface "InsertMethod" false [] [] (calls InsertMethod);
    CInterface "EagerMethod" false [] [] (calls EagerMethod);
    CInterface "AllowGraphMethod" false [] [] (calls AllowGraphMethod);
    CInterface "IdentityMethod" false [] [] (calls IdentityMethod);
    CInterface "OneArgMethod" false [tp "T"] [] (calls (OneArgMethod (TN "T")));
    CInterface "StringReturningMethod" false [] [] (calls StringReturningMethod);
    CInterface "BooleanReturningMethod" false [] [] (calls BooleanReturningMethod);
    CInterface "TableRefForMethod" false [] [] (calls TableRefForMethod);
    CInterface "ModelClassMethod" false [] [] (calls ModelClassMethod);
    CInterface "ReturningMethod" false [] [] (calls ReturningMethod);
    CInterface "Page" true [tpc "M" (TN "Model")] []
      [ prop "total" (TN "number"); prop "results" (TArrOf M) ];
    CInterface "PageMethod" false [] [] (calls PageMethod);
    CInterface "RangeMethod" false [] [] (calls RangeMethod);
    CInterface "RunBeforeCallback" false [] [] (calls RunBeforeCallback);
    CInterface "RunBeforeMethod" false [] [] (calls RunBeforeMethod);
    CInterface "RunAfterCallback" false [] [] (calls RunAfterCallback);
    CInterface "RunAfterMethod" false [] [] (calls RunAfterMethod);
    CInterface "OnBuildMethod" false [] [] (calls OnBuildMethod);
    CInterface "OnBuildKnexCallback" false [] [] (calls OnBuildKnexCallback);
    CInterface "OnBuildKnexMethod" false [] [] (calls OnBuildKnexMethod);
    CInterface "OnErrorCallback" false [] [] (calls OnErrorCallback);
    CInterface "OnErrorMethod" false [] [] (calls OnErrorMethod);
    CInterface "InsertGraphOptions" true [] [] [ oprop "relate" boolean_or_strings ];
    CInterface "InsertGraphMethod" false [] [] (calls InsertGraphMethod);
    CInterface "UpsertGraphOptions" true [] []
      (map (fun n => oprop n boolean_or_strings)
           ["relate"; "unrelate"; "insertMissing"; "update"; "noInsert"; "noUpdate";
            "noDelete"; "noRelate"; "noUnrelate"]);
    CInterface "UpsertGraphMethod" false [] [] (calls UpsertGraphMethod);
    CInterface "EagerAlgorithm" true [] [] [];
    CInterface "EagerAlgorithmMethod" false [] [] (calls EagerAlgorithmMethod);
    CInterface "EagerOptions" true [] []
      [ oprop "minimize" (TN "boolean"); oprop "separator" (TN "string");
        oprop "aliases" (TArrOf (TN "string")); prop "joinOperation" (TN "string") ];
    CInterface "EagerOptionsMethod" false [] [] (calls EagerOptionsMethod);
    CInterface "ModifyEagerMethod" false [] [] (calls ModifyEagerMethod);
    CInterface "ContextMethod" false [] [] (calls ContextMethod);
    CInterface "Pojo" true [] [] [ indexed "key" (TN "string") (TN "any") ] ].

Definition props (names : list string) (t : texpr) : list member :=
  map (fun n => prop n t) names.

(** Lines 577-725: the query-building members, each typed by a method
    interface. *)
Definition QueryBuilder_methods : list member :=
  props ["select"; "columns"; "column"; "distinct"] (TN "SelectMethod")
  ++ props ["from"; "table"; "into"] (TN "FromMethod")
  ++ props ["where"; "andWhere"; "orWhere"; "whereNot"; "andWhereNot"; "orWhereNot"]
       (TApp "WhereMethod" [TLitS "Array"])
  ++ props ["whereRaw"; "orWhereRaw"; "andWhereRaw"] (TApp "RawInterface" [this_])
  ++ props ["whereWrapped"; "havingWrapped"] (TN "WhereWrappedMethod")
  ++ props ["whereExists"; "orWhereExists"; "whereNotExists"; "orWhereNotExists"]
       (TN "WhereExistsMethod")
  ++ props ["whereIn"; "orWhereIn"; "whereNotIn"; "orWhereNotIn"] (TN "WhereInMethod")
  ++ props ["union"; "unionAll"] (TN "UnionMethod")
  ++ props ["joinRelation"; "innerJoinRelation"; "outerJoinRelation"; "leftJoinRelation";
            "leftOuterJoinRelation"; "rightJoinRelation"; "rightOuterJoinRelation";
            "fullOuterJoinRelation"] (TN "JoinRelationMethod")
  ++ [ prop "join" (TN "JoinMethod"); prop "joinRaw" (TApp "RawInterface" [this_]) ]
  ++ props ["innerJoin"; "leftJoin"; "leftOuterJoin"; "rightJoin"; "rightOuterJoin";
            "outerJoin"; "fullOuterJoin"; "crossJoin"] (TN "JoinMethod")
  ++ props ["increment"; "decrement"] (TN "IncrementDecrementMethod")
  ++ [ prop "findById" (TN "FindByIdMethod");
       prop "findByIds" (TN "FindByIdsMethod");
       prop "findOne" (TApp "WhereMethod" [TLitS "Single"]);
       prop "first" (TN "FirstMethod");
       prop "orderBy" (TN "OrderByMethod");
       prop "orderByRaw" (TApp "RawInterface" [this_]);
       prop "castTo" (TN "CastToMethod");
       prop "update" (TN "UpdateMethod");
       prop "updateAndFetch" (TN "UpdateAndFetchMethod");
       prop "updateAndFetchById" (TN "UpdateAndFetchByIdMethod");
       prop "patch" (TN "UpdateMethod");
       prop "patchAndFetch" (TN "UpdateAndFetchMethod");
       prop "patchAndFetchById" (TN "UpdateAndFetchByIdMethod");
       prop "del" (TN "DeleteMethod");
       prop "delete" (TN "DeleteMethod");
       prop "deleteById" (TN "DeleteByIdMethod");
       prop "insert" (TN "InsertMethod");
       prop "insertAndFetch" (TN "InsertMethod") ]
  ++ props ["eager"; "mergeEager"; "joinEager"; "mergeJoinEager"; "naiveEager";
            "mergeNaiveEager"] (TN "EagerMethod")
  ++ props ["allowEager"; "mergeAllowEager"; "allowInsert"; "allowUpsert"]
       (TN "AllowGraphMethod")
  ++ [ prop "throwIfNotFound" (TN "IdentityMethod");
       prop "returning" (TN "ReturningMethod");
       prop "forUpdate" (TN "IdentityMethod");
       prop "skipUndefined" (TN "IdentityMethod");
       prop "debug" (TN "IdentityMethod");
       prop "as" (TApp "OneArgMethod" [TN "string"]);
       prop "alias" (TApp "OneArgMethod" [TN "string"]);
       prop "withSchema" (TApp "OneArgMethod" [TN "string"]);
       prop "modelClass" (TN "ModelClassMethod");
       prop "tableNameFor" (TN "TableRefForMethod");
       prop "tableRefFor" (TN "TableRefForMethod");
       prop "toSql" (TN "StringReturningMethod");
       prop "reject" (TApp "OneArgMethod" [TN "any"]);
       prop "resolve" (TApp "OneArgMethod" [TN "any"]);
       prop "page" (TN "PageMethod");
       prop "range" (TN "RangeMethod");
       prop "runBefore" (TN "RunBeforeMethod");
       prop "runAfter" (TN "RunAfterMethod");
       prop "onBuild" (TN "OnBuildMethod");
       prop "onBuildKnex" (TN "OnBuildKnexMethod");
       prop "onError" (TN "OnErrorMethod") ]
  ++ props ["insertGraph"; "insertGraphAndFetch"; "insertWithRelated";
            "insertWithRelatedAndFetch"] (TN "InsertGraphMethod")
  ++ props ["upsertGraph"; "upsertGraphAndFetch"] (TN "UpsertGraphMethod")
  ++ [ prop "eagerAlgorithm" (TN "EagerAlgorithmMethod");
       prop "eagerOptions" (TN "EagerOptionsMethod");
       prop "modifyEager" (TN "ModifyEagerMethod") ]
  ++ props ["context"; "mergeContext"] (TN "ContextMethod")
  ++ props ["isFind"; "isInsert"; "isUpdate"; "isDelete"; "isRelate"; "isUnrelate";
            "hasWheres"; "hasSelects"; "hasEager"] (TN "BooleanReturningMethod").

(** Lines 727-735. *)
Definition QueryBuilder_type_members : list member :=
  [ prop "ModelType" M;
    prop "ResultType" (TN "R");
    prop "execute" (TApp "Promise" [TN "R"]);
    prop "ArrayQueryBuilderType" (TApp "QueryBuilder" [M; TArrOf M]);
    prop "SingleQueryBuilderType" (TApp "QueryBuilder" [M; M]);
    prop "NumberQueryBuilderType" (TApp "QueryBuilder" [M; TN "number"]);
    prop "PageQueryBuilderType" (TApp "QueryBuilder" [M; TApp "Page" [M]]) ].

(** Line 574: [class QueryBuilder<M extends Model, R = M[]> extends Promise<R>]. *)
Definition QueryBuilder_class : construct :=
  CClass "QueryBuilder" true
    [tpc "M" (TN "Model"); ("R", None, Some (TArrOf M))]
    (Some (TApp "Promise" [TN "R"]))
    (sprop "forClass" (TN "ForClassMethod")
     :: QueryBuilder_methods ++ QueryBuilder_type_members).

Definition onModel (more : list (string * option texpr)) (ps : list param) (ret : texpr)
  : overload :=
  mkOverload (tModel "M" :: more) (Some M) ps ret.

Definition MQueryBuilderType : texpr := TIdx M "QueryBuilderType".

Definition StaticQueryMethod : list overload :=
  [ mkOverload [tModelClass "M"] (Some M) [opt "trxOrKnex" knexish]
      (InstanceQueryBuilderType M) ].

Definition QueryMethod : list overload :=
  [ onModel [] [opt "trxOrKnex" knexish] (SingleQueryBuilder MQueryBuilderType) ].

Definition RelatedQueryMethod : list overload :=
  [ mkOverload [("K", Some (TKeyof M)); tModel "M"] (Some M)
      [req "relationName" (TN "K"); opt "trxOrKnex" knexish]
      (TApp "RelatedQueryBuilder" [TAt M (TN "K")]);
    mkOverload [tModel "M"] None
      [req "relationName" (TN "string"); opt "trxOrKnex" knexish]
      MQueryBuilderType ].

Definition LoadRelatedMethod : list overload :=
  [ onModel []
      [req "expression" (RelationExpression M);
       opt "modifiers" (TApp "Modifiers" [MQueryBuilderType]);
       opt "trxOrKnex" knexish]
      (SingleQueryBuilder MQueryBuilderType) ].

Definition StaticLoadRelatedMethod : list overload :=
  let tps := [tModelClass "SM"; ("M", Some (TApp "InstanceType" [TN "SM"]))] in
  let tail := [req "expression" (RelationExpression M);
               opt "modifiers" (TApp "Modifiers" [MQueryBuilderType]);
               opt "trxOrKnex" knexish] in
  [ mkOverload tps (Some (TN "SM"))
      (req "modelOrObject" (PartialModelObject M) :: tail)
      (SingleQueryBuilder MQueryBuilderType);
    mkOverload tps (Some (TN "SM"))
      (req "modelOrObject" (TArrOf (PartialModelObject M)) :: tail)
      MQueryBuilderType ].

Definition IdMethod : list overload :=
  [ onModel [] [req "id" (TN "any")] (TN "void");
    onModel [] [] (TN "any") ].

Definition BindKnexMethod : list overload :=
  [ mkOverload [tModelClass "SM"] (Some (TN "SM")) [req "trxOrKnex" knexish] (TN "SM") ].

Definition FromJsonMethod : list overload :=
  [ mkOverload [tModelClass "SM"] (Some (TN "SM")) [req "json" (TN "object")] (TN "SM") ].

Definition Pojo : texpr := TN "Pojo".
Definition keys_type : texpr :=
  TOr (TN "string") (TOr (TArrOf (TN "string"))
      (TObjT [("[key: string]", false, TN "boolean")])).
Definition related_type : texpr :=
  TOr (TN "RM") (TOr (TArrOf (TN "RM")) (TOr (TN "null") (TN "undefined"))).

(** Lines 957-1026. *)
Definition Model_class : construct :=
  CClass "Model" true [] None
    ([ sprop "tableName" (TN "string");
       sprop "idColumn" (TOr (TN "string") (TArrOf (TN "string"))) ]
     ++ map (fun n => sprop n (TN "Relation"))
          ["BelongsToOneRelation"; "HasOneRelation"; "HasManyRelation";
           "ManyToManyRelation"; "HasOneThroughRelation"]
     ++ map (fun n => sprop n (TN "EagerAlgorithm"))
          ["WhereInEagerAlgorithm"; "NaiveEagerAlgorithm"; "JoinEagerAlgorithm"]
     ++ [ sprop "query" (TN "StaticQueryMethod");
          sprop "columnNameMappers" (TN "ColumnNameMappers");
          sprop "relationMappings"
            (TOr (TN "RelationMappings") (TFn [] (TN "RelationMappings")));
          sprop "fromJson" (TN "FromJsonMethod");
          sprop "fromDatabaseJson" (TN "FromJsonMethod");
          smeth "createValidationError"
            (sig [req "args" (TN "CreateValidationErrorArgs")] (TN "Error"));
          smeth "tableMetadata"
            (sig [opt "opt" (TN "TableMetadataOptions")] (TN "TableMetadata"));
          smeth "fetchTableMetadata"
            (sig [opt "opt" (TN "FetchTableMetadataOptions")]
                 (TApp "Promise" [TN "TableMetadata"]));
          sprop "bindKnex" (TN "BindKnexMethod");
          sprop "bindTransaction" (TN "BindKnexMethod");
          sprop "loadRelated" (TN "StaticLoadRelatedMethod");
          sprop "raw" (TN "RawFunction");
          sprop "QueryBuilder" (TTypeof "QueryBuilder");
          prop "QueryBuilderType" (TApp "QueryBuilder" [this_]);
          prop "$query" (TN "QueryMethod");
          prop "$relatedQuery" (TN "RelatedQueryMethod");
          prop "$id" (TN "IdMethod");
          prop "$loadRelated" (TN "LoadRelatedMethod");
          meth "$formatDatabaseJson" (onModel [] [req "json" Pojo] Pojo);
          meth "$parseDatabaseJson" (onModel [] [req "json" Pojo] Pojo);
          meth "$formatJson" (onModel [] [req "json" Pojo] Pojo);
          meth "$parseJson" (onModel [] [req "json" Pojo; opt "opt" (TN "ModelOptions")] Pojo);
          meth "$toDatabaseJson" (onModel [] [] Pojo);
          meth "$toJson" (onModel [] [opt "opt" (TN "ToJsonOptions")] Pojo);
          meth "toJSON" (onModel [] [opt "opt" (TN "ToJsonOptions")] Pojo);
          meth "$setJson"
            (onModel [] [req "json" (TN "object"); opt "opt" (TN "ModelOptions")] M);
          meth "$setDatabaseJson" (onModel [] [req "json" (TN "object")] M);
          meth "$setRelated"
            (onModel [tModelClass "RM"]
               [req "relation" (TOr (TN "String") (TN "Relation"));
                req "related" related_type] M);
          meth "$appendRelated"
            (onModel [tModelClass "RM"]
               [req "relation" (TOr (TN "String") (TN "Relation"));
                req "related" related_type] M);
          meth "$set" (onModel [] [req "obj" Pojo] M);
          meth "$omit" (onModel [] [req "keys" keys_type] M);
          meth "$pick" (onModel [] [req "keys" keys_type] M);
          meth "$clone" (onModel [] [opt "opt" (TN "CloneOptions")] M) ]).

(** Lines 738-955. *)
Definition models_and_errors : list construct :=
  [ CInterface "StaticQueryMethod" false [] [] (calls StaticQueryMethod);
    CInterface "QueryMethod" false [] [] (calls QueryMethod);
    CType "RelatedQueryBuilder" false [tp "T"];
    CInterface "RelatedQueryMethod" false [] [] (calls RelatedQueryMethod);
    CInterface "LoadRelatedMethod" false [] [] (calls LoadRelatedMethod);
    CInterface "StaticLoadRelatedMethod" false [] [] (calls StaticLoadRelatedMethod);
    CInterface "IdMethod" false [] [] (calls IdMethod);
    CInterface "Transaction" true [] [TN "knex"]
      [ meth "savepoint"
          (sig [req "transactionScope" (TFn [TN "Transaction"] (TN "any"))]
               (TApp "Promise" [TN "any"]));
        meth "commit"
          (mkOverload [("QM", None)] None [opt "value" (TN "any")]
             (TApp "Promise" [TN "QM"]));
        meth "rollback"
          (mkOverload [("QM", None)] None [opt "error" (TN "Error")]
             (TApp "Promise" [TN "QM"])) ];
    CInterface "RelationMappings" true [] []
      [ indexed "relationName" (TN "string") (TN "RelationMapping") ];
    CType "ModelClassFactory" false [];
    CType "ModelClassSpecifier" false [];
    CType "RelationMappingHook" false [];
    CType "RelationMappingColumnRef" false [];
    CInterface "RelationMapping" true
      [("M", Some (TTypeof "Model"), Some (TTypeof "Model"))] []
      [ prop "relation" (TN "Relation");
        prop "modelClass" ModelClassSpecifier;
        prop "join" (TN "RelationJoin");
        oprop "modify" (Modifier (InstanceQueryBuilderType M));
        oprop "filter" (Modifier (InstanceQueryBuilderType M));
        oprop "beforeInsert" RelationMappingHook ];
    CInterface "RelationJoin" true [] []
      [ prop "from" RelationMappingColumnRef;
        prop "to" RelationMappingColumnRef;
        oprop "through" (TN "RelationThrough") ];
    CInterface "RelationThrough" true [] []
      [ prop "from" RelationMappingColumnRef;
        prop "to" RelationMappingColumnRef;
        oprop "extra" (TOr (TArrOf (TN "string")) (TN "object"));
        oprop "modelClass" ModelClassSpecifier;
        oprop "beforeInsert" RelationMappingHook ];
    CInterface "Relation" true [] [] [];
    CInterface "QueryContext" true [] []
      [ prop "transaction" (TN "Transaction"); indexed "key" (TN "string") (TN "any") ];
    CInterface "ModelOptions" true [] []
      [ oprop "patch" (TN "boolean"); oprop "skipValidation" (TN "boolean");
        oprop "old" (TN "object") ];
    CInterface "CloneOptions" true [] [] [ oprop "shallow" (TN "boolean") ];
    CInterface "ToJsonOptions" true [] [TN "CloneOptions"]
      [ oprop "virtuals" boolean_or_strings ];
    CInterface "ValidatorContext" true [] [] [ indexed "key" (TN "string") (TN "any") ];
    CInterface "ValidatorArgs" true [] []
      [ prop "ctx" (TN "ValidatorContext"); prop "model" (TTypeof "Model");
        prop "json" Pojo; prop "options" (TN "ModelOptions") ];
    CClass "Validator" true [] None
      [ meth "beforeValidate" (sig [req "args" (TN "ValidatorArgs")] (TN "void"));
        meth "validate" (sig [req "args" (TN "ValidatorArgs")] Pojo);
        meth "afterValidate" (sig [req "args" (TN "ValidatorArgs")] (TN "void")) ];
    CInterface "AjvConfig" true [] []
      [ meth "onCreateAjv" (sig [req "ajv" (TN "ajv.Ajv")] (TN "void"));
        oprop "options" (TN "ajv.Options") ];
    CClass "AjvValidator" true [] (Some (TN "Validator"))
      [ ctor [req "config" (TN "AjvConfig")] ];
    CInterface "SnakeCaseMappersOptions" true [] []
      [ oprop "upperCase" (TN "boolean"); oprop "underscoreBeforeDigits" (TN "boolean") ];
    CInterface "ColumnNameMappers" true [] []
      [ meth "parse" (sig [req "json" Pojo] Pojo);
        meth "format" (sig [req "json" Pojo] Pojo) ];
    CInterface "SnakeCaseMappersFactory" true [] []
      (calls [sig [opt "options" (TN "SnakeCaseMappersOptions")] (TN "ColumnNameMappers")]);
    CInterface "KnexMappers" true [] []
      [ meth "wrapIdentifier"
          (sig [req "identifier" (TN "string"); req "origWrap" (Identity (TN "string"))]
               (TN "string"));
        meth "postProcessResponse" (sig [req "response" (TN "any")] (TN "any")) ];
    CInterface "KnexSnakeCaseMappersFactory" true [] []
      (calls [sig [opt "options" (TN "SnakeCaseMappersOptions")] (TN "KnexMappers")]);
    CType "ValidationErrorType" true [];
    CClass "ValidationError" true [] (Some (TN "Error"))
      [ ctor [req "args" (TN "CreateValidationErrorArgs")];
        prop "statusCode" (TN "number");
        prop "message" (TN "string");
        oprop "data" (TOr (TN "ErrorHash") (TN "any"));
        prop "type" ValidationErrorType ];
    CInterface "ValidationErrorItem" true [] []
      [ prop "message" (TN "string"); prop "keyword" (TN "string"); prop "params" Pojo ];
    CInterface "ErrorHash" true [] []
      [ indexed "columnName" (TN "string") (TArrOf (TN "ValidationErrorItem")) ];
    CInterface "CreateValidationErrorArgs" true [] []
      [ oprop "message" (TN "string");
        oprop "data" (TOr (TN "ErrorHash") (TN "any"));
        prop "type" (TOr ValidationErrorType (TN "string")) ];
    CInterface "TableMetadata" true [] [] [ prop "columns" (TApp "Array" [TN "string"]) ];
    CInterface "TableMetadataOptions" true [] [] [ prop "table" (TN "string") ];
    CInterface "FetchTableMetadataOptions" true [] []
      [ oprop "knex" (TN "knex"); oprop "force" (TN "boolean"); oprop "table" (TN "string") ];
    CInterface "BindKnexMethod" false [] [] (calls BindKnexMethod);
    CInterface "FromJsonMethod" false [] [] (calls FromJsonMethod) ].

(** The whole file: two imports, [export = Objection], and the ambient
    namespace [Objection] with its constructs in source order. *)
Definition declarations_file : file :=
  mkFile true ["knex"; "ajv"] (Some "Objection") (Some "Objection")
    (namespace_consts ++ builders_and_values ++ method_interfaces
     ++ [QueryBuilder_class] ++ models_and_errors ++ [Model_class]).

End Declarations.

(* ------------------------------------------------------------------ *)
(** ** The usage example that follows the declarations *)

Module Example.
Import TypeSyntax Methods Source.

(** [class CustomQueryBuilder<M extends Model, R = M[]> extends QueryBuilder<M, R>].
    [someCustomMethod] has no annotation; its body is [return this;], so its
    return type is the polymorphic [this]. *)
Definition CustomQueryBuilder_class : construct :=
  CClass "CustomQueryBuilder" false
    [tpc "M" (TN "Model"); ("R", None, Some (TArrOf M))]
    (Some (TApp "QueryBuilder" [M; TN "R"]))
    [ prop "ArrayQueryBuilderType" (TApp "CustomQueryBuilder" [M; TArrOf M]);
      prop "SingleQueryBuilderType" (TApp "CustomQueryBuilder" [M; M]);
      prop "NumberQueryBuilderType" (TApp "CustomQueryBuilder" [M; TN "number"]);
      mkMember "someCustomMethod" false false
        (MMethod (sig [] (TN "this")) (Some [SReturnThis])) ].

Definition BaseModel_class : construct :=
  CClass "BaseModel" false [] (Some (TN "Model"))
    [ prop "QueryBuilderType" (TApp "CustomQueryBuilder" [TN "this"]) ].

Definition Animal_class : construct :=
  CClass "Animal" false [] (Some (TN "BaseModel"))
    [ prop "id" (TN "number"); prop "name" (TN "string"); prop "owner" (TN "Person") ].

Definition Person_class : construct :=
  CClass "Person" false [] (Some (TN "BaseModel"))
    [ prop "firstName" (TN "string"); prop "pets" (TArrOf (TN "Animal")) ].

Definition people_init : expr :=
  ECall (ECall (ECall (ECall (EName "Person") "query" [])
                      "someCustomMethod" [])
               "where" [LStr "firstName"; LStr "lol"])
        "someCustomMethod" [].

Definition pets_init : expr :=
  ECall (ECall (ECall (ECall (ECall (ENew "Person") "$relatedQuery" [LStr "pets"])
                             "someCustomMethod" [])
                      "where" [LStr "id"; LNum 1])
               "first" [])
        "someCustomMethod" [].

Definition numUpdated_init : expr :=
  ECall (ECall (ECall (ECall (EName "Person") "query" [])
                      "someCustomMethod" [])
               "patch" [LObj [("firstName", LStr "test")]])
        "someCustomMethod" [].

Definition people_annotation : texpr := TApp "Promise" [TArrOf (TN "Person")].
Definition pets_annotation : texpr := TApp "Promise" [TN "Animal"].
Definition numUpdated_annotation : texpr := TApp "Promise" [TN "number"].

Definition example_file : file :=
  mkFile false ["../../"] None None
    [ CustomQueryBuilder_class; BaseModel_class; Animal_class; Person_class;
      CConst "people" (Some people_annotation) (Some people_init);
      CConst "pets" (Some pets_annotation) (Some pets_init);
      CConst "numUpdated" (Some numUpdated_annotation) (Some numUpdated_init) ].

End Example.

(* ------------------------------------------------------------------ *)
(** ** Types as values, and what the declarations compute on them *)

Module Semantics.
Import TypeSyntax Methods Source Declarations.

Inductive ty : Type :=
| TAny | TNever | TVoid | TNull | TUndefined
| TString | TNumber | TBoolean | TObject
| TDate | TBuffer
| TStrLit (s : string)
| TNumLit (n : Z)
| TArr (elem : ty)
| TInst (cls : string)               (* an instance of a model class *)
| TClass (cls : string)              (* typeof cls *)
| TQB (cls : string) (M R : ty)      (* builder class cls<M, R> *)
| TPromise (R : ty)
| TPage (M : ty)
| TNamed (name : string).            (* any other declared interface *)

(** An argument of a call: an expression of a known type, an object literal,
    an array literal, or a function expression. *)
Inductive arg : Type :=
| AExp (t : ty)
| AObj (fields : list (string * ty))
| AArr (items : list arg)
| AFun.

(** The classes in scope: the constructs of the files loaded together. *)
Definition program : Type := list construct.

Definition env : Type := list (string * ty).

Fixpoint lookup (e : env) (x : string) : option ty :=
  match e with
  | [] => None
  | (y, v) :: e' => if String.eqb x y then Some v else lookup e' x
  end.

Definition mem (x : string) (l : list string) : bool := existsb (String.eqb x) l.

Definition find_class (p : program) (n : string) : option construct :=
  find (fun c => match c with
                 | CClass m _ _ _ _ => String.eqb m n
                 | _ => false
                 end) p.

(** [c] is [d] or reaches it through [extends] clauses. *)
Fixpoint is_a_fuel (p : program) (fuel : nat) (c d : string) : bool :=
  if String.eqb c d then true
  else match fuel with
       | O => false
       | S f =>
         match find_class p c with
         | Some k => match class_parent k with
                     | Some par => is_a_fuel p f par d
                     | None => false
                     end
         | None => false
         end
       end.

Definition is_a (p : program) (c d : string) : bool := is_a_fuel p (List.length p) c d.

(** The instance member [name] of class [c], own or inherited, with the class
    that declares it. *)
Fixpoint lookup_member_fuel (p : program) (fuel : nat) (static : bool) (c name : string)
  : option (construct * member) :=
  match find_class p c with
  | None => None
  | Some k =>
    match find (fun m => Bool.eqb (m_static m) static && String.eqb (m_name m) name)
               (construct_members k) with
    | Some m => Some (k, m)
    | None =>
      match fuel, class_parent k with
      | S f, Some par => lookup_member_fuel p f static par name
      | _, _ => None
      end
    end
  end.

Definition lookup_member (p : program) (c name : string) : option (construct * member) :=
  lookup_member_fuel p (List.length p) false c name.

Definition lookup_static (p : program) (c name : string) : option (construct * member) :=
  lookup_member_fuel p (List.length p) true c name.

Definition class_tparams (c : construct) : list tparam :=
  match c with
  | CClass _ _ tps _ _ => tps
  | _ => []
  end.

(** *** The arguments of an [extends] clause

    [class C<M, R> extends D<M, R>] hands type parameters of its own on to
    its parent.  [passed_on k] reads the clause of [k]: for each argument, the
    position among the type parameters of [k] of the parameter it names.  A
    clause with an argument that is not a type parameter of [k] is not
    followed. *)
Fixpoint position (n : string) (tps : list tparam) : option nat :=
  match tps with
  | [] => None
  | (m, _, _) :: tps' =>
    if String.eqb n m then Some O else option_map S (position n tps')
  end.

Fixpoint positions (tps : list tparam) (args : list texpr) : option (list nat) :=
  match args with
  | [] => Some []
  | TN n :: args' =>
    match position n tps, positions tps args' with
    | Some i, Some l => Some (i :: l)
    | _, _ => None
    end
  | _ :: _ => None
  end.

Definition passed_on (k : construct) : option (list nat) :=
  match k with
  | CClass _ _ tps (Some (TApp _ args)) _ => positions tps args
  | CClass _ _ _ (Some (TN _)) _ => Some []
  | _ => None
  end.

(** The entries of [sel] at the positions [ps]. *)
Fixpoint select (sel ps : list nat) : option (list nat) :=
  match ps with
  | [] => Some []
  | i :: ps' =>
    match nth_error sel i, select sel ps' with
    | Some x, Some l => Some (x :: l)
    | _, _ => None
    end
  end.

(** [c<a0, a1>] seen as a [d]: the arguments [d] receives, as positions among
    [a0, a1].  [sel] holds this for the class reached so far. *)
Fixpoint reaches_fuel (p : program) (fuel : nat) (c d : string) (sel : list nat)
  : option (list nat) :=
  if String.eqb c d then Some sel
  else match fuel with
       | O => None
       | S f =>
         match find_class p c with
         | Some k =>
           match class_parent k, passed_on k with
           | Some par, Some ps =>
             match select sel ps with
             | Some sel' => reaches_fuel p f par d sel'
             | None => None
             end
           | _, _ => None
           end
         | None => None
         end
       end.

Definition reaches (p : program) (c d : string) : option (list nat) :=
  reaches_fuel p (List.length p) c d [0; 1]%nat.

(** *** Interfaces by their members

    Two interfaces of the declarations file are compared member by member:
    [a] can stand for [b] when every member [b] has, of its own or inherited,
    is a member of [a] under the same name and with the same declaration
    (a member [a] requires may be optional in [b], not the other way round).
    Interfaces with type parameters, or that extend an instantiated
    interface, are compared by name only. *)
Fixpoint texpr_eqb (a b : texpr) {struct a} : bool :=
  match a, b with
  | TN x, TN y => String.eqb x y
  | TApp x xs, TApp y ys =>
    String.eqb x y
    && (fix go (l1 l2 : list texpr) : bool :=
          match l1, l2 with
          | [], [] => true
          | u :: l1', v :: l2' => texpr_eqb u v && go l1' l2'
          | _, _ => false
          end) xs ys
  | TTypeof x, TTypeof y => String.eqb x y
  | TArrOf x, TArrOf y => texpr_eqb x y
  | TOr l r, TOr l' r' => texpr_eqb l l' && texpr_eqb r r'
  | TLitS x, TLitS y => String.eqb x y
  | TIdx o k, TIdx o' k' => texpr_eqb o o' && String.eqb k k'
  | TAt o i, TAt o' i' => texpr_eqb o o' && texpr_eqb i i'
  | TKeyof x, TKeyof y => texpr_eqb x y
  | TFn ps r, TFn ps' r' =>
    (fix go (l1 l2 : list texpr) : bool :=
       match l1, l2 with
       | [], [] => true
       | u :: l1', v :: l2' => texpr_eqb u v && go l1' l2'
       | _, _ => false
       end) ps ps'
    && texpr_eqb r r'
  | TObjT fs, TObjT gs =>
    (fix go (l1 l2 : list (string * bool * texpr)) : bool :=
       match l1, l2 with
       | [], [] => true
       | (n, o, t) :: l1', (n', o', t') :: l2' =>
         String.eqb n n' && Bool.eqb o o' && texpr_eqb t t' && go l1' l2'
       | _, _ => false
       end) fs gs
  | TCondT c x t f, TCondT c' x' t' f' =>
    texpr_eqb c c' && texpr_eqb x x' && texpr_eqb t t' && texpr_eqb f f'
  | _, _ => false
  end.

Fixpoint list_eqb {A : Type} (eqb : A -> A -> bool) (l1 l2 : list A) : bool :=
  match l1, l2 with
  | [], [] => true
  | x :: l1', y :: l2' => eqb x y && list_eqb eqb l1' l2'
  | _, _ => false
  end.

Definition option_eqb {A : Type} (eqb : A -> A -> bool) (x y : option A) : bool :=
  match x, y with
  | Some a, Some b => eqb a b
  | None, None => true
  | _, _ => false
  end.

Definition pmode_eqb (a b : pmode) : bool :=
  match a, b with
  | Req, Req | Opt, Opt | Rest, Rest => true
  | _, _ => false
  end.

(** Parameter names do not matter to a signature. *)
Definition param_eqb (a b : param) : bool :=
  pmode_eqb (p_mode a) (p_mode b) && texpr_eqb (p_type a) (p_type b).

Definition overload_eqb (a b : overload) : bool :=
  list_eqb (fun x y => String.eqb (fst x) (fst y)
                       && option_eqb texpr_eqb (snd x) (snd y))
           (o_tparams a) (o_tparams b)
  && option_eqb texpr_eqb (o_this a) (o_this b)
  && list_eqb param_eqb (o_params a) (o_params b)
  && texpr_eqb (o_ret a) (o_ret b).

Definition mshape_eqb (a b : mshape) : bool :=
  match a, b with
  | MProp t, MProp t' => texpr_eqb t t'
  | MMethod o _, MMethod o' _ => overload_eqb o o'
  | MCall o, MCall o' => overload_eqb o o'
  | MIndex _ k t, MIndex _ k' t' => texpr_eqb k k' && texpr_eqb t t'
  | MCtor ps, MCtor ps' => list_eqb param_eqb ps ps'
  | _, _ => false
  end.

(** Member [a] can stand for member [b]. *)
Definition same_member (a b : member) : bool :=
  String.eqb (m_name a) (m_name b)
  && mshape_eqb (m_shape a) (m_shape b)
  && implb (m_optional a) (m_optional b).

(** The members of an interface without type parameters, own and inherited. *)
Fixpoint interface_members (fuel : nat) (n : string) : option (list member) :=
  match find_construct declarations_file n with
  | Some (CInterface _ _ [] exts ms) =>
    match fuel with
    | O => match exts with [] => Some ms | _ => None end
    | S f =>
      (fix inherited (xs : list texpr) : option (list member) :=
         match xs with
         | [] => Some ms
         | TN b :: xs' =>
           match interface_members f b, inherited xs' with
           | Some l, Some l' => Some (l' ++ l)%list
           | _, _ => None
           end
         | _ :: _ => None
         end) exts
    end
  | _ => None
  end.

Definition interface_covers (a b : string) : bool :=
  match interface_members 3 a, interface_members 3 b with
  | Some ma, Some mb => forallb (fun y => existsb (fun x => same_member x y) ma) mb
  | _, _ => false
  end.

(** *** Assignability

    Class types are compared by their [extends] chains: a builder
    [c<M, R>] is a [d<M', R'>] when [c] reaches [d] and the arguments [d]
    receives from [c<M, R>] through the [extends] clauses are assignable to
    [M'] and [R'], and it is a [Promise<R'>] when [c] reaches [Promise] and
    the argument [Promise] receives is assignable to [R'].  Interfaces are
    compared by their members. *)
Fixpoint assignable_rec (p : program) (s t : ty) {struct s} : bool :=
  match s with
  | TNever => true
  | TAny => match t with TNever => false | _ => true end
  | TVoid => match t with TVoid => true | _ => false end
  | TNull => match t with TNull => true | _ => false end
  | TUndefined => match t with TUndefined | TVoid => true | _ => false end
  | TString => match t with TString => true | _ => false end
  | TNumber => match t with TNumber => true | _ => false end
  | TBoolean => match t with TBoolean => true | _ => false end
  | TObject => match t with TObject => true | _ => false end
  | TDate => match t with TDate | TObject => true | _ => false end
  | TBuffer => match t with TBuffer | TObject => true | _ => false end
  | TStrLit a => match t with
                 | TStrLit b => String.eqb a b
                 | TString => true
                 | _ => false
                 end
  | TNumLit a => match t with
                 | TNumLit b => Z.eqb a b
                 | TNumber => true
                 | _ => false
                 end
  | TArr a => match t with
              | TArr b => match b with TAny => true | _ => assignable_rec p a b end
              | TObject => true
              | _ => false
              end
  | TInst c => match t with
               | TInst d => is_a p c d
               | TObject => true
               | _ => false
               end
  | TClass c => match t with
                | TClass d => is_a p c d
                | TObject => true
                | _ => false
                end
  | TQB c m r => match t with
                 | TQB d m' r' =>
                   match reaches p c d with
                   | Some [i; j] =>
                     match m' with
                     | TAny => true
                     | _ => match i with
                            | O => assignable_rec p m m'
                            | _ => assignable_rec p r m'
                            end
                     end
                     && match r' with
                        | TAny => true
                        | _ => match j with
                               | O => assignable_rec p m r'
                               | _ => assignable_rec p r r'
                               end
                        end
                   | _ => false
                   end
                 | TPromise r' =>
                   match reaches p c "Promise" with
                   | Some [i] =>
                     match r' with
                     | TAny => true
                     | _ => match i with
                            | O => assignable_rec p m r'
                            | _ => assignable_rec p r r'
                            end
                     end
                   | _ => false
                   end
                 | TObject => true
                 | _ => false
                 end
  | TPromise r => match t with
                  | TPromise r' => match r' with TAny => true | _ => assignable_rec p r r' end
                  | TObject => true
                  | _ => false
                  end
  | TPage m => match t with
               | TPage m' => match m' with TAny => true | _ => assignable_rec p m m' end
               | TObject => true
               | _ => false
               end
  | TNamed a => match t with
                | TNamed b => String.eqb a b || interface_covers a b
                | TObject => true
                | _ => false
                end
  end.

(** Everything is assignable to [any]; the rest goes by the source type. *)
Definition assignable (p : program) (s t : ty) : bool :=
  match t with
  | TAny => true
  | _ => assignable_rec p s t
  end.

(** The type a promise resolves with: the argument of [Promise], which a
    builder receives through its [extends] clauses.  This is one step of
    [await]; it is what awaiting yields when that argument is not a promise
    in turn. *)
Definition awaited (p : program) (t : ty) : ty :=
  match t with
  | TPromise r => r
  | TQB c m r =>
    match reaches p c "Promise" with
    | Some [i] => match i with O => m | _ => r end
    | _ => t
    end
  | _ => t
  end.

(** A type with a [then] of a promise: a promise, or a builder that reaches
    [Promise]. *)
Definition thenable (p : program) (t : ty) : bool :=
  match t with
  | TPromise _ => true
  | TQB c _ _ => match reaches p c "Promise" with Some [_] => true | _ => false end
  | _ => false
  end.

(** What awaiting a value of type [t] yields: [await] unwraps promises at
    every level. *)
Fixpoint await_type (p : program) (t : ty) : ty :=
  match t with
  | TPromise r => await_type p r
  | TQB c m r =>
    match reaches p c "Promise" with
    | Some [i] => match i with O => await_type p m | _ => await_type p r end
    | _ => t
    end
  | _ => t
  end.

(** *** Names *)

Definition prim_of (n : string) : option ty :=
  if String.eqb n "any" then Some TAny
  else if String.eqb n "never" then Some TNever
  else if String.eqb n "void" then Some TVoid
  else if String.eqb n "null" then Some TNull
  else if String.eqb n "undefined" then Some TUndefined
  else if String.eqb n "string" then Some TString
  else if String.eqb n "number" then Some TNumber
  else if String.eqb n "boolean" then Some TBoolean
  else if String.eqb n "object" then Some TObject
  else if String.eqb n "Date" then Some TDate
  else if String.eqb n "Buffer" then Some TBuffer
  else None.

Definition is_class (p : program) (n : string) : bool :=
  match find_class p n with Some _ => true | None => false end.

(** A name that is not bound in the environment: a primitive, a model class
    (its instance type), or an interface of the declarations file. *)
Definition resolve_name (p : program) (n : string) : option ty :=
  match prim_of n with
  | Some t => Some t
  | None =>
    if is_class p n && is_a p n "Model" then Some (TInst n)
    else if declares declarations_file n KInterface then Some (TNamed n)
    else None
  end.

Definition bind {A B : Type} (o : option A) (f : A -> option B) : option B :=
  match o with Some a => f a | None => None end.

(** *** Evaluation of a type expression *)

Section Eval.
Variable p : program.
(** For a builder class, the default of its second parameter, given the first. *)
Variable builder_default : string -> option (ty -> option ty).
Variable idx : ty -> string -> option ty.
Variable related : ty -> option ty.
(** The relation a conditional type tests. *)
Variable extends : ty -> ty -> bool.

Fixpoint eval_with (e : env) (t : texpr) {struct t} : option ty :=
  match t with
  | TN n => match lookup e n with
            | Some v => Some v
            | None => resolve_name p n
            end
  | TTypeof n => if is_class p n then Some (TClass n) else None
  | TArrOf el => option_map TArr (eval_with e el)
  | TLitS s => Some (TStrLit s)
  | TIdx o k => bind (eval_with e o) (fun v => idx v k)
  | TAt o i => match eval_with e o, eval_with e i with
               | Some v, Some (TStrLit k) => idx v k
               | _, _ => None
               end
  | TCondT c x a b =>
    match eval_with e c, eval_with e x with
    | Some vc, Some vx => if extends vc vx then eval_with e a else eval_with e b
    | _, _ => None
    end
  | TApp n args =>
    match args with
    | [a] =>
      if String.eqb n "Promise" then option_map TPromise (eval_with e a)
      else if String.eqb n "Page" then option_map TPage (eval_with e a)
      else if String.eqb n "Array" then option_map TArr (eval_with e a)
      else if String.eqb n "InstanceType" then
        match eval_with e a with
        | Some (TClass c) => Some (TInst c)
        | Some TAny => Some TAny
        | _ => None
        end
      else if String.eqb n "RelatedQueryBuilder" then bind (eval_with e a) related
      else match builder_default n with
           | Some d => bind (eval_with e a) (fun m => option_map (TQB n m) (d m))
           | None => None
           end
    | [a; b] =>
      match builder_default n with
      | Some _ => match eval_with e a, eval_with e b with
                  | Some m, Some r => Some (TQB n m r)
                  | _, _ => None
                  end
      | None => None
      end
    | _ => None
    end
  | TOr _ _ | TKeyof _ | TFn _ _ | TObjT _ => None
  end.

End Eval.

Definition no_index (_ : ty) (_ : string) : option ty := None.
Definition no_related (_ : ty) : option ty := None.
Definition no_builder (_ : string) : option (ty -> option ty) := None.

(** [class C<M extends Model, R = M[]>]: the default of [R] at a given [M]. *)
Definition builder_default (p : program) (n : string) : option (ty -> option ty) :=
  if is_a p n "QueryBuilder" then
    match find_class p n with
    | Some k =>
      match class_tparams k with
      | [(mname, _, _); (_, _, Some d)] =>
        Some (fun m => eval_with p no_builder no_index no_related (assignable p)
                                 [(mname, m)] d)
      | _ => None
      end
    | None => None
    end
  else None.

(** Instantiation of a declared member type; member types use no indexed
    access of their own. *)
Definition inst (p : program) : env -> texpr -> option ty :=
  eval_with p (builder_default p) no_index no_related (assignable p).

Definition bind_tparams (tps : list tparam) (actuals : list ty) : env :=
  combine (map (fun tp => fst (fst tp)) tps) actuals.

(** The declared type of member [key] as class [start] has it, own or
    inherited, for a receiver of type [T]: for a property, its type with the
    type parameters of the declaring class bound to the arguments of [T] and
    [this] to [T]; for a method, a function type, which is kept as the
    interface [Function] all function types are assignable to (line 149
    tests [T[K] extends Function]). *)
Definition index_from (p : program) (T : ty) (start key : string) : option ty :=
  match lookup_member p start key with
  | Some (k, m) =>
    match m_shape m, T with
    | MProp t, TQB _ M R =>
      inst p ((bind_tparams (class_tparams k) [M; R] ++ [("this", T)])%list) t
    | MProp t, TInst _ => inst p [("this", T)] t
    | MMethod _ _, TQB _ _ _ | MMethod _ _, TInst _ => Some (TNamed "Function")
    | _, _ => None
    end
  | None => None
  end.

(** [T['key']]. *)
Definition index (p : program) (T : ty) (key : string) : option ty :=
  match T with
  | TAny => Some TAny
  | TNever => Some TNever
  | TQB c _ _ | TInst c => index_from p T c key
  | _ => None
  end.

(** Line 144: [T extends Array<unknown> ? T[number] : T]. *)
Definition ItemType (T : ty) : ty :=
  match T with
  | TArr item => item
  | _ => T
  end.

(** Lines 748-752:
    [T extends Model ? SingleQueryBuilder<T['QueryBuilderType']>
     : T extends Array<infer I> ? (I extends Model ? I['QueryBuilderType'] : never)
     : never]. *)
Definition RelatedQueryBuilder (p : program) (T : ty) : option ty :=
  if assignable p T (TInst "Model") then
    bind (index p T "QueryBuilderType") (fun q => index p q "SingleQueryBuilderType")
  else match T with
       | TArr item => if assignable p item (TInst "Model")
                      then index p item "QueryBuilderType"
                      else Some TNever
       | _ => Some TNever
       end.

Definition eval (p : program) : env -> texpr -> option ty :=
  eval_with p (builder_default p) (index p) (RelatedQueryBuilder p) (assignable p).

(** *** The call signatures behind a member's type *)

Fixpoint subst (sigma : list (string * texpr)) (t : texpr) {struct t} : texpr :=
  match t with
  | TN n => match find (fun b => String.eqb (fst b) n) sigma with
            | Some b => snd b
            | None => t
            end
  | TApp n args => TApp n (map (subst sigma) args)
  | TTypeof _ | TLitS _ => t
  | TArrOf el => TArrOf (subst sigma el)
  | TOr l r => TOr (subst sigma l) (subst sigma r)
  | TIdx o k => TIdx (subst sigma o) k
  | TAt o i => TAt (subst sigma o) (subst sigma i)
  | TKeyof x => TKeyof (subst sigma x)
  | TFn ps r => TFn (map (subst sigma) ps) (subst sigma r)
  | TObjT fs => TObjT (map (fun f => match f with (n, o, ft) => (n, o, subst sigma ft) end) fs)
  | TCondT c x a b => TCondT (subst sigma c) (subst sigma x) (subst sigma a) (subst sigma b)
  end.

Definition subst_overload (sigma : list (string * texpr)) (o : overload) : overload :=
  let own := map fst (o_tparams o) in
  let sg := filter (fun b => negb (mem (fst b) own)) sigma in
  mkOverload
    (map (fun tp => (fst tp, option_map (subst sg) (snd tp))) (o_tparams o))
    (option_map (subst sg) (o_this o))
    (map (fun q => mkParam (p_name q) (p_mode q) (subst sg (p_type q))) (o_params o))
    (subst sg (o_ret o)).

(** The call signatures of interface [n<args>] of the declarations file: its
    own, then those of the interfaces it extends. *)
Fixpoint interface_calls (fuel : nat) (n : string) (args : list texpr) : list overload :=
  match find_construct declarations_file n with
  | Some (CInterface _ _ tps exts ms) =>
    let sigma := combine (map (fun tp => fst (fst tp)) tps) args in
    let own := flat_map (fun m => match m_shape m with
                                  | MCall o => [subst_overload sigma o]
                                  | _ => []
                                  end) ms in
    match fuel with
    | O => own
    | S f =>
      (own ++ flat_map (fun x => match x with
                                 | TN b => interface_calls f b []
                                 | TApp b a => interface_calls f b (map (subst sigma) a)
                                 | _ => []
                                 end) exts)%list
    end
  | _ => []
  end.

Definition signatures_of (t : texpr) : list overload :=
  match t with
  | TN n => interface_calls 3 n []
  | TApp n args => interface_calls 3 n args
  | _ => []
  end.

(** [T[K] extends Function]: a method, a function type, or an interface with
    call signatures. *)
Definition is_function_member (m : member) : bool :=
  match m_shape m with
  | MMethod _ _ => true
  | MProp (TFn _ _) => true
  | MProp t => match signatures_of t with [] => false | _ => true end
  | _ => false
  end.

(** *** Property names of a model *)

Fixpoint instance_names_fuel (p : program) (fuel : nat) (c : string) : list string :=
  match find_class p c with
  | None => []
  | Some k =>
    let own := map m_name (filter (fun m => negb (m_static m)) (construct_members k)) in
    match fuel, class_parent k with
    | S f, Some par => (own ++ instance_names_fuel p f par)%list
    | _, _ => own
    end
  end.

(** [keyof T] for an instance type. *)
Definition keyof (p : program) (T : ty) : list string :=
  match T with
  | TInst c => nodup string_dec (instance_names_fuel p (List.length p) c)
  | _ => []
  end.

(** Line 149: [{ [K in keyof T]: T[K] extends Function ? never : K }[keyof T]]. *)
Definition NonFunctionPropertyNames (p : program) (T : ty) : list string :=
  match T with
  | TInst c =>
    filter (fun k => match lookup_member p c k with
                     | Some (_, m) => negb (is_function_member m)
                     | None => false
                     end) (keyof p T)
  | _ => []
  end.

(** Lines 197-200: [Exclude<NonFunctionPropertyNames<M>, 'QueryBuilderType'>]
    with [M = ModelType<QB>]. *)
Definition ModelProps_of (p : program) (QB : ty) : list string :=
  match index p QB "ModelType" with
  | Some M => filter (fun k => negb (String.eqb k "QueryBuilderType"))
                     (NonFunctionPropertyNames p M)
  | None => []
  end.

(** *** Arguments against parameter types *)

Definition is_any (a : arg) : bool :=
  match a with AExp TAny => true | _ => false end.

(** The name an object type gives an index signature, [[key: string]]. *)
Definition is_index_key (n : string) : bool := String.prefix "[" n.

(** The fields of interface [n<args>] of the declarations file, own and
    inherited: its properties, its methods as function-typed fields, and its
    index signatures. *)
Fixpoint interface_fields (fuel : nat) (n : string) (args : list texpr)
  : option (list (string * bool * texpr)) :=
  match find_construct declarations_file n with
  | Some (CInterface _ _ tps exts ms) =>
    let sigma := combine (map (fun tp => fst (fst tp)) tps) args in
    let own := flat_map (fun m => match m_shape m with
                                  | MProp t => [(m_name m, m_optional m, subst sigma t)]
                                  | MMethod _ _ => [(m_name m, m_optional m, TN "Function")]
                                  | MIndex k _ t =>
                                    [(("[" ++ k ++ ": string]")%string, true, subst sigma t)]
                                  | _ => []
                                  end) ms in
    match fuel with
    | O => Some own
    | S f =>
      Some (own ++ flat_map (fun x => match match x with
                                            | TN b => interface_fields f b []
                                            | TApp b a =>
                                              interface_fields f b (map (subst sigma) a)
                                            | _ => None
                                            end with
                                      | Some l => l
                                      | None => []
                                      end) exts)%list
    end
  | _ => None
  end.

Section Fits.
Variable p : program.
Variable e : env.
(** The mapped types, by name. *)
Variable mapped : string -> list texpr -> arg -> option bool.

Definition by_value (t : texpr) (a : arg) : bool :=
  match eval p e t, a with
  | Some T, AExp s => assignable p s T
  | _, _ => false
  end.

Fixpoint fits_with (a : arg) (t : texpr) {struct t} : bool :=
  match t with
  | TOr l r => fits_with a l || fits_with a r
  | TArrOf el =>
    match a with
    | AExp (TArr s) => fits_with (AExp s) el
    | AExp TAny => true
    | AArr items => forallb (fun i => fits_with i el) items
    | _ => false
    end
  | TLitS s => match a with
               | AExp (TStrLit s') => String.eqb s s'
               | _ => is_any a
               end
  | TKeyof x => match a, eval p e x with
                | AExp (TStrLit s), Some v => mem s (keyof p v)
                | _, _ => false
                end
  | TFn _ _ => match a with AFun => true | _ => is_any a end
  | TObjT fs =>
    match a with
    | AObj given =>
      let names := map (fun f => fst (fst f)) fs in
      (* no field but the declared ones, unless there is an index signature
         or nothing is declared at all *)
      forallb (fun g => mem (fst g) names || existsb is_index_key names
                        || match fs with [] => true | _ => false end) given
      && (fix each (ms : list (string * bool * texpr)) : bool :=
            match ms with
            | [] => true
            | (n, optional, ft) :: ms' =>
              (if is_index_key n
               then forallb (fun g => mem (fst g) names || fits_with (AExp (snd g)) ft)
                            given
               else match find (fun g => String.eqb (fst g) n) given with
                    | Some g => fits_with (AExp (snd g)) ft
                    | None => optional
                    end)
              && each ms'
            end) fs
    | _ => is_any a
    end
  | TApp n args =>
    match mapped n args a with
    | Some b => b
    | None =>
      match signatures_of t with
      | [] => by_value t a
      | _ => match a with AFun => true | _ => by_value t a end
      end
    end
  | TN n =>
    match lookup e n with
    | Some _ => by_value t a
    | None =>
      if String.eqb n "object" then
        match a with
        | AExp s => assignable p s TObject
        | _ => true
        end
      else
        match mapped n [] a with
        | Some b => b
        | None =>
          match signatures_of t with
          | [] => by_value t a
          | _ => match a with AFun => true | _ => by_value t a end
          end
        end
    end
  | TTypeof _ | TIdx _ _ | TAt _ _ | TCondT _ _ _ _ => by_value t a
  end.

End Fits.

Definition no_mapped (_ : string) (_ : list texpr) (_ : arg) : option bool := None.

(** Lines 154-161: the type [PartialModelObject<T>] gives to key [k], applied
    to a value of type [a].  There are no unions among the values here, so
    [Exclude<T[K], undefined>] is [T[K]]. *)
Definition PartialModelObject_accepts (p : program) (T : ty) (k : string) (a : ty) : bool :=
  let npv := fits_with p [] no_mapped (AExp a) NonPrimitiveValue in
  mem k (NonFunctionPropertyNames p T) &&
  match index p T k with
  | Some tk =>
    if assignable p tk (TInst "Model") then assignable p a tk
    else match tk with
         | TArr item =>
           if assignable p item (TInst "Model") then assignable p a (TArr item)
           else assignable p a tk || npv
         | _ => assignable p a tk || npv
         end
  | None => false
  end.

(** Lines 166-185: the type [PartialModelGraph<T>] gives to key [k], applied
    to a value of type [a]: the three keys of [GraphParameters], and the keys
    of [PartialModelObject<T>], where a relation takes the graph of the
    related model.  The fields of a literal are typed values, so the graph of
    a relation is given as a value: an instance of the related model. *)
Definition PartialModelGraph_accepts (p : program) (T : ty) (k : string) (a : ty) : bool :=
  match GraphParameters with
  | TObjT fs =>
    match find (fun f => String.eqb (fst (fst f)) k) fs with
    | Some (_, _, ft) => fits_with p [] no_mapped (AExp a) ft
    | None => PartialModelObject_accepts p T k a
    end
  | _ => false
  end.

(** [PartialModelObject<T>] takes an object literal whose keys are all among
    the mapped ones (the mapped properties are optional, and a literal may not
    carry others), a value that is an instance of [T], and the empty array
    literal: every property is optional and the intersection with [object]
    asks for nothing more.  An array with elements is left to a signature
    that takes an array, as [insert] has one.  [PartialModelGraph<T>] takes
    an object literal and an instance likewise, and no array: both parts of
    its intersection have optional properties only, of which an array has
    none.  [ModelProps<QB>] takes one of its string literals.  An interface
    of the declarations file that has no call signature takes an object
    literal field by field. *)
Definition mapped (p : program) (e : env) (n : string) (args : list texpr) (a : arg)
  : option bool :=
  if String.eqb n "PartialModelObject" then
    match args with
    | [m] =>
      match eval p e m, a with
      | Some T, AObj fs =>
        Some (forallb (fun f => PartialModelObject_accepts p T (fst f) (snd f)) fs)
      | Some T, AExp s => Some (assignable p s T)
      | Some T, AArr [] => Some true
      | _, _ => Some false
      end
    | _ => Some false
    end
  else if String.eqb n "ModelProps" then
    match args with
    | [q] =>
      match eval p e q, a with
      | Some Q, AExp (TStrLit s) => Some (mem s (ModelProps_of p Q))
      | _, _ => Some false
      end
    | _ => Some false
    end
  else if String.eqb n "PartialModelGraph" then
    match args with
    | [m] =>
      match eval p e m, a with
      | Some T, AObj fs =>
        Some (forallb (fun f => PartialModelGraph_accepts p T (fst f) (snd f)) fs)
      | Some T, AExp s => Some (assignable p s T)
      | _, _ => Some false
      end
    | _ => Some false
    end
  else
    match a with
    | AObj _ =>
      match interface_fields 3 n args, signatures_of (TApp n args) with
      | Some fields, [] => Some (fits_with p e no_mapped a (TObjT fields))
      | Some _, _ :: _ => Some false
      | None, _ => None
      end
    | _ => None
    end.

Definition fits (p : program) (e : env) : arg -> texpr -> bool :=
  fits_with p e (mapped p e).

(** *** One call signature applied to a receiver and arguments *)

Fixpoint match_args (p : program) (e : env) (ps : list param) (args : list arg) : bool :=
  match ps, args with
  | [], [] => true
  | [], _ :: _ => false
  | q :: ps', [] =>
    match p_mode q with
    | Req => false
    | _ => match_args p e ps' []
    end
  | q :: ps', a :: args' =>
    match p_mode q with
    | Rest => fits p e (AArr args) (p_type q)
    | _ => fits p e a (p_type q) && match_args p e ps' args'
    end
  end.

(** The argument given at the first parameter declared with type [n]. *)
Fixpoint inferred (n : string) (ps : list param) (args : list arg) : option ty :=
  match ps, args with
  | q :: ps', a :: args' =>
    match p_type q, a with
    | TN m, AExp t => if String.eqb m n then Some t else inferred n ps' args'
    | _, _ => inferred n ps' args'
    end
  | _, _ => None
  end.

(** A type parameter is the receiver when it types [this], else the argument
    at a parameter of that very type when it meets the constraint, else the
    constraint itself. *)
Definition bind_tparam (p : program) (ps : list param) (args : list arg)
  (e : env) (tp : string * option texpr) : env :=
  let (n, c) := tp in
  match lookup e n with
  | Some _ => e
  | None =>
    match inferred n ps args with
    | Some t =>
      match c with
      | Some ce => if fits p e (AExp t) ce then (e ++ [(n, t)])%list else e
      | None => (e ++ [(n, t)])%list
      end
    | None =>
      match c with
      | Some ce => match eval p e ce with
                   | Some v => (e ++ [(n, v)])%list
                   | None => e
                   end
      | None => e
      end
    end
  end.

Definition overload_env (p : program) (recv : ty) (args : list arg) (o : overload) : env :=
  let e0 := ("this", recv) :: match o_this o with
                              | Some (TN x) => [(x, recv)]
                              | _ => []
                              end in
  fold_left (bind_tparam p (o_params o) args) (o_tparams o) e0.

(** The receiver meets the constraint of the type parameter that types
    [this]. *)
Definition this_ok (p : program) (e : env) (recv : ty) (o : overload) : bool :=
  match o_this o with
  | Some (TN x) =>
    match find (fun tp => String.eqb (fst tp) x) (o_tparams o) with
    | Some (_, Some c) => fits p e (AExp recv) c
    | _ => true
    end
  | Some t => fits p e (AExp recv) t
  | None => true
  end.

(** The return type [o] declares, read at receiver [recv] with no argument
    given.  It says nothing of whether a call is accepted: the constraint on
    the receiver and the arguments are checked by [applicable]. *)
Definition return_type (p : program) (recv : ty) (o : overload) : option ty :=
  eval p (overload_env p recv [] o) (o_ret o).

(** The signature takes the receiver and the arguments. *)
Definition applicable (p : program) (recv : ty) (args : list arg) (o : overload) : bool :=
  let e := overload_env p recv args o in
  this_ok p e recv o && match_args p e (o_params o) args.

Definition apply_overload (p : program) (recv : ty) (args : list arg) (o : overload)
  : option ty :=
  if applicable p recv args o
  then eval p (overload_env p recv args o) (o_ret o)
  else None.

(** The call is typed by the first signature that takes the receiver and the
    arguments: its return type is the type of the call, and the signatures
    after it are not looked at. *)
Fixpoint first_applicable (p : program) (recv : ty) (args : list arg)
  (sigs : list overload) : option ty :=
  match sigs with
  | [] => None
  | o :: rest_ =>
    if applicable p recv args o
    then eval p (overload_env p recv args o) (o_ret o)
    else first_applicable p recv args rest_
  end.

Definition member_signatures (m : member) : list overload :=
  match m_shape m with
  | MMethod s _ => [s]
  | MProp t => signatures_of t
  | _ => []
  end.

Definition find_method (p : program) (recv : ty) (name : string) : option member :=
  option_map snd
    match recv with
    | TQB c _ _ | TInst c => lookup_member p c name
    | TClass c => lookup_static p c name
    | _ => None
    end.

(** The type of [recv.name(args)]. *)
Definition call (p : program) (recv : ty) (name : string) (args : list arg) : option ty :=
  bind (find_method p recv name)
       (fun m => first_applicable p recv args (member_signatures m)).

(** *** Expressions *)

Definition arg_of_lit (l : lit) : arg :=
  let lit_ty := fun l' => match l' with
                          | LStr s => TStrLit s
                          | LNum n => TNumLit n
                          | LObj _ => TObject
                          end in
  match l with
  | LObj fs => AObj (map (fun f => (fst f, lit_ty (snd f))) fs)
  | _ => AExp (lit_ty l)
  end.

Fixpoint typeof (p : program) (x : expr) : option ty :=
  match x with
  | EName n => if is_class p n then Some (TClass n) else None
  | ENew c => if is_class p c && is_a p c "Model" then Some (TInst c) else None
  | ECall r m args => bind (typeof p r) (fun T => call p T m (map arg_of_lit args))
  end.

(** The properties a class declares, each with the type the class gives it
    and the type its parent gives it, for a receiver of type [T]. *)
Definition redeclarations (p : program) (c : construct) (T : ty)
  : list (string * option ty * option ty) :=
  flat_map (fun m =>
    match m_shape m with
    | MProp _ =>
      [(m_name m,
        index_from p T (construct_name c) (m_name m),
        match class_parent c with
        | Some par => index_from p T par (m_name m)
        | None => None
        end)]
    | _ => []
    end) (construct_members c).

(** A property type-checks when its type resolves and, where the parent has
    the property too, is assignable to the parent's. *)
Definition redeclaration_ok (p : program) (r : string * option ty * option ty) : bool :=
  match r with
  | (_, Some child, Some parent) => assignable p child parent
  | (_, Some _, None) => true
  | (_, None, _) => false
  end.

(** A method with a body type-checks when the body returns what the
    signature says: [return this;] against the polymorphic [this]. *)
Definition body_ok (m : member) : bool :=
  match m_shape m with
  | MMethod s (Some [SReturnThis]) =>
    match o_ret s with TN n => String.eqb n "this" | _ => false end
  | MMethod _ (Some _) => false
  | _ => true
  end.

Definition class_checks (p : program) (c : construct) (T : ty) : bool :=
  forallb (redeclaration_ok p) (redeclarations p c T)
  && forallb body_ok (construct_members c).

(** A constant with an annotation and an initialiser type-checks when the
    type of the initialiser is assignable to the annotation. *)
Definition const_checks (p : program) (c : construct) : bool :=
  match c with
  | CConst _ (Some annot) (Some init) =>
    match typeof p init, eval p [] annot with
    | Some T, Some A => assignable p T A
    | _, _ => false
    end
  | _ => false
  end.

(** The program of the repository: both files loaded together. *)
Definition repository : program :=
  (f_constructs declarations_file ++ f_constructs Example.example_file)%list.

(** The builder classes of a program: [QueryBuilder] and what extends it. *)
Definition builders_of (p : program) : list string :=
  filter (fun n => is_a p n "QueryBuilder")
         (map construct_name (filter (fun c => ckind_eqb (kind_of c) KClass) p)).

End Semantics.

(* ------------------------------------------------------------------ *)
(** ** What a file implements *)

Module Inventory.
Import TypeSyntax Source Declarations Example.

Definition repository_files : list file := [declarations_file; example_file].

Definition file_has_runtime_content (f : file) : bool :=
  existsb has_runtime_content (f_constructs f).

Definition count_kind (f : file) (k : ckind) : nat :=
  List.length (filter (fun c => ckind_eqb (kind_of c) k) (f_constructs f)).

Definition names_of_kind (f : file) (k : ckind) : list string :=
  map construct_name (filter (fun c => ckind_eqb (kind_of c) k) (f_constructs f)).

(** A construct that only describes types: a constant with an annotation and
    no initialiser, a type alias, an interface or a class without bodies. *)
Definition type_only (c : construct) : bool :=
  match c with
  | CConst _ (Some _) None => true
  | CConst _ _ _ => false
  | CType _ _ _ => true
  | CInterface _ _ _ _ _ | CClass _ _ _ _ _ => negb (construct_has_body c)
  end.

Definition is_alias_interface_or_class (c : construct) : bool :=
  match kind_of c with
  | KTypeAlias | KInterface | KClass => true
  | KConst => false
  end.

(** The [extends] edges between classes, declared or implemented. *)
Definition hierarchy (cs : list construct) : list (string * string) :=
  flat_map (fun c => match class_parent c with
                     | Some par => [(construct_name c, par)]
                     | None => []
                     end)
           (filter (fun c => ckind_eqb (kind_of c) KClass) cs).

Definition declared_hierarchy (f : file) : list (string * string) :=
  hierarchy (f_constructs f).

Definition implemented_hierarchy (f : file) : list (string * string) :=
  hierarchy (implemented_classes f).

(** Names a type expression mentions at its head or under an array. *)
Fixpoint mentions (t : texpr) : list string :=
  match t with
  | TN n => [n]
  | TApp n _ => [n]
  | TArrOf el => mentions el
  | TOr l r => mentions l ++ mentions r
  | _ => []
  end.

(** The implemented classes a class refers to in its property types. *)
Definition class_references (f : file) (c : construct) : list string :=
  let impl := map construct_name (implemented_classes f) in
  filter (fun n => existsb (String.eqb n) impl)
    (flat_map (fun m => match m_shape m with
                        | MProp t => mentions t
                        | _ => []
                        end) (construct_members c)).

(** Two implemented classes that refer to each other. *)
Definition mutual_references (f : file) : list (string * string) :=
  flat_map (fun c =>
    flat_map (fun d =>
      if existsb (String.eqb (construct_name d)) (class_references f c)
         && existsb (String.eqb (construct_name c)) (class_references f d)
         && negb (String.eqb (construct_name c) (construct_name d))
      then [(construct_name c, construct_name d)] else [])
      (implemented_classes f))
    (implemented_classes f).

(** Module-level values that exist when the file runs. *)
Definition module_values (f : file) : list string :=
  map construct_name (filter construct_has_initialiser (f_constructs f)).

(** Methods with a body, by class. *)
Definition implemented_methods (f : file) : list (string * string) :=
  flat_map (fun c => map (fun m => (construct_name c, m_name m))
                         (filter member_has_body (construct_members c)))
           (f_constructs f).

Definition member_type (c : construct) (n : string) : option (bool * texpr) :=
  match find_member c n with
  | Some m => match m_shape m with
              | MProp t => Some (m_optional m, t)
              | _ => None
              end
  | None => None
  end.

(** Property [m] of construct [n] of file [f]: whether optional, and its type. *)
Definition declared_member (f : file) (n m : string) : option (bool * texpr) :=
  match find_construct f n with
  | Some c => member_type c m
  | None => None
  end.

Definition declared_members (f : file) (n : string) : option (list member) :=
  option_map construct_members (find_construct f n).

Definition declared_parent (f : file) (n : string) : option string :=
  match find_construct f n with
  | Some c => class_parent c
  | None => None
  end.

Definition member_names (f : file) (n : string) : list string :=
  match find_construct f n with
  | Some c => map (fun m => if m_optional m then m_name m ++ "?" else m_name m)
                  (construct_members c)
  | None => []
  end.

End Inventory.

(* ------------------------------------------------------------------ *)
(** ** Chains of calls *)

Module Chains.
Import TypeSyntax Methods Source Declarations Semantics.

(** The four members through which a builder names its sibling builders
    (lines 732-735). *)
Definition type_members : list string :=
  ["ArrayQueryBuilderType"; "SingleQueryBuilderType"; "NumberQueryBuilderType";
   "PageQueryBuilderType"].

(** A conditional type that tests one string literal against another is
    decided where it is written: [DeriveQBType<QB, 'Array'>] is
    [QB['ArrayQueryBuilderType']]. *)
Fixpoint decide_literals (t : texpr) : texpr :=
  match t with
  | TCondT (TLitS a) (TLitS b) x y =>
    if String.eqb a b then decide_literals x else decide_literals y
  | _ => t
  end.

(** [t] is one of [names], or a member among [keys] of one of them, or a
    conditional type all of whose parts are such. *)
Fixpoint derived (names keys : list string) (t : texpr) : bool :=
  match t with
  | TN n => mem n names
  | TIdx (TN n) k => mem n names && mem k keys
  | TCondT c x a b =>
    derived names keys c && derived names keys x
    && derived names keys a && derived names keys b
  | _ => false
  end.

(** The names a signature gives its receiver: [this], and the type parameter
    that types the [this] parameter. *)
Definition receiver_names (o : overload) : list string :=
  "this" :: match o_this o with
            | Some (TN x) => [x]
            | _ => []
            end.

(** The return type of [o] is the receiver's type or derived from it through
    the members [keys]. *)
Definition this_polymorphic (keys : list string) (o : overload) : bool :=
  derived (receiver_names o) keys (decide_literals (o_ret o)).

Definition member_polymorphic (keys : list string) (m : member) : bool :=
  forallb (this_polymorphic keys) (member_signatures m).

(** The return type is one of the named types [names]. *)
Definition returns_named (names : list string) (o : overload) : bool :=
  match o_ret o with
  | TN n => mem n names
  | _ => false
  end.

Definition declares_this (o : overload) : bool :=
  match o_this o with Some _ => true | None => false end.

(** Class [c] of program [p] keeps member [k] to itself: at every [M] and [R],
    [c<M, R>['k']] is again a [c<M, _>]. *)
Definition keeps (p : program) (c k : string) : Prop :=
  forall M R, exists R', index p (TQB c M R) k = Some (TQB c M R').

(** The type after a chain of calls [.name(args)]. *)
Fixpoint call_chain (p : program) (T : ty) (steps : list (string * list arg))
  : option ty :=
  match steps with
  | [] => Some T
  | (n, args) :: steps' => bind (call p T n args) (fun T' => call_chain p T' steps')
  end.

(** The member that [.name] finds on a builder of class [c] is polymorphic
    (a name that finds nothing types no call). *)
Definition step_polymorphic (p : program) (c : string) (keys : list string)
  (name : string) : bool :=
  match lookup_member p c name with
  | Some (_, m) => member_polymorphic keys m
  | None => true
  end.

(** Whether [.name] finds a member on a value of type [T]. *)
Definition has_method (p : program) (T : ty) (name : string) : bool :=
  match find_method p T name with Some _ => true | None => false end.

End Chains.

(* ------------------------------------------------------------------ *)
(** ** Functions and interfaces called directly *)

Module Callables.
Import TypeSyntax Methods Source Declarations Semantics Chains.

(** The model classes of a program: [Model] and what extends it. *)
Definition models_of (p : program) : list string :=
  filter (fun n => is_a p n "Model")
         (map construct_name (filter (fun c => ckind_eqb (kind_of c) KClass) p)).

(** The classes of a program that are not model classes. *)
Definition non_models_of (p : program) : list string :=
  filter (fun n => negb (is_a p n "Model"))
         (map construct_name (filter (fun c => ckind_eqb (kind_of c) KClass) p)).

(** The signature returns the very name that stands for its receiver. *)
Definition returns_receiver (o : overload) : bool :=
  match o_ret o with
  | TN n => mem n (receiver_names o)
  | _ => false
  end.

Definition member_returns_receiver (m : member) : bool :=
  match member_signatures m with
  | [] => false
  | sigs => forallb returns_receiver sigs
  end.

(** [t] is [QueryBuilder<any>], which is what [AnyQueryBuilder] stands for
    (line 126). *)
Definition is_AnyQueryBuilder (t : texpr) : bool :=
  match t with
  | TApp n [TN a] => String.eqb n "QueryBuilder" && String.eqb a "any"
  | _ => false
  end.

(** [<QB extends AnyQueryBuilder>(this: QB, ...)]: the receiver is typed by a
    parameter constrained by [AnyQueryBuilder], and no type parameter is
    called [any]. *)
Definition constrained_by_AnyQueryBuilder (o : overload) : bool :=
  match o_this o with
  | Some (TN x) =>
    match find (fun tp => String.eqb (fst tp) x) (o_tparams o) with
    | Some (_, Some c) =>
      is_AnyQueryBuilder c && negb (mem "any" ("this" :: map fst (o_tparams o)))
    | _ => false
    end
  | _ => false
  end.

(** A call [name(args)] of a function constant of a file, such as [raw],
    [ref], [mixin] (lines 21-29): the signatures are those of the constant's
    annotation; there is no receiver. *)
Definition call_function (p : program) (f : file) (name : string) (args : list arg)
  : option ty :=
  match find_construct f name with
  | Some (CConst _ (Some annot) _) => first_applicable p TVoid args (signatures_of annot)
  | _ => None
  end.

(** Member [name] of interface [n] of the declarations file, its own or one
    of an interface it extends. *)
Fixpoint interface_member (fuel : nat) (n name : string) : option member :=
  match find_construct declarations_file n with
  | Some (CInterface _ _ _ exts ms) =>
    match find (fun m => String.eqb (m_name m) name) ms with
    | Some m => Some m
    | None =>
      match fuel with
      | O => None
      | S f =>
        (fix among (xs : list texpr) : option member :=
           match xs with
           | [] => None
           | x :: rest_ =>
             match match x with
                   | TN b | TApp b _ => interface_member f b name
                   | _ => None
                   end with
             | Some m => Some m
             | None => among rest_
             end
           end) exts
      end
    end
  | _ => None
  end.

(** The type of [recv.name(args)] for a receiver typed by an interface. *)
Definition call_named (p : program) (recv : ty) (name : string) (args : list arg)
  : option ty :=
  match recv with
  | TNamed n =>
    match interface_member 3 n name with
    | Some m => first_applicable p recv args (member_signatures m)
    | None => None
    end
  | _ => None
  end.

(** A chain of argument-less calls on an interface value. *)
Fixpoint named_chain (p : program) (T : ty) (names : list string) : option ty :=
  match names with
  | [] => Some T
  | n :: names' => bind (call_named p T n []) (fun T' => named_chain p T' names')
  end.

(** The [QueryBuilder] members every signature of which types the receiver
    by a parameter constrained by [AnyQueryBuilder]. *)
Definition constrained_members : list string :=
  map m_name (filter (fun m => match member_signatures m with
                               | [] => false
                               | sigs => forallb constrained_by_AnyQueryBuilder sigs
                               end) QueryBuilder_methods).

(** Member [name] of [T] exists and each of its signatures returns the name
    of its receiver. *)
Definition keeps_receiver (p : program) (T : ty) (name : string) : bool :=
  match find_method p T name with
  | Some m => member_returns_receiver m
  | None => false
  end.

(** Types of values of the alternatives of [Value] (lines 91-107): the
    primitive values, arrays of them, and the three builders and a query
    builder of [NonPrimitiveValue]. *)
Definition plain_values : list ty :=
  [TString; TNumber; TBoolean; TDate; TNull; TBuffer;
   TArr TString; TArr TNumber; TArr TBoolean; TArr TDate;
   TNamed "RawBuilder"; TNamed "ReferenceBuilder"; TNamed "LiteralBuilder";
   TQB "QueryBuilder" (TInst "Model") (TArr (TInst "Model"))].

(** No parameter of the list is a rest parameter. *)
Definition no_rest (ps : list param) : bool :=
  forallb (fun q => match p_mode q with Rest => false | _ => true end) ps.

(** The argument-less members of [Castable] (lines 75-84). *)
Definition cast_methods : list string :=
  ["castText"; "castInt"; "castBigInt"; "castFloat"; "castDecimal"; "castReal";
   "castBool"; "castJson"; "castArray"; "asArray"].

End Callables.

(* ------------------------------------------------------------------ *)
(** ** Properties *)

Import TypeSyntax Methods Source Declarations Example Semantics Inventory Chains.
Import Callables.

(** *** Facts about the model *)

Lemma is_a_refl (p : program) (c : string) : is_a p c c = true.
Proof.
  unfold is_a. destruct (List.length p); simpl; now rewrite String.eqb_refl.
Qed.

Lemma assignable_to_any (p : program) (s : ty) : assignable p s TAny = true.
Proof. reflexivity. Qed.

Lemma assignable_arrays (p : program) (a b : ty) :
  assignable p (TArr a) (TArr b) = assignable p a b.
Proof. reflexivity. Qed.

Lemma assignable_promises (p : program) (a b : ty) :
  assignable p (TPromise a) (TPromise b) = assignable p a b.
Proof. reflexivity. Qed.

Lemma assignable_pages (p : program) (a b : ty) :
  assignable p (TPage a) (TPage b) = assignable p a b.
Proof. reflexivity. Qed.

Lemma reaches_refl (p : program) (c : string) : reaches p c c = Some [0; 1]%nat.
Proof.
  unfold reaches. destruct (List.length p); simpl; now rewrite String.eqb_refl.
Qed.

(** When the [extends] clauses hand [M] and [R] on in place, builders are
    compared argument by argument. *)
Lemma assignable_builders (p : program) (c d : string) (m r m' r' : ty) :
  reaches p c d = Some [0; 1]%nat ->
  assignable p (TQB c m r) (TQB d m' r') = assignable p m m' && assignable p r r'.
Proof.
  intros H. unfold assignable at 1. cbn [assignable_rec]. rewrite H. reflexivity.
Qed.

Lemma assignable_builders_same (p : program) (c : string) (m r m' r' : ty) :
  assignable p (TQB c m r) (TQB c m' r') = assignable p m m' && assignable p r r'.
Proof. apply assignable_builders, reaches_refl. Qed.

Lemma assignable_builder_promise (p : program) (c : string) (m r r' : ty) :
  reaches p c "Promise" = Some [1%nat] ->
  assignable p (TQB c m r) (TPromise r') = assignable p r r'.
Proof.
  intros H. unfold assignable at 1. cbn [assignable_rec]. rewrite H. reflexivity.
Qed.

Lemma assignable_refl (p : program) (t : ty) : assignable p t t = true.
Proof.
  induction t; try reflexivity.
  - apply String.eqb_refl.
  - apply Z.eqb_refl.
  - now rewrite assignable_arrays.
  - apply is_a_refl.
  - apply is_a_refl.
  - now rewrite assignable_builders_same, IHt1, IHt2.
  - now rewrite assignable_promises.
  - now rewrite assignable_pages.
  - unfold assignable. cbn [assignable_rec]. now rewrite String.eqb_refl.
Qed.

Lemma repository_builders : builders_of repository = ["QueryBuilder"; "CustomQueryBuilder"].
Proof. vm_compute. reflexivity. Qed.

(** In the repository the [extends] clauses hand [M] and [R] on in place:
    [QueryBuilder<M, R> extends Promise<R>] and
    [CustomQueryBuilder<M, R> extends QueryBuilder<M, R>]. *)
Lemma repository_builders_are_promises :
  Forall (fun c => reaches repository c "Promise" = Some [1%nat]) (builders_of repository).
Proof. rewrite repository_builders. repeat constructor. Qed.

Lemma repository_builders_reach :
  Forall (fun c => reaches repository c "QueryBuilder" = Some [0; 1]%nat)
         (builders_of repository).
Proof. rewrite repository_builders. repeat constructor. Qed.

(** *** The example *)

(** C1: the three initialisers of the example type-check against the
    declarations.  [Person.query().someCustomMethod().where('firstName',
    'lol').someCustomMethod()] is a [CustomQueryBuilder<Person, Person[]>],
    [new Person().$relatedQuery('pets').someCustomMethod().where('id',
    1).first().someCustomMethod()] is a [CustomQueryBuilder<Animal, Animal>],
    [Person.query().someCustomMethod().patch({ firstName: 'test'
    }).someCustomMethod()] is a [CustomQueryBuilder<Person, number>], and each
    is assignable to its annotation, [Promise<Person[]>], [Promise<Animal>]
    and [Promise<number>]. *)
Theorem example_chains_type_check :
  typeof repository people_init
  = Some (TQB "CustomQueryBuilder" (TInst "Person") (TArr (TInst "Person")))
  /\ eval repository [] people_annotation = Some (TPromise (TArr (TInst "Person")))
  /\ typeof repository pets_init
     = Some (TQB "CustomQueryBuilder" (TInst "Animal") (TInst "Animal"))
  /\ eval repository [] pets_annotation = Some (TPromise (TInst "Animal"))
  /\ typeof repository numUpdated_init
     = Some (TQB "CustomQueryBuilder" (TInst "Person") TNumber)
  /\ eval repository [] numUpdated_annotation = Some (TPromise TNumber)
  /\ map (fun c => (construct_name c, const_checks repository c))
         (filter construct_has_initialiser (f_constructs example_file))
     = [("people", true); ("pets", true); ("numUpdated", true)]
  /\ (forall M R,
        class_checks repository CustomQueryBuilder_class (TQB "CustomQueryBuilder" M R)
        = true)
  /\ map (fun c => (construct_name c, class_checks repository c (TInst (construct_name c))))
         [BaseModel_class; Animal_class; Person_class]
     = [("BaseModel", true); ("Animal", true); ("Person", true)].
Proof.
  do 7 (split; [vm_compute; reflexivity|]).
  split; [|vm_compute; reflexivity].
  intros M0 R0. unfold class_checks.
  replace (redeclarations repository CustomQueryBuilder_class
             (TQB "CustomQueryBuilder" M0 R0))
    with [("ArrayQueryBuilderType", Some (TQB "CustomQueryBuilder" M0 (TArr M0)),
           Some (TQB "QueryBuilder" M0 (TArr M0)));
          ("SingleQueryBuilderType", Some (TQB "CustomQueryBuilder" M0 M0),
           Some (TQB "QueryBuilder" M0 M0));
          ("NumberQueryBuilderType", Some (TQB "CustomQueryBuilder" M0 TNumber),
           Some (TQB "QueryBuilder" M0 TNumber))]
    by (vm_compute; reflexivity).
  replace (forallb body_ok (construct_members CustomQueryBuilder_class)) with true
    by (vm_compute; reflexivity).
  cbn [forallb redeclaration_ok].
  rewrite !(assignable_builders repository "CustomQueryBuilder" "QueryBuilder")
    by reflexivity.
  rewrite !assignable_refl.
  reflexivity.
Qed.

(** *** Runtime content *)

(** C2, as stated, fails: the example file holds a method with a body,
    [someCustomMethod() { return this; }] in [CustomQueryBuilder], so not
    every file of the repository is free of executable function bodies. *)
Lemma example_method_has_body :
  ~ (forall f, In f repository_files -> file_has_runtime_content f = false).
Proof.
  intro H. specialize (H example_file (or_intror (or_introl eq_refl))).
  vm_compute in H. discriminate H.
Qed.

(** C2, amended: no construct of the declarations file has a function body or
    an initialiser, and the file is ambient; the runtime content of the
    repository is in the example file: the body of
    [CustomQueryBuilder.someCustomMethod], which is [return this;], and the
    initialisers of [people], [pets] and [numUpdated]. *)
Theorem declarations_have_no_runtime_content :
  f_ambient declarations_file = true
  /\ forallb (fun c => negb (has_runtime_content c)) (f_constructs declarations_file) = true
  /\ implemented_methods declarations_file = []
  /\ module_values declarations_file = []
  /\ implemented_methods example_file = [("CustomQueryBuilder", "someCustomMethod")]
  /\ option_map member_body (find_member CustomQueryBuilder_class "someCustomMethod")
     = Some (Some [SReturnThis])
  /\ module_values example_file = ["people"; "pets"; "numUpdated"].
Proof. repeat split; vm_compute; reflexivity. Qed.

(** *** Kinds of construct *)

(** C3, as stated, fails: the namespace opens with seven constant
    declarations, [raw] first, which are neither type aliases nor interfaces
    nor classes. *)
Lemma namespace_declares_constants :
  In (CConst "raw" (Some (TN "RawFunction")) None) (f_constructs declarations_file)
  /\ is_alias_interface_or_class (CConst "raw" (Some (TN "RawFunction")) None) = false
  /\ forallb is_alias_interface_or_class (f_constructs declarations_file) = false.
Proof.
  split; [left; reflexivity | split; vm_compute; reflexivity].
Qed.

(** C3, amended: every construct of the declarations file is a type alias, an
    interface, a class shape or an ambient constant declaration (an annotated
    [const] without initialiser), none with a body; the file is the ambient
    namespace [Objection], exported whole; the constants are [raw], [lit],
    [ref], [compose], [mixin], [snakeCaseMappers] and [knexSnakeCaseMappers],
    beside 38 aliases, 105 interfaces and 5 classes. *)
Theorem declaration_kinds :
  forallb type_only (f_constructs declarations_file) = true
  /\ f_ambient declarations_file = true
  /\ f_namespace declarations_file = Some "Objection"
  /\ f_export_assignment declarations_file = Some "Objection"
  /\ names_of_kind declarations_file KConst
     = ["raw"; "lit"; "ref"; "compose"; "mixin"; "snakeCaseMappers";
        "knexSnakeCaseMappers"]
  /\ map (count_kind declarations_file) [KConst; KTypeAlias; KInterface; KClass]
     = [7; 38; 105; 5]%nat
  /\ names_of_kind declarations_file KClass
     = ["QueryBuilder"; "Validator"; "AjvValidator"; "ValidationError"; "Model"].
Proof. repeat split; vm_compute; reflexivity. Qed.

(** *** The validation error *)

(** C4, as stated, fails: the [data] field of [ValidationError] is declared
    [ErrorHash | any], not [ErrorHash]; the union takes a number, which
    [ErrorHash] alone does not. *)
Lemma validation_error_data_accepts_any :
  declared_member declarations_file "ValidationError" "data"
  = Some (true, TOr (TN "ErrorHash") (TN "any"))
  /\ TOr (TN "ErrorHash") (TN "any") <> TN "ErrorHash"
  /\ fits repository [] (AExp TNumber) (TOr (TN "ErrorHash") (TN "any")) = true
  /\ fits repository [] (AExp TNumber) (TN "ErrorHash") = false.
Proof.
  repeat split; try (vm_compute; reflexivity). discriminate.
Qed.

(** C4, amended: [ValidationError] is declared as a subclass of [Error] with a
    numeric [statusCode], a string [message], an optional [data] field of type
    [ErrorHash | any] and a [type] field of type [ValidationErrorType], whose
    members are exactly ['ModelValidation'], ['RelationExpression'],
    ['UnallowedRelation'] and ['InvalidGraph']; [ErrorHash] maps each column
    name to an array of [ValidationErrorItem], each with [message], [keyword]
    and [params]; the constructor takes a [CreateValidationErrorArgs], in
    which [type] may also be any string. *)
Theorem validation_error_shape :
  declares declarations_file "ValidationError" KClass = true
  /\ declared_parent declarations_file "ValidationError" = Some "Error"
  /\ declared_member declarations_file "ValidationError" "statusCode"
     = Some (false, TN "number")
  /\ declared_member declarations_file "ValidationError" "message"
     = Some (false, TN "string")
  /\ declared_member declarations_file "ValidationError" "data"
     = Some (true, TOr (TN "ErrorHash") (TN "any"))
  /\ declared_member declarations_file "ValidationError" "type"
     = Some (false, ValidationErrorType)
  /\ alternatives ValidationErrorType
     = [TLitS "ModelValidation"; TLitS "RelationExpression";
        TLitS "UnallowedRelation"; TLitS "InvalidGraph"]
  /\ declared_members declarations_file "ValidationError"
     = Some [ctor [req "args" (TN "CreateValidationErrorArgs")];
             prop "statusCode" (TN "number");
             prop "message" (TN "string");
             oprop "data" (TOr (TN "ErrorHash") (TN "any"));
             prop "type" ValidationErrorType]
  /\ declared_member declarations_file "CreateValidationErrorArgs" "type"
     = Some (false, TOr ValidationErrorType (TN "string"))
  /\ fits repository [] (AExp (TStrLit "MyCustomError"))
          (TOr ValidationErrorType (TN "string")) = true
  /\ fits repository [] (AExp (TStrLit "MyCustomError")) ValidationErrorType = false
  /\ declared_members declarations_file "ErrorHash"
     = Some [indexed "columnName" (TN "string") (TArrOf (TN "ValidationErrorItem"))]
  /\ declared_members declarations_file "ValidationErrorItem"
     = Some [prop "message" (TN "string"); prop "keyword" (TN "string");
             prop "params" (TN "Pojo")].
Proof. repeat split; vm_compute; reflexivity. Qed.

(** *** The four families of shapes *)

(** C5: the declarations hold the four families: the class [QueryBuilder],
    each of whose 117 query-building members is typed by an interface of call
    signatures declared in the file; the relation-mapping objects
    [RelationMappings], [RelationMapping], [RelationJoin] and
    [RelationThrough]; the validation-error structures [ValidationError] and
    [ErrorHash]; the case-mapping objects [SnakeCaseMappersOptions],
    [ColumnNameMappers] and [KnexMappers]. *)
Theorem shape_families_declared :
  declares declarations_file "QueryBuilder" KClass = true
  /\ List.length QueryBuilder_methods = 117%nat
  /\ forallb (fun m => match member_signatures m with [] => false | _ => true end)
             QueryBuilder_methods = true
  /\ forallb (fun n => declares declarations_file n KInterface)
       ["RelationMappings"; "RelationMapping"; "RelationJoin"; "RelationThrough";
        "ErrorHash"; "SnakeCaseMappersOptions"; "ColumnNameMappers"; "KnexMappers"] = true
  /\ declares declarations_file "ValidationError" KClass = true
  /\ declared_members declarations_file "RelationMappings"
     = Some [indexed "relationName" (TN "string") (TN "RelationMapping")]
  /\ map (member_names declarations_file)
       ["RelationMapping"; "RelationJoin"; "RelationThrough"]
     = [["relation"; "modelClass"; "join"; "modify?"; "filter?"; "beforeInsert?"];
        ["from"; "to"; "through?"];
        ["from"; "to"; "extra?"; "modelClass?"; "beforeInsert?"]]
  /\ declared_member declarations_file "RelationMapping" "join"
     = Some (false, TN "RelationJoin")
  /\ declared_member declarations_file "RelationJoin" "through"
     = Some (true, TN "RelationThrough")
  /\ map (member_names declarations_file)
       ["SnakeCaseMappersOptions"; "ColumnNameMappers"; "KnexMappers"]
     = [["upperCase?"; "underscoreBeforeDigits?"];
        ["parse"; "format"];
        ["wrapIdentifier"; "postProcessResponse"]]
  /\ map o_ret (signatures_of (TN "SnakeCaseMappersFactory")) = [TN "ColumnNameMappers"]
  /\ map o_ret (signatures_of (TN "KnexSnakeCaseMappersFactory")) = [TN "KnexMappers"]
  /\ map o_params (signatures_of (TN "SnakeCaseMappersFactory"))
     = [[opt "options" (TN "SnakeCaseMappersOptions")]].
Proof. repeat split; vm_compute; reflexivity. Qed.

(** *** Builders are promises *)

Lemma await_type_not_thenable (p : program) (t : ty) :
  thenable p t = false -> await_type p t = t.
Proof.
  destruct t; try reflexivity; simpl.
  - destruct (reaches p cls "Promise") as [[|i [|j l]]|]; try reflexivity. discriminate.
  - discriminate.
Qed.

(** C6, as stated, fails for a result type that is a promise in turn: [R] is
    not constrained, [QueryBuilder<Model, Promise<number>>] is assignable to
    [Promise<Promise<number>>] and its [ResultType] is [Promise<number>], but
    [await] unwraps promises at every level, so awaiting it yields [number],
    not its [ResultType]. *)
Lemma promise_result_awaits_further :
  let b := TQB "QueryBuilder" (TInst "Model") (TPromise TNumber) in
  index repository b "ResultType" = Some (TPromise TNumber)
  /\ assignable repository b (TPromise (TPromise TNumber)) = true
  /\ await_type repository b = TNumber
  /\ await_type repository b <> TPromise TNumber
  /\ ~ (forall c M R, In c (builders_of repository) ->
                      await_type repository (TQB c M R) = R).
Proof.
  do 3 (split; [vm_compute; reflexivity|]).
  split; [vm_compute; discriminate|].
  intros H.
  specialize (H "QueryBuilder" (TInst "Model") (TPromise TNumber) (or_introl eq_refl)).
  vm_compute in H. discriminate H.
Qed.

(** C6, amended: [QueryBuilder<M, R>] is declared to extend [Promise<R>], and
    [CustomQueryBuilder<M, R>] to extend [QueryBuilder<M, R>]: the argument
    [Promise] receives from a builder of either class is its second, [R].  So
    for every [M] and [R] a builder [c<M, R>] of either builder class of the
    repository is assignable to [Promise<R>], resolves with [R], and [R] is
    its [ResultType]; awaiting it yields what awaiting [R] yields, which is
    [R] when [R] is not a promise or a builder in turn.  The class is
    declared in the ambient file and none of its members has a body
    ([execute] is a property of type [Promise<R>]). *)
Theorem query_builder_is_promise :
  declared_parent declarations_file "QueryBuilder" = Some "Promise"
  /\ option_map (fun c => match c with
                          | CClass _ _ _ ext _ => ext
                          | _ => None
                          end) (find_construct declarations_file "QueryBuilder")
     = Some (Some (TApp "Promise" [TN "R"]))
  /\ option_map (fun c => match c with
                          | CClass _ _ _ ext _ => ext
                          | _ => None
                          end) (find_construct example_file "CustomQueryBuilder")
     = Some (Some (TApp "QueryBuilder" [TN "M"; TN "R"]))
  /\ declared_member declarations_file "QueryBuilder" "ResultType" = Some (false, TN "R")
  /\ declared_member declarations_file "QueryBuilder" "execute"
     = Some (false, TApp "Promise" [TN "R"])
  /\ Forall (fun c => forall M R,
               reaches repository c "Promise" = Some [1%nat]
               /\ assignable repository (TQB c M R) (TPromise R) = true
               /\ awaited repository (TQB c M R) = R
               /\ index repository (TQB c M R) "ResultType" = Some R
               /\ await_type repository (TQB c M R)
                  = (if thenable repository R then await_type repository R else R))
            (builders_of repository)
  /\ f_ambient declarations_file = true
  /\ option_map construct_has_body (find_construct declarations_file "QueryBuilder")
     = Some false.
Proof.
  do 5 (split; [vm_compute; reflexivity|]).
  split; [|split; vm_compute; reflexivity].
  assert (Hawait : forall R, await_type repository R
                             = if thenable repository R then await_type repository R else R).
  { intros R. destruct (thenable repository R) eqn:HR;
      [reflexivity | now apply await_type_not_thenable]. }
  rewrite repository_builders.
  repeat (apply Forall_cons || apply Forall_nil); intros M R.
  all: split; [reflexivity|].
  all: split; [rewrite assignable_builder_promise by reflexivity; apply assignable_refl|].
  all: split; [reflexivity|].
  all: split; [vm_compute; reflexivity|].
  all: exact (Hawait R).
Qed.

(** *** What is implemented *)

(** C7, as stated, fails: the example file implements an inheritance
    hierarchy, [Person] and [Animal] extending [BaseModel], which extends
    [Model], and [CustomQueryBuilder] extending [QueryBuilder]. *)
Lemma example_implements_hierarchy :
  In Person_class (implemented_classes example_file)
  /\ class_parent Person_class = Some "BaseModel"
  /\ implemented_hierarchy example_file
     = [("CustomQueryBuilder", "QueryBuilder"); ("BaseModel", "Model");
        ("Animal", "BaseModel"); ("Person", "BaseModel")].
Proof.
  split; [right; right; right; left; reflexivity | split; vm_compute; reflexivity].
Qed.

(** C7, amended: the declarations file implements nothing: it is ambient, so
    no class of it is implemented (no implemented inheritance, no classes
    that refer to each other), it holds no initialised value (no global
    state) and no function body (no dynamic dispatch, no coroutine control
    flow); the inheritance it declares, [QueryBuilder] from [Promise],
    [AjvValidator] from [Validator] and [ValidationError] from [Error], is
    type information.  The example file does implement a class hierarchy:
    [CustomQueryBuilder] extends [QueryBuilder], [BaseModel] extends [Model],
    and [Animal] and [Person] extend [BaseModel]. *)
Theorem declarations_implement_nothing :
  f_ambient declarations_file = true
  /\ implemented_classes declarations_file = []
  /\ implemented_hierarchy declarations_file = []
  /\ mutual_references declarations_file = []
  /\ module_values declarations_file = []
  /\ implemented_methods declarations_file = []
  /\ declared_hierarchy declarations_file
     = [("QueryBuilder", "Promise"); ("AjvValidator", "Validator");
        ("ValidationError", "Error")]
  /\ implemented_hierarchy example_file
     = [("CustomQueryBuilder", "QueryBuilder"); ("BaseModel", "Model");
        ("Animal", "BaseModel"); ("Person", "BaseModel")].
Proof. repeat split; vm_compute; reflexivity. Qed.

(** *** Chains of this-polymorphic methods *)

Lemma mem_In (x : string) (l : list string) : mem x l = true -> In x l.
Proof.
  unfold mem. rewrite existsb_exists. intros [y [Hy He]].
  apply String.eqb_eq in He. now subst.
Qed.

Lemma lookup_app (e e' : env) (n : string) (v : ty) :
  lookup e n = Some v -> lookup (e ++ e')%list n = Some v.
Proof.
  induction e as [|[y w] e IH]; simpl; [discriminate|].
  destruct (String.eqb n y); auto.
Qed.

Lemma bind_tparam_keeps (p : program) (ps : list param) (args : list arg) (e : env)
  (tp : string * option texpr) (n : string) (v : ty) :
  lookup e n = Some v -> lookup (bind_tparam p ps args e tp) n = Some v.
Proof.
  intros H. unfold bind_tparam. destruct tp as [m c].
  destruct (lookup e m); [exact H|].
  destruct (inferred m ps args); destruct c as [ce|];
    try destruct (fits p e (AExp t) ce);
    try destruct (eval p e ce);
    auto using lookup_app.
Qed.

Lemma overload_env_receiver (p : program) (recv : ty) (args : list arg) (o : overload)
  (n : string) :
  In n (receiver_names o) -> lookup (overload_env p recv args o) n = Some recv.
Proof.
  intros H. unfold overload_env.
  set (e0 := ("this", recv) :: match o_this o with
                               | Some (TN x) => [(x, recv)]
                               | _ => []
                               end).
  assert (H0 : lookup e0 n = Some recv).
  { unfold e0, receiver_names in *. destruct H as [<- | H]; [reflexivity|].
    destruct (o_this o) as [[x| | | | | | | | | | |]|]; simpl in H; try contradiction.
    destruct H as [<- | []]. simpl.
    destruct (String.eqb x "this"); [reflexivity|].
    now rewrite String.eqb_refl. }
  clearbody e0. revert e0 H0.
  induction (o_tparams o) as [|tp tps IH]; intros e0 H0; simpl; [exact H0|].
  apply IH. now apply bind_tparam_keeps.
Qed.

Lemma eval_decide_literals (p : program) (e : env) (t : texpr) :
  eval p e (decide_literals t) = eval p e t.
Proof.
  induction t; try reflexivity.
  destruct t1; try reflexivity. destruct t2; try reflexivity.
  simpl decide_literals.
  change (eval p e (TCondT (TLitS s) (TLitS s0) t3 t4))
    with (if String.eqb s s0 then eval p e t3 else eval p e t4).
  destruct (String.eqb s s0); assumption.
Qed.

Section Subclass.
Variable p : program.
Variable c : string.
Variable keys : list string.
Hypothesis kept : forall k, In k keys -> keeps p c k.

Lemma eval_derived (names : list string) (e : env) (M R : ty) (t : texpr) :
  (forall n, In n names -> lookup e n = Some (TQB c M R)) ->
  derived names keys t = true ->
  exists R', eval p e t = Some (TQB c M R').
Proof.
  intros He. induction t; simpl; intros Hd; try discriminate.
  - exists R. unfold eval. simpl. now rewrite (He _ (mem_In _ _ Hd)).
  - destruct t; try discriminate.
    apply andb_true_iff in Hd. destruct Hd as [Hn Hk].
    destruct (kept _ (mem_In _ _ Hk) M R) as [R' HR'].
    exists R'. unfold eval. simpl. rewrite (He _ (mem_In _ _ Hn)). exact HR'.
  - apply andb_true_iff in Hd. destruct Hd as [Hd Hb].
    apply andb_true_iff in Hd. destruct Hd as [Hd Ha].
    apply andb_true_iff in Hd. destruct Hd as [Hc Hx].
    destruct (IHt1 Hc) as [R1 H1]. destruct (IHt2 Hx) as [R2 H2].
    change (eval p e (TCondT t1 t2 t3 t4))
      with (match eval p e t1, eval p e t2 with
            | Some vc, Some vx =>
              if assignable p vc vx then eval p e t3 else eval p e t4
            | _, _ => None
            end).
    rewrite H1, H2. destruct (assignable p _ _); auto.
Qed.

Lemma overload_stays (M R : ty) (args : list arg) (o : overload) :
  this_polymorphic keys o = true ->
  exists R', eval p (overload_env p (TQB c M R) args o) (o_ret o) = Some (TQB c M R').
Proof.
  intros Ho. rewrite <- eval_decide_literals.
  apply (eval_derived (receiver_names o) _ M R); [|exact Ho].
  intros n Hn. now apply overload_env_receiver.
Qed.

Lemma first_applicable_stays (M R : ty) (args : list arg) (sigs : list overload) (T : ty) :
  forallb (this_polymorphic keys) sigs = true ->
  first_applicable p (TQB c M R) args sigs = Some T ->
  exists R', T = TQB c M R'.
Proof.
  induction sigs as [|o sigs IH]; simpl; intros H HT; [discriminate|].
  apply andb_true_iff in H. destruct H as [Ho Hs].
  destruct (applicable p (TQB c M R) args o); [|now apply IH].
  destruct (overload_stays M R args o Ho) as [R' HR'].
  rewrite HR' in HT. injection HT as <-. now exists R'.
Qed.

Lemma call_stays (M R : ty) (name : string) (args : list arg) (T : ty) :
  step_polymorphic p c keys name = true ->
  call p (TQB c M R) name args = Some T ->
  exists R', T = TQB c M R'.
Proof.
  unfold step_polymorphic, call, find_method.
  destruct (lookup_member p c name) as [[k m]|]; simpl; [|discriminate].
  intros Hm HT. eapply first_applicable_stays; eauto.
Qed.

Lemma call_chain_stays (steps : list (string * list arg)) :
  forallb (fun st => step_polymorphic p c keys (fst st)) steps = true ->
  forall M R T, call_chain p (TQB c M R) steps = Some T ->
  exists R', T = TQB c M R'.
Proof.
  induction steps as [|[n args] steps IH]; simpl; intros H M R T HT.
  - injection HT as <-. now exists R.
  - apply andb_true_iff in H. destruct H as [Hn Hs].
    destruct (call p (TQB c M R) n args) as [T1|] eqn:Hc; [|discriminate].
    destruct (call_stays M R n args T1 Hn Hc) as [R1 ->].
    simpl in HT. eapply IH; eauto.
Qed.

(** A chain that type-checks does so at every step, and every step is typed
    within the class. *)
Lemma call_chain_steps_stay (before after : list (string * list arg)) :
  forallb (fun st => step_polymorphic p c keys (fst st)) (before ++ after) = true ->
  forall M R T, call_chain p (TQB c M R) (before ++ after) = Some T ->
  exists R', call_chain p (TQB c M R) before = Some (TQB c M R').
Proof.
  induction before as [|[n args] before IH]; simpl; intros H M R T HT.
  - now exists R.
  - apply andb_true_iff in H. destruct H as [Hn Hs].
    destruct (call p (TQB c M R) n args) as [T1|] eqn:Hc; [|discriminate].
    destruct (call_stays M R n args T1 Hn Hc) as [R1 ->].
    simpl in HT. simpl. eapply IH; eauto.
Qed.

End Subclass.

(** *** Evaluating the declarations at an arbitrary [M] and [R] *)

Lemma call_single_signature (p : program) (recv : ty) (name : string) (args : list arg)
  (m : member) (o : overload) :
  find_method p recv name = Some m ->
  member_signatures m = [o] ->
  this_ok p (overload_env p recv args o) recv o
  && match_args p (overload_env p recv args o) (o_params o) args = true ->
  call p recv name args = eval p (overload_env p recv args o) (o_ret o).
Proof.
  intros H1 H2 H3. unfold call. rewrite H1. simpl. rewrite H2. simpl.
  unfold applicable. now rewrite H3.
Qed.

(** A return type is computed with the test of its conditional types left
    abstract, then read off. *)
Ltac compute_return :=
  unfold return_type, eval;
  generalize (assignable repository); intro ext;
  vm_compute;
  repeat match goal with
         | |- context [if ?b then _ else _] => destruct b
         end;
  reflexivity.

Lemma first_return (c : string) (M R : ty) :
  In c (builders_of repository) ->
  return_type repository (TQB c M R) (onQB [] [] (TCondT QB (ArrayQueryBuilder QB)
                                                    (SingleQueryBuilder QB) QB))
  = Some (if assignable repository (TQB c M R) (TQB c M (TArr M))
          then TQB c M M else TQB c M R).
Proof.
  rewrite repository_builders.
  intros [<- | [<- | []]]; compute_return.
Qed.

(** *** Helper lemmas on overload resolution *)

Lemma models_of_repository :
  models_of repository = ["Model"; "BaseModel"; "Animal"; "Person"].
Proof. vm_compute. reflexivity. Qed.

Lemma first_applicable_none (p : program) (recv : ty) (args : list arg)
  (sigs : list overload) :
  Forall (fun o => apply_overload p recv args o = None) sigs ->
  first_applicable p recv args sigs = None.
Proof.
  induction 1 as [|o sigs Ho _ IH]; simpl; [reflexivity|].
  unfold apply_overload in Ho. now destruct (applicable p recv args o).
Qed.

Lemma first_applicable_all (p : program) (recv : ty) (args : list arg)
  (sigs : list overload) (T : ty) :
  Forall (fun o => eval p (overload_env p recv args o) (o_ret o) = Some T) sigs ->
  Exists (fun o => apply_overload p recv args o = Some T) sigs ->
  first_applicable p recv args sigs = Some T.
Proof.
  induction 1 as [|o sigs Ho _ IH]; intros Hex; [inversion Hex|].
  simpl. destruct (applicable p recv args o) eqn:Ha; [exact Ho|].
  apply IH. inversion Hex as [? ? Hx|]; subst; [|assumption].
  unfold apply_overload in Hx. rewrite Ha in Hx. discriminate.
Qed.

Lemma fits_array_literal (p : program) (e : env) (items : list arg) (el : texpr) :
  fits p e (AArr items) (TArrOf el) = forallb (fun i => fits p e i el) items.
Proof. reflexivity. Qed.

Lemma match_args_rest (p : program) (e : env) (n : string) (t : texpr) (args : list arg) :
  match_args p e [rest n (TArrOf t)] args = forallb (fun i => fits p e i t) args.
Proof.
  destruct args as [|a args]; [reflexivity|].
  change (match_args p e [rest n (TArrOf t)] (a :: args))
    with (fits p e (AArr (a :: args)) (TArrOf t)).
  apply fits_array_literal.
Qed.

Lemma match_args_req (p : program) (e : env) (n : string) (t : texpr) (ps : list param)
  (a : arg) (args : list arg) :
  match_args p e (req n t :: ps) (a :: args) = fits p e a t && match_args p e ps args.
Proof. reflexivity. Qed.

Lemma match_args_too_many (p : program) (e : env) (ps : list param) (args : list arg) :
  no_rest ps = true -> (List.length ps < List.length args)%nat ->
  match_args p e ps args = false.
Proof.
  revert args. induction ps as [|q ps IH]; intros args Hr Hl.
  - destruct args; [simpl in Hl; lia|reflexivity].
  - destruct args as [|a args]; [simpl in Hl; lia|].
    simpl in Hr. apply andb_true_iff in Hr. destruct Hr as [Hq Hr].
    simpl. destruct (p_mode q); try discriminate;
      (rewrite IH; [apply andb_false_r | exact Hr | simpl in Hl; lia]).
Qed.

Lemma apply_overload_too_many (p : program) (recv : ty) (args : list arg) (o : overload) :
  no_rest (o_params o) = true -> (List.length (o_params o) < List.length args)%nat ->
  apply_overload p recv args o = None.
Proof.
  intros Hr Hl. unfold apply_overload, applicable.
  now rewrite (match_args_too_many _ _ _ _ Hr Hl), andb_false_r.
Qed.

Lemma forallb_repeat {A : Type} (f : A -> bool) (x : A) (n : nat) :
  f x = true -> forallb f (repeat x n) = true.
Proof. intros H. induction n; simpl; [reflexivity|]. now rewrite H. Qed.

Lemma forallb_map_all {A B : Type} (f : B -> bool) (g : A -> B) (l : list A) :
  (forall a, f (g a) = true) -> forallb f (map g l) = true.
Proof. intros H. induction l; simpl; [reflexivity|]. now rewrite H. Qed.

Lemma lookup_app_none (e e' : env) (n : string) :
  lookup e n = None -> lookup (e ++ e')%list n = lookup e' n.
Proof.
  induction e as [|[y w] e IH]; simpl; [reflexivity|].
  destruct (String.eqb n y); [discriminate|auto].
Qed.

Lemma bind_tparam_fresh (p : program) (ps : list param) (args : list arg) (e : env)
  (tp : string * option texpr) (n : string) :
  lookup e n = None -> String.eqb n (fst tp) = false ->
  lookup (bind_tparam p ps args e tp) n = None.
Proof.
  intros H Hn. unfold bind_tparam. destruct tp as [m c]. simpl in Hn.
  destruct (lookup e m); [exact H|].
  destruct (inferred m ps args); destruct c as [ce|];
    try destruct (fits p e (AExp t) ce);
    try destruct (eval p e ce);
    try exact H;
    rewrite (lookup_app_none _ _ _ H); simpl; now rewrite Hn.
Qed.

Lemma fold_bind_fresh (p : program) (ps : list param) (args : list arg) (n : string)
  (tps : list (string * option texpr)) (e : env) :
  lookup e n = None -> mem n (map fst tps) = false ->
  lookup (fold_left (bind_tparam p ps args) tps e) n = None.
Proof.
  revert e. induction tps as [|tp tps IH]; intros e H Hm; simpl; [exact H|].
  unfold mem in Hm. cbn [existsb map] in Hm.
  apply orb_false_iff in Hm. destruct Hm as [Htp Htps].
  apply IH; [|exact Htps]. now apply bind_tparam_fresh.
Qed.

Lemma bind_tparam_rejected (p : program) (ps : list param) (args : list arg) (e : env)
  (n : string) (c : texpr) (t : ty) :
  lookup e n = None -> inferred n ps args = Some t -> fits p e (AExp t) c = false ->
  bind_tparam p ps args e (n, Some c) = e.
Proof. intros H1 H2 H3. unfold bind_tparam. now rewrite H1, H2, H3. Qed.

Lemma bind_tparam_bound (p : program) (ps : list param) (args : list arg) (e : env)
  (n : string) (c : option texpr) (v : ty) :
  lookup e n = Some v -> bind_tparam p ps args e (n, c) = e.
Proof. intros H. unfold bind_tparam. now rewrite H. Qed.

Lemma find_mem (x : string) (tps : list (string * option texpr)) tp :
  find (fun tp => String.eqb (fst tp) x) tps = Some tp -> mem x (map fst tps) = true.
Proof.
  intros H. apply find_some in H. destruct H as [Hin He].
  unfold mem. apply existsb_exists. exists (fst tp). split.
  - now apply in_map.
  - apply String.eqb_eq in He. subst. apply String.eqb_refl.
Qed.

Lemma is_AnyQueryBuilder_eq (c : texpr) :
  is_AnyQueryBuilder c = true -> c = AnyQueryBuilder.
Proof.
  destruct c as [|n l| | | | | | | | | |]; try discriminate.
  destruct l as [|a l]; try discriminate.
  destruct a; try discriminate. destruct l; try discriminate.
  simpl. intros H. apply andb_true_iff in H. destruct H as [H1 H2].
  apply String.eqb_eq in H1, H2. now subst.
Qed.

(** Under a signature constrained by [AnyQueryBuilder] the name [any] is
    not bound, and the receiver is checked against [AnyQueryBuilder]. *)
Lemma constrained_env (p : program) (recv : ty) (args : list arg) (o : overload) :
  constrained_by_AnyQueryBuilder o = true ->
  lookup (overload_env p recv args o) "any" = None
  /\ this_ok p (overload_env p recv args o) recv o
     = fits p (overload_env p recv args o) (AExp recv) AnyQueryBuilder.
Proof.
  unfold constrained_by_AnyQueryBuilder, this_ok.
  destruct (o_this o) as [[x| | | | | | | | | | |]|] eqn:Hthis; try discriminate.
  destruct (find (fun tp => String.eqb (fst tp) x) (o_tparams o)) as [[y [c|]]|] eqn:Hf;
    try discriminate.
  intros H. apply andb_true_iff in H. destruct H as [Hc Hm].
  apply is_AnyQueryBuilder_eq in Hc. subst c.
  split; [|reflexivity].
  apply negb_true_iff in Hm.
  pose proof (find_mem _ _ _ Hf) as Hx.
  unfold mem in Hm. cbn [existsb] in Hm.
  apply orb_false_iff in Hm. destruct Hm as [_ Hm].
  unfold overload_env. rewrite Hthis.
  apply fold_bind_fresh; [|exact Hm].
  cbn [lookup].
  replace (String.eqb "any" "this") with false by reflexivity.
  destruct (String.eqb "any" x) eqn:Hax; [|reflexivity].
  apply String.eqb_eq in Hax. subst x. unfold mem in Hx. congruence.
Qed.

(** [AnyQueryBuilder] is [QueryBuilder<any, any[]>]: the second parameter of
    [QueryBuilder] takes its default. *)
Lemma fits_AnyQueryBuilder (e : env) (recv : ty) :
  lookup e "any" = None ->
  fits repository e (AExp recv) AnyQueryBuilder
  = assignable repository recv (TQB "QueryBuilder" TAny (TArr TAny)).
Proof.
  intros H. unfold fits, AnyQueryBuilder.
  change (fits_with repository e (mapped repository e) (AExp recv) (TApp "QueryBuilder" [TN "any"]))
    with (match mapped repository e "QueryBuilder" [TN "any"] (AExp recv) with
          | Some b => b
          | None =>
            match signatures_of (TApp "QueryBuilder" [TN "any"]) with
            | [] => by_value repository e (TApp "QueryBuilder" [TN "any"]) (AExp recv)
            | _ => by_value repository e (TApp "QueryBuilder" [TN "any"]) (AExp recv)
            end
          end).
  replace (mapped repository e "QueryBuilder" [TN "any"] (AExp recv)) with (@None bool)
    by reflexivity.
  replace (signatures_of (TApp "QueryBuilder" [TN "any"])) with (@nil overload)
    by (vm_compute; reflexivity).
  unfold by_value.
  replace (eval repository e (TApp "QueryBuilder" [TN "any"]))
    with (Some (TQB "QueryBuilder" TAny (TArr TAny))); [reflexivity|].
  unfold eval.
  change (eval_with repository (builder_default repository) (index repository)
            (RelatedQueryBuilder repository) (assignable repository) e
            (TApp "QueryBuilder" [TN "any"]))
    with (match builder_default repository "QueryBuilder" with
          | Some d =>
            bind (match lookup e "any" with
                  | Some v => Some v
                  | None => resolve_name repository "any"
                  end) (fun m => option_map (TQB "QueryBuilder" m) (d m))
          | None => None
          end).
  rewrite H. vm_compute. reflexivity.
Qed.

Lemma find_method_builder (p : program) (c : string) (M R M' R' : ty) (n : string) :
  find_method p (TQB c M R) n = find_method p (TQB c M' R') n.
Proof. reflexivity. Qed.

(** Both builder classes find every declared method of [QueryBuilder]. *)
Lemma declared_methods_found :
  Forall (fun c =>
    Forall (fun m => find_method repository (TQB c TAny TAny) (m_name m) = Some m)
           QueryBuilder_methods)
    (builders_of repository).
Proof.
  rewrite repository_builders.
  apply Forall_cons; [|apply Forall_cons; [|apply Forall_nil]];
    unfold QueryBuilder_methods, props; cbn [map app];
    repeat (apply Forall_cons || apply Forall_nil); vm_compute; reflexivity.
Qed.

Lemma returns_receiver_eval (p : program) (T : ty) (args : list arg) (o : overload) :
  returns_receiver o = true ->
  eval p (overload_env p T args o) (o_ret o) = Some T.
Proof.
  unfold returns_receiver. destruct (o_ret o) eqn:Hr; try discriminate.
  intros Hm. unfold eval. simpl.
  now rewrite (overload_env_receiver p T args o name (mem_In _ _ Hm)).
Qed.

Lemma first_applicable_receiver (p : program) (T : ty) (args : list arg)
  (sigs : list overload) (t : ty) :
  forallb returns_receiver sigs = true ->
  first_applicable p T args sigs = Some t -> t = T.
Proof.
  induction sigs as [|o sigs IH]; simpl; intros H Ht; [discriminate|].
  apply andb_true_iff in H. destruct H as [Ho Hs].
  destruct (applicable p T args o); [|now apply IH].
  rewrite (returns_receiver_eval p T args o Ho) in Ht. now injection Ht.
Qed.

Lemma returning_return (c : string) (M R : ty) :
  In c (builders_of repository) ->
  return_type repository (TQB c M R)
    (onQB [] [req "column" (TOr (TN "string") (TArrOf (TN "string")))]
       (TCondT QB (ArrayQueryBuilder QB) (ArrayQueryBuilder QB)
          (TCondT QB (NumberQueryBuilder QB) (ArrayQueryBuilder QB)
             (SingleQueryBuilder QB))))
  = Some (if assignable repository (TQB c M R) (TQB c M (TArr M)) then TQB c M (TArr M)
          else if assignable repository (TQB c M R) (TQB c M TNumber) then TQB c M (TArr M)
          else TQB c M M).
Proof.
  rewrite repository_builders.
  intros [<- | [<- | []]]; compute_return.
Qed.

(** On a builder of the repository, the constraint [QB extends
    AnyQueryBuilder] on the receiver asks that its result type be an array. *)
Lemma this_ok_array (c : string) (M R : ty) (args : list arg) (o : overload) :
  In c (builders_of repository) ->
  constrained_by_AnyQueryBuilder o = true ->
  this_ok repository (overload_env repository (TQB c M R) args o) (TQB c M R) o
  = assignable repository R (TArr TAny).
Proof.
  intros Hc Ho.
  destruct (constrained_env repository (TQB c M R) args o Ho) as [Hany Hthis].
  rewrite Hthis, (fits_AnyQueryBuilder _ _ Hany).
  pose proof repository_builders_reach as Hr. rewrite Forall_forall in Hr.
  now rewrite (assignable_builders _ _ _ _ _ _ _ (Hr c Hc)).
Qed.

(** *** The conditional type of [first] *)

(** C8, as stated, fails twice.  [first] is declared with [this: QB] and
    [QB extends AnyQueryBuilder], which is [QueryBuilder<any, any[]>]: on a
    builder that is not its own [ArrayQueryBuilderType] because its result is
    a single model, a number or a page, [first()] is not mapped to the
    builder itself, it does not type-check.  And the test of the conditional
    type is [extends], not identity: [CustomQueryBuilder<Person, any>] is not
    its own [ArrayQueryBuilderType], yet [first()] maps it to its
    [SingleQueryBuilderType]. *)
Lemma first_is_rejected_off_arrays :
  let people := TQB "CustomQueryBuilder" (TInst "Person") (TArr (TInst "Person")) in
  let single := TQB "CustomQueryBuilder" (TInst "Person") (TInst "Person") in
  let loose := TQB "CustomQueryBuilder" (TInst "Person") TAny in
  index repository single "ArrayQueryBuilderType" = Some people
  /\ single <> people
  /\ call repository single "first" [] = None
  /\ call repository (TQB "CustomQueryBuilder" (TInst "Person") TNumber) "first" [] = None
  /\ call repository (TQB "QueryBuilder" (TInst "Person") (TPage (TInst "Person")))
          "first" [] = None
  /\ index repository loose "ArrayQueryBuilderType" = Some people
  /\ loose <> people
  /\ call repository loose "first" [] = Some single.
Proof.
  repeat split; try (vm_compute; reflexivity); discriminate.
Qed.

(** C8, amended: [first] is typed [QB extends ArrayQueryBuilder<QB> ?
    SingleQueryBuilder<QB> : QB] with [this: QB], [QB extends
    AnyQueryBuilder].  For a builder [c<M, R>] of either builder class of the
    repository, [ArrayQueryBuilder<QB>] is [c<M, M[]>] and
    [SingleQueryBuilder<QB>] is [c<M, M>].  [first()] type-checks exactly when
    [R] is assignable to [any[]]; it is then [c<M, M>] when [QB] is
    assignable to [c<M, M[]>], which is when [R] is assignable to [M[]], and
    [QB] itself otherwise, as for an array of strings.  So [first()] on an
    array query [c<M, M[]>] is a [c<M, M>], which resolves with [M]; for a
    model class, awaiting it yields the instance. *)
Theorem first_maps_array_to_single :
  declared_member declarations_file "QueryBuilder" "first" = Some (false, TN "FirstMethod")
  /\ signatures_of (TN "FirstMethod")
     = [onQB [] [] (TCondT QB (ArrayQueryBuilder QB) (SingleQueryBuilder QB) QB)]
  /\ Forall (fun c => forall M R,
       index repository (TQB c M R) "ArrayQueryBuilderType" = Some (TQB c M (TArr M))
       /\ index repository (TQB c M R) "SingleQueryBuilderType" = Some (TQB c M M)
       /\ call repository (TQB c M R) "first" []
          = (if assignable repository R (TArr TAny)
             then Some (if assignable repository R (TArr M) then TQB c M M
                        else TQB c M R)
             else None)
       /\ assignable repository (TQB c M R) (TQB "QueryBuilder" TAny (TArr TAny))
          = assignable repository R (TArr TAny)
       /\ assignable repository (TQB c M R) (TQB c M (TArr M))
          = assignable repository R (TArr M)
       /\ call repository (TQB c M (TArr M)) "first" [] = Some (TQB c M M)
       /\ awaited repository (TQB c M M) = M
       /\ call repository (TQB c M TNumber) "first" [] = None
       /\ call repository (TQB c M (TPage M)) "first" [] = None
       /\ forall m,
            call repository (TQB c (TInst m) (TInst m)) "first" [] = None
            /\ call repository (TQB c (TInst m) (TArr TString)) "first" []
               = Some (TQB c (TInst m) (TArr TString))
            /\ await_type repository (TQB c (TInst m) (TInst m)) = TInst m)
     (builders_of repository).
Proof.
  split; [vm_compute; reflexivity|].
  split; [vm_compute; reflexivity|].
  apply Forall_forall. intros c Hc.
  pose proof Hc as Hin. rewrite repository_builders in Hin.
  pose proof repository_builders_reach as Hr. rewrite Forall_forall in Hr.
  assert (Hcall : forall M R,
            call repository (TQB c M R) "first" []
            = (if assignable repository R (TArr TAny)
               then Some (if assignable repository R (TArr M) then TQB c M M
                          else TQB c M R)
               else None)).
  { intros M R. unfold call.
    replace (find_method repository (TQB c M R) "first")
      with (Some (prop "first" (TN "FirstMethod")))
      by (destruct Hin as [<- | [<- | []]]; vm_compute; reflexivity).
    cbn [bind]. unfold member_signatures. cbn [m_shape prop].
    replace (signatures_of (TN "FirstMethod"))
      with [onQB [] [] (TCondT QB (ArrayQueryBuilder QB) (SingleQueryBuilder QB) QB)]
      by (vm_compute; reflexivity).
    cbn [first_applicable]. unfold applicable.
    rewrite (this_ok_array c M R [] _ Hc) by reflexivity.
    replace (match_args repository
               (overload_env repository (TQB c M R) []
                  (onQB [] [] (TCondT QB (ArrayQueryBuilder QB) (SingleQueryBuilder QB) QB)))
               (o_params (onQB [] [] (TCondT QB (ArrayQueryBuilder QB)
                                        (SingleQueryBuilder QB) QB))) [])
      with true by reflexivity.
    rewrite andb_true_r.
    destruct (assignable repository R (TArr TAny)); [|reflexivity].
    change (return_type repository (TQB c M R)
              (onQB [] [] (TCondT QB (ArrayQueryBuilder QB) (SingleQueryBuilder QB) QB))
            = Some (if assignable repository R (TArr M) then TQB c M M else TQB c M R)).
    rewrite (first_return c M R Hc), assignable_builders_same, assignable_refl.
    reflexivity. }
  intros M R.
  split; [destruct Hin as [<- | [<- | []]]; vm_compute; reflexivity|].
  split; [destruct Hin as [<- | [<- | []]]; vm_compute; reflexivity|].
  split; [apply Hcall|].
  split; [now rewrite (assignable_builders _ _ _ _ _ _ _ (Hr c Hc))|].
  split; [now rewrite assignable_builders_same, assignable_refl|].
  split; [now rewrite Hcall, !assignable_arrays, assignable_refl|].
  split; [destruct Hin as [<- | [<- | []]]; vm_compute; reflexivity|].
  split; [now rewrite Hcall|].
  split; [now rewrite Hcall|].
  intros m. split; [now rewrite Hcall|].
  split; [now rewrite Hcall|].
  destruct Hin as [<- | [<- | []]]; vm_compute; reflexivity.
Qed.

(** *** Mutations *)

(** C10: [update] and [patch] are typed [UpdateMethod], which takes a
    [PartialModelObject<M>] with [M] the model of [QB] and returns
    [NumberQueryBuilder<QB>]; [del] and [delete] ([DeleteMethod]) and
    [deleteById] ([DeleteByIdMethod]) return [NumberQueryBuilder<QB>];
    [insert] ([InsertMethod]) returns [SingleQueryBuilder<QB>] for one
    [PartialModelObject<M>] and [ArrayQueryBuilder<QB>] for an array of them.
    For a builder [c<M, R>] of either builder class these are [c<M, number>],
    [c<M, M>] and [c<M, M[]>], awaited as [number], [M] and [M[]]. *)
Theorem mutation_result_types :
  map (declared_member declarations_file "QueryBuilder")
      ["update"; "patch"; "del"; "delete"; "deleteById"; "insert"]
  = [Some (false, TN "UpdateMethod"); Some (false, TN "UpdateMethod");
     Some (false, TN "DeleteMethod"); Some (false, TN "DeleteMethod");
     Some (false, TN "DeleteByIdMethod"); Some (false, TN "InsertMethod")]
  /\ signatures_of (TN "UpdateMethod")
     = [onQB [("M", Some (ModelType QB))] [req "update" (PartialModelObject M)]
             (NumberQueryBuilder QB)]
  /\ signatures_of (TN "DeleteMethod") = [onQB [] [] (NumberQueryBuilder QB)]
  /\ signatures_of (TN "DeleteByIdMethod")
     = [onQB [] [req "id" MaybeCompositeId] (NumberQueryBuilder QB)]
  /\ signatures_of (TN "InsertMethod")
     = [onQB [("M", Some (ModelType QB))] [req "insert" (PartialModelObject M)]
             (SingleQueryBuilder QB);
        onQB [("M", Some (ModelType QB))] [req "insert" (TArrOf (PartialModelObject M))]
             (ArrayQueryBuilder QB)]
  /\ Forall (fun c => forall M R,
       Forall (fun o =>
                 lookup (overload_env repository (TQB c M R) [] o) "M" = Some M
                 /\ return_type repository (TQB c M R) o = Some (TQB c M TNumber))
              (signatures_of (TN "UpdateMethod"))
       /\ Forall (fun o => return_type repository (TQB c M R) o = Some (TQB c M TNumber))
                 (signatures_of (TN "DeleteMethod") ++ signatures_of (TN "DeleteByIdMethod"))
       /\ map (return_type repository (TQB c M R)) (signatures_of (TN "InsertMethod"))
          = [Some (TQB c M M); Some (TQB c M (TArr M))]
       /\ awaited repository (TQB c M TNumber) = TNumber
       /\ awaited repository (TQB c M M) = M
       /\ awaited repository (TQB c M (TArr M)) = TArr M)
     (builders_of repository)
  /\ (let people := TQB "CustomQueryBuilder" (TInst "Person") (TArr (TInst "Person")) in
      let one := AObj [("firstName", TStrLit "Ada")] in
      map (fun st => call repository people (fst st) (snd st))
          [("update", [one]); ("patch", [one]); ("del", []); ("delete", []);
           ("deleteById", [AExp (TNumLit 1)]);
           ("insert", [one]); ("insert", [AArr [one; one]])]
      = [Some (TQB "CustomQueryBuilder" (TInst "Person") TNumber);
         Some (TQB "CustomQueryBuilder" (TInst "Person") TNumber);
         Some (TQB "CustomQueryBuilder" (TInst "Person") TNumber);
         Some (TQB "CustomQueryBuilder" (TInst "Person") TNumber);
         Some (TQB "CustomQueryBuilder" (TInst "Person") TNumber);
         Some (TQB "CustomQueryBuilder" (TInst "Person") (TInst "Person"));
         Some (TQB "CustomQueryBuilder" (TInst "Person") (TArr (TInst "Person")))]).
Proof.
  assert (Hu : signatures_of (TN "UpdateMethod")
               = [onQB [("M", Some (ModelType QB))] [req "update" (PartialModelObject M)]
                       (NumberQueryBuilder QB)]) by (vm_compute; reflexivity).
  assert (Hd : signatures_of (TN "DeleteMethod") = [onQB [] [] (NumberQueryBuilder QB)])
    by (vm_compute; reflexivity).
  assert (Hdi : signatures_of (TN "DeleteByIdMethod")
                = [onQB [] [req "id" MaybeCompositeId] (NumberQueryBuilder QB)])
    by (vm_compute; reflexivity).
  assert (Hi : signatures_of (TN "InsertMethod")
               = [onQB [("M", Some (ModelType QB))] [req "insert" (PartialModelObject M)]
                       (SingleQueryBuilder QB);
                  onQB [("M", Some (ModelType QB))]
                       [req "insert" (TArrOf (PartialModelObject M))]
                       (ArrayQueryBuilder QB)]) by (vm_compute; reflexivity).
  split; [vm_compute; reflexivity|].
  rewrite Hu, Hd, Hdi, Hi.
  do 4 (split; [reflexivity|]).
  split; [|vm_compute; reflexivity].
  rewrite repository_builders.
  apply Forall_cons; [|apply Forall_cons; [|apply Forall_nil]]; intros M0 R0.
  - split; [apply Forall_cons; [split; vm_compute; reflexivity | apply Forall_nil]|].
    split; [apply Forall_cons; [vm_compute; reflexivity|];
            apply Forall_cons; [vm_compute; reflexivity | apply Forall_nil]|].
    repeat split; vm_compute; reflexivity.
  - split; [apply Forall_cons; [split; vm_compute; reflexivity | apply Forall_nil]|].
    split; [apply Forall_cons; [vm_compute; reflexivity|];
            apply Forall_cons; [vm_compute; reflexivity | apply Forall_nil]|].
    repeat split; vm_compute; reflexivity.
Qed.

(** *** Staying within a subclass *)

(** C9, as stated, fails on the subclass of the example: [page] returns
    [PageQueryBuilder<QB>], which [CustomQueryBuilder] inherits as
    [QueryBuilder<M, Page<M>>], so after [page] the value is a plain
    [QueryBuilder] and [someCustomMethod] is no longer a member.  And
    [castTo], which returns a builder, declares no [this] parameter: it
    returns the builder type of the class it is given. *)
Lemma page_leaves_custom_builder :
  let people := TQB "CustomQueryBuilder" (TInst "Person") (TArr (TInst "Person")) in
  call repository people "page" [AExp (TNumLit 0); AExp (TNumLit 10)]
  = Some (TQB "QueryBuilder" (TInst "Person") (TPage (TInst "Person")))
  /\ has_method repository people "someCustomMethod" = true
  /\ has_method repository (TQB "QueryBuilder" (TInst "Person") (TPage (TInst "Person")))
                "someCustomMethod" = false
  /\ ~ keeps repository "CustomQueryBuilder" "PageQueryBuilderType"
  /\ map o_this (signatures_of (TN "CastToMethod")) = [None]
  /\ call repository people "castTo" [AExp (TClass "Model")]
     = Some (TQB "QueryBuilder" (TInst "Model") (TArr (TInst "Model"))).
Proof.
  repeat split; try (vm_compute; reflexivity).
  intro H. destruct (H TAny TAny) as [R' HR']. vm_compute in HR'. discriminate HR'.
Qed.
(** C9, amended: every signature of a member of [QueryBuilder] that returns
    a builder, other than those of [castTo] and of the static [forClass], is
    this-polymorphic: it returns [QB] (the type of its [this] parameter), the
    polymorphic [this] (the five raw-SQL members, which declare no [this]
    parameter), or a type derived from [QB] through its
    [ArrayQueryBuilderType], [SingleQueryBuilderType],
    [NumberQueryBuilderType] or [PageQueryBuilderType] member; the other
    signatures return a string, a boolean, the model or the query context.
    [castTo] and [forClass] return the builder of the model class they are
    given.  So for every [QueryBuilder] subclass [c] and every set [keys] of
    these members that [c] keeps to itself, any chain of calls on a value of
    the class that type-checks, and whose return types derive through [keys]
    only, is typed a [c<M, _>] at every step, and the members of [c] stay
    available at every step. *)
Theorem chain_stays_in_redeclaring_subclass :
  forall (p : program) (c : string) (keys : list string),
    (forall k, In k keys -> keeps p c k) ->
    map (fun m => (m_static m, m_name m, map o_ret (member_signatures m)))
        (filter (fun m => negb (member_polymorphic type_members m))
                (construct_members QueryBuilder_class))
    = [(true, "forClass", [InstanceQueryBuilderType M]);
       (false, "castTo", [InstanceQueryBuilderType M]);
       (false, "modelClass", [M]); (false, "tableNameFor", [TN "string"]);
       (false, "tableRefFor", [TN "string"]); (false, "toSql", [TN "string"]);
       (false, "context", [QB; TN "QueryContext"]);
       (false, "mergeContext", [QB; TN "QueryContext"]);
       (false, "isFind", [TN "boolean"]); (false, "isInsert", [TN "boolean"]);
       (false, "isUpdate", [TN "boolean"]); (false, "isDelete", [TN "boolean"]);
       (false, "isRelate", [TN "boolean"]); (false, "isUnrelate", [TN "boolean"]);
       (false, "hasWheres", [TN "boolean"]); (false, "hasSelects", [TN "boolean"]);
       (false, "hasEager", [TN "boolean"])]
    /\ map (fun m => (m_static m, m_name m, map o_ret (member_signatures m)))
           (filter (fun m => negb (forallb declares_this (member_signatures m)))
                   (construct_members QueryBuilder_class))
       = [(true, "forClass", [InstanceQueryBuilderType M]);
          (false, "whereRaw", [TN "this"]); (false, "orWhereRaw", [TN "this"]);
          (false, "andWhereRaw", [TN "this"]); (false, "joinRaw", [TN "this"]);
          (false, "orderByRaw", [TN "this"]);
          (false, "castTo", [InstanceQueryBuilderType M])]
    /\ map m_name (filter m_static (construct_members QueryBuilder_class)) = ["forClass"]
    /\ forallb (fun m => forallb (fun o => match o_this o with
                                           | Some (TN "QB") | None => true
                                           | _ => false
                                           end) (member_signatures m))
               (construct_members QueryBuilder_class) = true
    /\ forallb (fun m =>
                 forallb (fun o =>
                            this_polymorphic type_members o
                            || returns_named ["string"; "boolean"; "M"; "QueryContext"] o
                            || String.eqb (m_name m) "castTo"
                            || String.eqb (m_name m) "forClass")
                         (member_signatures m))
               (construct_members QueryBuilder_class) = true
    /\ map (fun k => call repository (TClass "CustomQueryBuilder") "forClass"
                          [AExp (TClass k)])
           ["Person"; "Model"]
       = [Some (TQB "CustomQueryBuilder" (TInst "Person") (TArr (TInst "Person")));
          Some (TQB "QueryBuilder" (TInst "Model") (TArr (TInst "Model")))]
    /\ (forall steps,
          forallb (fun st => step_polymorphic p c keys (fst st)) steps = true ->
          forall M R T, call_chain p (TQB c M R) steps = Some T ->
          exists R', T = TQB c M R')
    /\ (forall before after,
          forallb (fun st => step_polymorphic p c keys (fst st)) (before ++ after) = true ->
          forall M R T, call_chain p (TQB c M R) (before ++ after) = Some T ->
          exists R', call_chain p (TQB c M R) before = Some (TQB c M R'))
    /\ (forall M R R' name,
          has_method p (TQB c M R') name = has_method p (TQB c M R) name).
Proof.
  intros p c keys kept.
  do 6 (split; [vm_compute; reflexivity|]).
  split; [intros steps Hs M0 R0 T; exact (call_chain_stays p c keys kept steps Hs M0 R0 T)|].
  split; [intros before after Hs M0 R0 T;
          exact (call_chain_steps_stay p c keys kept before after Hs M0 R0 T)|].
  reflexivity.
Qed.

Lemma chain_stays_in_redeclaring_subclass_witness :
  let pets := TQB "CustomQueryBuilder" (TInst "Animal") (TArr (TInst "Animal")) in
  let keys := ["ArrayQueryBuilderType"; "SingleQueryBuilderType";
               "NumberQueryBuilderType"] in
  let steps := [("someCustomMethod", []);
                ("where", [AExp (TStrLit "id"); AExp (TNumLit 1)]);
                ("first", []);
                ("someCustomMethod", [])] in
  (forall k, In k keys -> keeps repository "CustomQueryBuilder" k)
  /\ call_chain repository pets steps
     = Some (TQB "CustomQueryBuilder" (TInst "Animal") (TInst "Animal"))
  /\ (exists R', call_chain repository pets steps
                 = Some (TQB "CustomQueryBuilder" (TInst "Animal") R'))
  /\ (exists R', call_chain repository pets (firstn 3 steps)
                 = Some (TQB "CustomQueryBuilder" (TInst "Animal") R'))
  /\ has_method repository (TQB "CustomQueryBuilder" (TInst "Animal") (TInst "Animal"))
                "someCustomMethod" = true.
Proof.
  intros pets keys steps.
  assert (kept : forall k, In k keys -> keeps repository "CustomQueryBuilder" k).
  { intros k [<- | [<- | [<- | []]]] M R; eexists; vm_compute; reflexivity. }
  assert (Hpoly : forallb (fun st => step_polymorphic repository "CustomQueryBuilder"
                                       keys (fst st)) steps = true)
    by (vm_compute; reflexivity).
  assert (Hrun : call_chain repository pets steps
                 = Some (TQB "CustomQueryBuilder" (TInst "Animal") (TInst "Animal")))
    by (vm_compute; reflexivity).
  split; [exact kept|]. split; [exact Hrun|].
  destruct (chain_stays_in_redeclaring_subclass repository "CustomQueryBuilder" keys kept)
    as [_ [_ [_ [_ [_ [_ [Hcalls [Hsteps _]]]]]]]].
  split.
  - destruct (Hcalls steps Hpoly _ _ _ Hrun) as [R' HR'].
    exists R'. rewrite Hrun. now rewrite HR'.
  - split; [|vm_compute; reflexivity].
    exact (Hsteps (firstn 3 steps) (skipn 3 steps) Hpoly _ _ _ Hrun).
Defined.

(* ------------------------------------------------------------------ *)
(** ** Further properties of the declarations *)

(** X1: [returning] ([ReturningMethod], lines 440-448) has one signature,
    with [this: QB], [QB extends AnyQueryBuilder], typed by a conditional on
    the receiver.  Called with a column or a list of columns on a builder
    [c<M, R>] of either builder class, it type-checks exactly when [R] is
    assignable to [any[]]; it is then the array builder [c<M, M[]>] when [R]
    is assignable to [M[]] (or to [number]), and the single builder
    [c<M, M>] otherwise, as for an array of strings.  On the number, page and
    single builders of a model it does not type-check. *)
Theorem returning_yields_array_or_single :
  signatures_of (TN "ReturningMethod")
  = [onQB [] [req "column" (TOr (TN "string") (TArrOf (TN "string")))]
       (TCondT QB (ArrayQueryBuilder QB) (ArrayQueryBuilder QB)
          (TCondT QB (NumberQueryBuilder QB) (ArrayQueryBuilder QB)
             (SingleQueryBuilder QB)))]
  /\ Forall (fun c => forall M R,
       Forall (fun column =>
                 call repository (TQB c M R) "returning" [column]
                 = (if assignable repository R (TArr TAny)
                    then Some (if assignable repository R (TArr M) then TQB c M (TArr M)
                               else if assignable repository R TNumber
                                    then TQB c M (TArr M)
                                    else TQB c M M)
                    else None))
              [AExp TString; AExp (TStrLit "id"); AExp (TArr TString);
               AArr [AExp (TStrLit "id"); AExp (TStrLit "name")]]
       /\ call repository (TQB c M (TArr M)) "returning" [AExp TString]
          = Some (TQB c M (TArr M))
       /\ call repository (TQB c M TNumber) "returning" [AExp TString] = None
       /\ call repository (TQB c M (TPage M)) "returning" [AExp TString] = None
       /\ forall m,
            call repository (TQB c (TInst m) (TInst m)) "returning" [AExp TString] = None
            /\ call repository (TQB c (TInst m) (TArr TString)) "returning" [AExp TString]
               = Some (TQB c (TInst m) (TInst m)))
     (builders_of repository).
Proof.
  assert (Hs : signatures_of (TN "ReturningMethod")
  = [onQB [] [req "column" (TOr (TN "string") (TArrOf (TN "string")))]
       (TCondT QB (ArrayQueryBuilder QB) (ArrayQueryBuilder QB)
          (TCondT QB (NumberQueryBuilder QB) (ArrayQueryBuilder QB)
             (SingleQueryBuilder QB)))]) by (vm_compute; reflexivity).
  split; [exact Hs|].
  apply Forall_forall. intros c Hc.
  pose proof Hc as Hin. rewrite repository_builders in Hin.
  assert (Hcall : forall M R column,
            fits repository [("this", TQB c M R); ("QB", TQB c M R)] column
                 (TOr (TN "string") (TArrOf (TN "string"))) = true ->
            call repository (TQB c M R) "returning" [column]
            = (if assignable repository R (TArr TAny)
               then Some (if assignable repository R (TArr M) then TQB c M (TArr M)
                          else if assignable repository R TNumber then TQB c M (TArr M)
                          else TQB c M M)
               else None)).
  { intros M R column Hfit. unfold call.
    replace (find_method repository (TQB c M R) "returning")
      with (Some (prop "returning" (TN "ReturningMethod")))
      by (destruct Hin as [<- | [<- | []]]; vm_compute; reflexivity).
    cbn [bind]. unfold member_signatures. cbn [m_shape prop]. rewrite Hs.
    cbn [first_applicable]. unfold applicable.
    rewrite (this_ok_array c M R [column] _ Hc) by reflexivity.
    change (overload_env repository (TQB c M R) [column]
              (onQB [] [req "column" (TOr (TN "string") (TArrOf (TN "string")))]
                 (TCondT QB (ArrayQueryBuilder QB) (ArrayQueryBuilder QB)
                    (TCondT QB (NumberQueryBuilder QB) (ArrayQueryBuilder QB)
                       (SingleQueryBuilder QB)))))
      with [("this", TQB c M R); ("QB", TQB c M R)].
    cbn [o_params o_ret onQB].
    rewrite match_args_req, Hfit. cbn [match_args andb]. rewrite andb_true_r.
    destruct (assignable repository R (TArr TAny)); [|reflexivity].
    pose proof (returning_return c M R Hc) as Hret.
    unfold return_type in Hret.
    change (overload_env repository (TQB c M R) []
              (onQB [] [req "column" (TOr (TN "string") (TArrOf (TN "string")))]
                 (TCondT QB (ArrayQueryBuilder QB) (ArrayQueryBuilder QB)
                    (TCondT QB (NumberQueryBuilder QB) (ArrayQueryBuilder QB)
                       (SingleQueryBuilder QB)))))
      with [("this", TQB c M R); ("QB", TQB c M R)] in Hret.
    cbn [o_ret onQB] in Hret. rewrite Hret.
    rewrite !assignable_builders_same, assignable_refl. reflexivity. }
  intros M R.
  split; [repeat (apply Forall_cons || apply Forall_nil); apply Hcall; reflexivity|].
  split; [rewrite Hcall by reflexivity;
          now rewrite !assignable_arrays, assignable_refl|].
  split; [now rewrite Hcall by reflexivity|].
  split; [now rewrite Hcall by reflexivity|].
  intros m. split; now rewrite Hcall by reflexivity.
Qed.

Lemma first_applicable_returns (p : program) (T : ty) (args : list arg)
  (sigs : list overload) (U t : ty) :
  Forall (fun o => eval p (overload_env p T args o) (o_ret o) = Some U) sigs ->
  first_applicable p T args sigs = Some t -> t = U.
Proof.
  induction 1 as [|o sigs Ho _ IH]; simpl; intros Ht; [discriminate|].
  destruct (applicable p T args o); [|now apply IH].
  rewrite Ho in Ht. now injection Ht.
Qed.

Lemma eval_index_receiver (p : program) (T : ty) (args : list arg) (o : overload)
  (n k : string) :
  In n (receiver_names o) ->
  eval p (overload_env p T args o) (TIdx (TN n) k) = index p T k.
Proof.
  intros H. unfold eval. cbn [eval_with].
  now rewrite (overload_env_receiver p T args o n H).
Qed.

(** X2: [where], [andWhere], [orWhere], [whereNot], [andWhereNot] and
    [orWhereNot] are typed [WhereMethod<'Array'>] and [findOne] is typed
    [WhereMethod<'Single'>] (lines 247-265, 586-591, 638).  Each of the ten
    signatures returns [DeriveQBType<QB, Type>], so whenever a call of one of
    the first six type-checks on a builder [c<M, R>] of either builder class,
    at any arguments, its type is the array builder [c<M, M[]>], and that of
    [findOne] is the single builder [c<M, M>]: the result type [R] of the
    receiver does not carry over. *)
Theorem where_resets_to_array (c name : string) (M R : ty) (args : list arg) (t : ty) :
  In c (builders_of repository) ->
  In name ["where"; "andWhere"; "orWhere"; "whereNot"; "andWhereNot"; "orWhereNot";
           "findOne"] ->
  call repository (TQB c M R) name args = Some t ->
  t = if String.eqb name "findOne" then TQB c M M else TQB c M (TArr M).
Proof.
  rewrite repository_builders. intros Hc Hn.
  assert (Ha : signatures_of (TApp "WhereMethod" [TLitS "Array"]) = WhereMethod (TLitS "Array"))
    by (vm_compute; reflexivity).
  assert (Hs : signatures_of (TApp "WhereMethod" [TLitS "Single"]) = WhereMethod (TLitS "Single"))
    by (vm_compute; reflexivity).
  assert (Hidx : index repository (TQB c M R) "ArrayQueryBuilderType" = Some (TQB c M (TArr M))
                 /\ index repository (TQB c M R) "SingleQueryBuilderType" = Some (TQB c M M))
    by (destruct Hc as [<- | [<- | []]]; split; vm_compute; reflexivity).
  destruct Hidx as [Harr Hsingle].
  assert (Hfind : find_method repository (TQB c M R) name
                  = Some (prop name (TApp "WhereMethod"
                            [TLitS (if String.eqb name "findOne" then "Single" else "Array")])))
    by (destruct Hc as [<- | [<- | []]];
        repeat (destruct Hn as [<- | Hn]; [vm_compute; reflexivity|]); destruct Hn).
  unfold call. rewrite Hfind. cbn [bind]. unfold member_signatures. cbn [m_shape prop].
  destruct (String.eqb name "findOne").
  - rewrite Hs. apply first_applicable_returns. unfold WhereMethod.
    repeat (apply Forall_cons || apply Forall_nil);
      rewrite <- eval_decide_literals;
      (rewrite (eval_index_receiver repository (TQB c M R) args _ "QB"
                  "SingleQueryBuilderType"); [exact Hsingle | right; left; reflexivity]).
  - rewrite Ha. apply first_applicable_returns. unfold WhereMethod.
    repeat (apply Forall_cons || apply Forall_nil);
      rewrite <- eval_decide_literals;
      (rewrite (eval_index_receiver repository (TQB c M R) args _ "QB"
                  "ArrayQueryBuilderType"); [exact Harr | right; left; reflexivity]).
Qed.

Lemma where_resets_to_array_witness :
  let loose := TQB "CustomQueryBuilder" (TInst "Person") TAny in
  let args := [AExp (TStrLit "firstName"); AExp (TStrLit "lol")] in
  In "CustomQueryBuilder" (builders_of repository)
  /\ In "where" ["where"; "andWhere"; "orWhere"; "whereNot"; "andWhereNot"; "orWhereNot";
                 "findOne"]
  /\ call repository loose "where" args
     = Some (TQB "CustomQueryBuilder" (TInst "Person") (TArr (TInst "Person")))
  /\ TQB "CustomQueryBuilder" (TInst "Person") (TArr (TInst "Person"))
     = (if String.eqb "where" "findOne"
        then TQB "CustomQueryBuilder" (TInst "Person") (TInst "Person")
        else TQB "CustomQueryBuilder" (TInst "Person") (TArr (TInst "Person"))).
Proof.
  intros loose args.
  assert (Hc : In "CustomQueryBuilder" (builders_of repository))
    by (apply mem_In; vm_compute; reflexivity).
  assert (Hn : In "where" ["where"; "andWhere"; "orWhere"; "whereNot"; "andWhereNot";
                           "orWhereNot"; "findOne"])
    by (apply mem_In; vm_compute; reflexivity).
  assert (Hcall : call repository loose "where" args
                  = Some (TQB "CustomQueryBuilder" (TInst "Person") (TArr (TInst "Person"))))
    by (vm_compute; reflexivity).
  split; [exact Hc|]. split; [exact Hn|]. split; [exact Hcall|].
  exact (where_resets_to_array "CustomQueryBuilder" "where" (TInst "Person") TAny args _
           Hc Hn Hcall).
Defined.

(** X3: a member every signature of which returns the name of its receiver
    (a [this: QB] parameter returned as [QB], or [this]) never changes the
    type: whenever a call of it type-checks, at any arguments and in any
    program, its type is that of the receiver. *)
Theorem receiver_type_preserved (p : program) (T : ty) (name : string)
  (args : list arg) (t : ty) :
  keeps_receiver p T name = true ->
  call p T name args = Some t ->
  t = T.
Proof.
  unfold keeps_receiver, call.
  destruct (find_method p T name) as [m|]; [|discriminate].
  cbn [bind]. unfold member_returns_receiver.
  destruct (member_signatures m) as [|o sigs] eqn:Hs; [discriminate|].
  apply first_applicable_receiver.
Qed.

Lemma receiver_type_preserved_witness :
  let people := TQB "CustomQueryBuilder" (TInst "Person") (TArr (TInst "Person")) in
  keeps_receiver repository people "orderBy" = true
  /\ call repository people "orderBy" [AExp (TStrLit "firstName")] = Some people
  /\ people = people.
Proof.
  intros people.
  assert (Hk : keeps_receiver repository people "orderBy" = true)
    by (vm_compute; reflexivity).
  assert (Hc : call repository people "orderBy" [AExp (TStrLit "firstName")] = Some people)
    by (vm_compute; reflexivity).
  split; [exact Hk|]. split; [exact Hc|].
  exact (receiver_type_preserved repository people "orderBy"
           [AExp (TStrLit "firstName")] people Hk Hc).
Defined.

(** X4: which members return their receiver.  Of the 117 method properties
    of [QueryBuilder] (lines 574-736) 72 do, on either builder class; the 45
    that do not are the ones listed.  [someCustomMethod] of the example does.
    Of the members of [Model] (lines 957-1026) the eight instance methods
    [$setJson] ... [$clone] do on an instance of any model class, and the
    four static members [fromJson], [fromDatabaseJson], [bindKnex] and
    [bindTransaction] do on the class itself: [FromJsonMethod] (lines
    953-955) returns [SM], the class, not an instance. *)
Theorem receiver_preserving_inventory :
  Forall (fun c => forall M R,
    filter (fun n => negb (keeps_receiver repository (TQB c M R) n))
           (map m_name QueryBuilder_methods)
    = ["where"; "andWhere"; "orWhere"; "whereNot"; "andWhereNot";
       "orWhereNot"; "findById"; "findOne"; "first"; "castTo"; "update";
       "updateAndFetch"; "updateAndFetchById"; "patch"; "patchAndFetch";
       "patchAndFetchById"; "del"; "delete"; "deleteById"; "insert";
       "insertAndFetch"; "returning"; "modelClass"; "tableNameFor"; "tableRefFor";
       "toSql"; "page"; "range"; "insertGraph"; "insertGraphAndFetch";
       "insertWithRelated"; "insertWithRelatedAndFetch"; "upsertGraph";
       "upsertGraphAndFetch"; "context"; "mergeContext"; "isFind"; "isInsert";
       "isUpdate"; "isDelete"; "isRelate"; "isUnrelate"; "hasWheres"; "hasSelects";
       "hasEager"]
    /\ List.length (filter (keeps_receiver repository (TQB c M R))
                           (map m_name QueryBuilder_methods)) = 72%nat)
    (builders_of repository)
  /\ (forall M R, keeps_receiver repository (TQB "CustomQueryBuilder" M R)
                    "someCustomMethod" = true)
  /\ Forall (fun k =>
       filter (keeps_receiver repository (TInst k))
              (map m_name (construct_members Model_class))
       = ["$setJson"; "$setDatabaseJson"; "$setRelated"; "$appendRelated";
          "$set"; "$omit"; "$pick"; "$clone"]
       /\ filter (keeps_receiver repository (TClass k))
                 (map m_name (construct_members Model_class))
          = ["fromJson"; "fromDatabaseJson"; "bindKnex"; "bindTransaction"])
     (models_of repository).
Proof.
  rewrite repository_builders, models_of_repository.
  split.
  { repeat (apply Forall_cons || apply Forall_nil); intros M0 R0; split;
      vm_compute; reflexivity. }
  split; [intros M0 R0; vm_compute; reflexivity|].
  repeat (apply Forall_cons || apply Forall_nil); split; vm_compute; reflexivity.
Qed.

(** X5: [AnyQueryBuilder] is [QueryBuilder<any>] (line 126), and the second
    parameter of [QueryBuilder] defaults to [M[]] (line 574).  So a member
    whose signatures all type the receiver [this: QB] with
    [QB extends AnyQueryBuilder] cannot be called on a builder whose result
    type is not an array: on [c<M, R>] with [R] not assignable to [any[]]
    (a single, number or page builder) the call is rejected at every
    argument list. *)
Theorem non_array_builder_rejects_this_methods
  (c : string) (M R : ty) (name : string) (args : list arg) :
  In c (builders_of repository) ->
  In name constrained_members ->
  assignable repository R (TArr TAny) = false ->
  call repository (TQB c M R) name args = None.
Proof.
  intros Hc Hn HR.
  unfold constrained_members in Hn. apply in_map_iff in Hn.
  destruct Hn as [m [<- Hm]]. apply filter_In in Hm. destruct Hm as [Hin Hsig].
  pose proof declared_methods_found as Hfound.
  rewrite Forall_forall in Hfound. specialize (Hfound c Hc).
  rewrite Forall_forall in Hfound. specialize (Hfound m Hin).
  unfold call. rewrite (find_method_builder repository c M R TAny TAny), Hfound.
  cbn [bind]. apply first_applicable_none.
  destruct (member_signatures m) as [|o0 sigs0] eqn:Hs; [discriminate|].
  rewrite forallb_forall in Hsig. apply Forall_forall. intros o Ho.
  specialize (Hsig o Ho).
  destruct (constrained_env repository (TQB c M R) args o Hsig) as [Hany Hthis].
  unfold apply_overload, applicable. rewrite (this_ok_array c M R args o Hc Hsig), HR.
  reflexivity.
Qed.

Lemma non_array_builder_rejects_this_methods_witness :
  In "CustomQueryBuilder" (builders_of repository)
  /\ In "orderBy" constrained_members
  /\ assignable repository (TInst "Person") (TArr TAny) = false
  /\ call repository (TQB "CustomQueryBuilder" (TInst "Person") (TInst "Person"))
          "orderBy" [AExp (TStrLit "firstName")] = None.
Proof.
  assert (Hc : In "CustomQueryBuilder" (builders_of repository))
    by (apply mem_In; vm_compute; reflexivity).
  assert (Hn : In "orderBy" constrained_members)
    by (apply mem_In; vm_compute; reflexivity).
  assert (HR : assignable repository (TInst "Person") (TArr TAny) = false)
    by (vm_compute; reflexivity).
  split; [exact Hc|]. split; [exact Hn|]. split; [exact HR|].
  exact (non_array_builder_rejects_this_methods "CustomQueryBuilder" (TInst "Person")
           (TInst "Person") "orderBy" [AExp (TStrLit "firstName")] Hc Hn HR).
Defined.

(** X6: [where(column, value)] on an array builder of either builder class
    and any model type accepts any string as column, literal or not, and
    each kind of [Value] (lines 91-107), and returns the array builder: the
    [ModelProps] signatures that come first (lines 249-250) do not restrict
    the columns, since the [ColumnRef] signatures follow. *)
Theorem where_takes_any_column :
  Forall (fun c => forall M s,
    Forall (fun v =>
      call repository (TQB c M (TArr M)) "where" [AExp (TStrLit s); AExp v]
      = Some (TQB c M (TArr M))
      /\ call repository (TQB c M (TArr M)) "where" [AExp TString; AExp v]
         = Some (TQB c M (TArr M)))
      plain_values)
    (builders_of repository).
Proof.
  rewrite repository_builders.
  assert (Hs : signatures_of (TApp "WhereMethod" [TLitS "Array"]) = WhereMethod (TLitS "Array"))
    by (vm_compute; reflexivity).
  apply Forall_cons; [|apply Forall_cons; [|apply Forall_nil]]; intros M0 s;
    unfold plain_values; repeat (apply Forall_cons || apply Forall_nil); split.
  all: unfold call;
    match goal with
    | |- bind (find_method _ (TQB ?c _ _) _) _ = _ =>
      replace (find_method repository (TQB c M0 (TArr M0)) "where")
        with (Some (prop "where" (TApp "WhereMethod" [TLitS "Array"])))
        by (vm_compute; reflexivity)
    end;
    cbn [bind]; unfold member_signatures; cbn [m_shape prop];
    rewrite Hs; unfold WhereMethod;
    (apply first_applicable_all;
     [ repeat (apply Forall_cons || apply Forall_nil); vm_compute; reflexivity
     | do 3 apply Exists_cons_tl; apply Exists_cons_hd; vm_compute; reflexivity ]).
Qed.

(** X7: [union] ([UnionMethod], lines 294-338) is declared for one to seven
    callbacks or builders, with or without the trailing [wrap] flag, and has
    no rest parameter: on an array builder a call with [n] callbacks, with or
    without a trailing boolean, returns the receiver exactly when
    [1 <= n <= 7] and is rejected otherwise. *)
Theorem union_takes_one_to_seven :
  Forall (fun c => forall M n,
    call repository (TQB c M (TArr M)) "union" (repeat AFun n)
    = (if (1 <=? n)%nat && (n <=? 7)%nat then Some (TQB c M (TArr M)) else None)
    /\ call repository (TQB c M (TArr M)) "union" (repeat AFun n ++ [AExp TBoolean])
       = (if (1 <=? n)%nat && (n <=? 7)%nat then Some (TQB c M (TArr M)) else None))
    (builders_of repository).
Proof.
  rewrite repository_builders.
  assert (Hs : signatures_of (TN "UnionMethod") = UnionMethod) by (vm_compute; reflexivity).
  assert (Hfew : Forall (fun o => no_rest (o_params o) = true
                                  /\ (List.length (o_params o) <= 8)%nat) UnionMethod).
  { unfold UnionMethod, BaseSetOperations. cbn [map app].
    repeat (apply Forall_cons || apply Forall_nil); split; vm_compute; try reflexivity; lia. }
  assert (Hmany : forall c M args, (9 <= List.length args)%nat ->
            In c ["QueryBuilder"; "CustomQueryBuilder"] ->
            call repository (TQB c M (TArr M)) "union" args = None).
  { intros c M args Hl Hc. unfold call.
    replace (find_method repository (TQB c M (TArr M)) "union")
      with (Some (prop "union" (TN "UnionMethod")))
      by (destruct Hc as [<- | [<- | []]]; vm_compute; reflexivity).
    cbn [bind]. unfold member_signatures. cbn [m_shape prop]. rewrite Hs.
    apply first_applicable_none.
    eapply Forall_impl; [|exact Hfew]. intros o [Hr Hlen].
    apply apply_overload_too_many; [exact Hr|lia]. }
  apply Forall_cons; [|apply Forall_cons; [|apply Forall_nil]]; intros M0 n.
  all: do 9 (destruct n as [|n]; [split; vm_compute; reflexivity|]).
  all: split; (rewrite Hmany; [reflexivity | | simpl; auto]).
  all: try (simpl; lia).
  all: rewrite length_app; simpl; lia.
Qed.

(** X8: [select], [columns], [column] and [distinct] ([SelectMethod], lines
    228-231) take a rest parameter: called on an array builder with any
    number of column names, none included, they return the receiver. *)
Theorem select_takes_any_number_of_columns :
  Forall (fun c => forall M (columns : list string),
    Forall (fun name =>
      call repository (TQB c M (TArr M)) name (map (fun s => AExp (TStrLit s)) columns)
      = Some (TQB c M (TArr M)))
      ["select"; "columns"; "column"; "distinct"])
    (builders_of repository).
Proof.
  rewrite repository_builders.
  assert (Hs : signatures_of (TN "SelectMethod") = SelectMethod) by (vm_compute; reflexivity).
  apply Forall_cons; [|apply Forall_cons; [|apply Forall_nil]]; intros M0 columns;
    repeat (apply Forall_cons || apply Forall_nil).
  all: unfold call;
    match goal with
    | |- bind (find_method _ ?T ?n) _ = _ =>
      replace (find_method repository T n) with (Some (prop n (TN "SelectMethod")))
        by (vm_compute; reflexivity)
    end;
    cbn [bind]; unfold member_signatures; cbn [m_shape prop]; rewrite Hs;
    unfold SelectMethod; cbn [first_applicable]; unfold applicable at 1.
  all: match goal with
       | |- context [overload_env repository ?T ?args ?o] =>
         replace (overload_env repository T args o)
           with [("this", T); ("QB", T);
                 ("AQB", TQB "QueryBuilder" TAny (TArr TAny))]
           by (destruct columns; vm_compute; reflexivity)
       end.
  all: cbn [o_params onQB]; rewrite match_args_rest;
    match goal with
    | |- context [this_ok ?p ?e ?T ?o] =>
      replace (this_ok p e T o) with true by (vm_compute; reflexivity)
    end;
    match goal with
    | |- context [forallb ?f ?l] =>
      replace (forallb f l) with true;
        [ vm_compute; reflexivity
        | symmetry; apply forallb_forall; intros a Ha; apply in_map_iff in Ha;
          destruct Ha as [s [<- _]]; vm_compute; reflexivity ]
    end.
Qed.

(** X9: [$relatedQuery] ([RelatedQueryMethod], lines 754-760).  When the
    name is not a key of the model class, the first signature
    ([K extends keyof M]) does not apply and the second one does; it declares
    no [this] parameter, so [M] is its constraint [Model] and the result is
    [QueryBuilder<Model, Model[]>], whatever the class of the receiver. *)
Theorem unknown_relation_falls_back (k s : string) :
  In k (models_of repository) ->
  mem s (keyof repository (TInst k)) = false ->
  call repository (TInst k) "$relatedQuery" [AExp (TStrLit s)]
  = Some (TQB "QueryBuilder" (TInst "Model") (TArr (TInst "Model"))).
Proof.
  rewrite models_of_repository. intros Hk H.
  assert (Hs : signatures_of (TN "RelatedQueryMethod") = RelatedQueryMethod)
    by (vm_compute; reflexivity).
  unfold call.
  replace (find_method repository (TInst k) "$relatedQuery")
    with (Some (prop "$relatedQuery" (TN "RelatedQueryMethod")))
    by (destruct Hk as [<- | [<- | [<- | [<- | []]]]]; vm_compute; reflexivity).
  cbn [bind]. unfold member_signatures. cbn [m_shape prop]. rewrite Hs.
  unfold RelatedQueryMethod. cbn [first_applicable].
  match goal with
  | |- (if applicable ?p ?T ?args ?o then _ else _) = _ =>
    assert (H1 : applicable p T args o = false)
  end.
  { unfold applicable.
    match goal with
    | |- context [overload_env ?p ?T ?args ?o] =>
      assert (He : overload_env p T args o = [("this", T); ("M", T)])
    end.
    { unfold overload_env. cbn [o_this o_tparams fold_left].
      rewrite (bind_tparam_rejected _ _ _ _ "K" (TKeyof M) (TStrLit s));
        [ apply (bind_tparam_bound _ _ _ _ "M" _ (TInst k)); reflexivity
        | reflexivity | reflexivity | exact H ]. }
    rewrite He.
    match goal with
    | |- context [match_args ?p ?e ?ps ?a] =>
      replace (match_args p e ps a) with false by (vm_compute; reflexivity)
    end.
    now rewrite andb_false_r. }
  rewrite H1.
  destruct Hk as [<- | [<- | [<- | [<- | []]]]]; vm_compute; reflexivity.
Qed.

Lemma unknown_relation_falls_back_witness :
  In "Person" (models_of repository)
  /\ mem "friends" (keyof repository (TInst "Person")) = false
  /\ call repository (TInst "Person") "$relatedQuery" [AExp (TStrLit "friends")]
     = Some (TQB "QueryBuilder" (TInst "Model") (TArr (TInst "Model"))).
Proof.
  assert (Hk : In "Person" (models_of repository))
    by (apply mem_In; vm_compute; reflexivity).
  assert (Hs : mem "friends" (keyof repository (TInst "Person")) = false)
    by (vm_compute; reflexivity).
  split; [exact Hk|]. split; [exact Hs|].
  exact (unknown_relation_falls_back "Person" "friends" Hk Hs).
Defined.

(** X10: [ModelProps<QB>] (lines 149, 197-200) for the model classes of the
    repository, on a builder of either builder class and any result type:
    [Person] has [firstName] and [pets], [Animal] has [id], [name] and
    [owner], [Model] and [BaseModel] have none.  Of the data properties of a
    model only [QueryBuilderType] is left out; the nineteen other keys of
    [Model], its methods and [$query], [$relatedQuery], [$id] and
    [$loadRelated], which are typed by interfaces of call signatures, are
    function-typed and are no [NonFunctionPropertyNames].  As a parameter
    type, [ModelProps<QB>] takes a string literal exactly when it is one of
    these names. *)
Theorem model_props_of_the_models :
  Forall (fun c => forall R,
    map (fun k => ModelProps_of repository (TQB c (TInst k) R)) (models_of repository)
    = [[]; []; ["id"; "name"; "owner"]; ["firstName"; "pets"]]
    /\ (forall s, fits repository [("QBP", TQB c (TInst "Person") R)]
                       (AExp (TStrLit s)) (ModelProps (TN "QBP"))
                  = mem s ["firstName"; "pets"])
    /\ fits repository [("QBP", TQB c (TInst "Person") R)] (AExp TString)
            (ModelProps (TN "QBP")) = false)
    (builders_of repository)
  /\ map (fun k => NonFunctionPropertyNames repository (TInst k)) (models_of repository)
     = [["QueryBuilderType"]; ["QueryBuilderType"];
        ["id"; "name"; "owner"; "QueryBuilderType"];
        ["firstName"; "pets"; "QueryBuilderType"]]
  /\ filter (fun n => negb (mem n (NonFunctionPropertyNames repository (TInst "Model"))))
            (keyof repository (TInst "Model"))
     = ["$query"; "$relatedQuery"; "$id"; "$loadRelated"; "$formatDatabaseJson";
        "$parseDatabaseJson"; "$formatJson"; "$parseJson"; "$toDatabaseJson";
        "$toJson"; "toJSON"; "$setJson"; "$setDatabaseJson"; "$setRelated";
        "$appendRelated"; "$set"; "$omit"; "$pick"; "$clone"].
Proof.
  rewrite repository_builders, models_of_repository.
  split; [|split; vm_compute; reflexivity].
  repeat (apply Forall_cons || apply Forall_nil); intros R;
    (split; [vm_compute; reflexivity|]);
    (split; [intros s; reflexivity | vm_compute; reflexivity]).
Qed.

(** X11: [update], [patch], [updateAndFetch] and [patchAndFetch] take a
    [PartialModelObject] of the model type (lines 154-161, 383-389): an
    object literal with a key that is not a data property of the model class
    is rejected, whatever the value. *)
Theorem mutation_rejects_unknown_key (c k name key : string) (v : ty) :
  In c (builders_of repository) ->
  In k (models_of repository) ->
  In name ["update"; "patch"; "updateAndFetch"; "patchAndFetch"] ->
  mem key (NonFunctionPropertyNames repository (TInst k)) = false ->
  call repository (TQB c (TInst k) (TArr (TInst k))) name [AObj [(key, v)]] = None.
Proof.
  rewrite repository_builders, models_of_repository. intros Hc Hk Hn H.
  unfold call.
  assert (Hf : exists t o,
             find_method repository (TQB c (TInst k) (TArr (TInst k))) name
             = Some (prop name t)
             /\ signatures_of t = [o]
             /\ overload_env repository (TQB c (TInst k) (TArr (TInst k)))
                  [AObj [(key, v)]] o
                = [("this", TQB c (TInst k) (TArr (TInst k)));
                   ("QB", TQB c (TInst k) (TArr (TInst k)));
                   ("M", TInst k)]
             /\ o_params o = [req "update" (PartialModelObject M)]).
  { destruct Hc as [<- | [<- | []]];
      destruct Hn as [<- | [<- | [<- | [<- | []]]]];
      (eexists; eexists; split; [vm_compute; reflexivity|];
       split; [vm_compute; reflexivity|];
       split; [|reflexivity]);
      destruct Hk as [<- | [<- | [<- | [<- | []]]]]; vm_compute; reflexivity. }
  destruct Hf as [t [o [Hfind [Hsig [Henv Hps]]]]].
  rewrite Hfind. cbn [bind]. unfold member_signatures. cbn [m_shape prop].
  rewrite Hsig. cbn [first_applicable]. unfold applicable.
  rewrite Henv, Hps.
  match goal with
  | |- context [match_args ?p ?e ?ps ?a] =>
    change (match_args p e ps a)
      with (PartialModelObject_accepts repository (TInst k) key v && true && true)
  end.
  unfold PartialModelObject_accepts. rewrite H. cbn [andb].
  now rewrite andb_false_r.
Qed.

Lemma mutation_rejects_unknown_key_witness :
  In "CustomQueryBuilder" (builders_of repository)
  /\ In "Person" (models_of repository)
  /\ In "patch" ["update"; "patch"; "updateAndFetch"; "patchAndFetch"]
  /\ mem "lastName" (NonFunctionPropertyNames repository (TInst "Person")) = false
  /\ call repository (TQB "CustomQueryBuilder" (TInst "Person") (TArr (TInst "Person")))
          "patch" [AObj [("lastName", TString)]] = None.
Proof.
  assert (Hc : In "CustomQueryBuilder" (builders_of repository))
    by (apply mem_In; vm_compute; reflexivity).
  assert (Hk : In "Person" (models_of repository))
    by (apply mem_In; vm_compute; reflexivity).
  assert (Hn : In "patch" ["update"; "patch"; "updateAndFetch"; "patchAndFetch"])
    by (apply mem_In; vm_compute; reflexivity).
  assert (Hkey : mem "lastName" (NonFunctionPropertyNames repository (TInst "Person"))
                 = false) by (vm_compute; reflexivity).
  split; [exact Hc|]. split; [exact Hk|]. split; [exact Hn|]. split; [exact Hkey|].
  exact (mutation_rejects_unknown_key "CustomQueryBuilder" "Person" "patch" "lastName"
           TString Hc Hk Hn Hkey).
Defined.


(** X13: [raw] (lines 21, 35-38, 985) inherits the one signature of
    [RawInterface<RawBuilder>]: called with a string and any number of
    bindings of any types it is a [RawBuilder], as a function of the module
    and as the static member of every model class; without the string it is
    rejected.  The raw members of [QueryBuilder], typed [RawInterface<this>],
    return the receiver, and, declaring no [this] parameter, do so on a
    builder of any result type. *)
Theorem raw_takes_any_bindings :
  signatures_of (TN "RawFunction") = RawInterface (TN "RawBuilder")
  /\ (forall bindings : list ty,
        call_function repository declarations_file "raw"
          (AExp TString :: map AExp bindings) = Some (TNamed "RawBuilder"))
  /\ call_function repository declarations_file "raw" [] = None
  /\ Forall (fun k => forall bindings : list ty,
               call repository (TClass k) "raw" (AExp TString :: map AExp bindings)
               = Some (TNamed "RawBuilder"))
            (models_of repository)
  /\ Forall (fun c => forall M R (bindings : list ty),
       Forall (fun name =>
                 call repository (TQB c M R) name (AExp TString :: map AExp bindings)
                 = Some (TQB c M R))
              ["whereRaw"; "orWhereRaw"; "andWhereRaw"; "joinRaw"; "orderByRaw"])
     (builders_of repository).
Proof.
  assert (Hs : signatures_of (TN "RawFunction") = RawInterface (TN "RawBuilder"))
    by (vm_compute; reflexivity).
  assert (Hr : signatures_of (TApp "RawInterface" [TN "this"]) = RawInterface (TN "this"))
    by (vm_compute; reflexivity).
  assert (Hall : forall recv R (bindings : list ty),
            eval repository [("this", recv)] R = Some (match R with TN "this" => recv | _ => TNamed "RawBuilder" end) ->
            first_applicable repository recv (AExp TString :: map AExp bindings)
              (RawInterface R)
            = Some (match R with TN "this" => recv | _ => TNamed "RawBuilder" end)).
  { intros recv R bindings HR. unfold RawInterface. cbn [first_applicable].
    unfold applicable.
    change (overload_env repository recv (AExp TString :: map AExp bindings)
              (mkOverload [] None
                 [req "sql" (TN "string"); rest "bindings" (TArrOf (TN "any"))] R))
      with [("this", recv)].
    cbn [o_params o_ret]. rewrite match_args_req, match_args_rest.
    rewrite (forallb_map_all _ AExp bindings) by (intros t; reflexivity).
    replace (fits repository [("this", recv)] (AExp TString) (TN "string")) with true
      by reflexivity.
    cbn [this_ok o_this andb]. now rewrite HR. }
  split; [exact Hs|].
  split.
  { intros bindings. unfold call_function.
    replace (find_construct declarations_file "raw")
      with (Some (CConst "raw" (Some (TN "RawFunction")) None)) by reflexivity.
    rewrite Hs. apply (Hall TVoid (TN "RawBuilder")). vm_compute. reflexivity. }
  split; [vm_compute; reflexivity|].
  split.
  { rewrite models_of_repository.
    repeat (apply Forall_cons || apply Forall_nil); intros bindings; unfold call;
      match goal with
      | |- bind (find_method _ ?T ?n) _ = _ =>
        replace (find_method repository T n) with (Some (sprop n (TN "RawFunction")))
          by (vm_compute; reflexivity)
      end;
      cbn [bind]; unfold member_signatures; cbn [m_shape sprop]; rewrite Hs;
      match goal with
      | |- first_applicable _ ?T _ _ = _ => apply (Hall T (TN "RawBuilder"))
      end; vm_compute; reflexivity. }
  rewrite repository_builders.
  apply Forall_cons; [|apply Forall_cons; [|apply Forall_nil]]; intros M0 R0 bindings;
    repeat (apply Forall_cons || apply Forall_nil); unfold call;
    match goal with
    | |- bind (find_method _ ?T ?n) _ = _ =>
      replace (find_method repository T n)
        with (Some (prop n (TApp "RawInterface" [TN "this"])))
        by (vm_compute; reflexivity)
    end;
    cbn [bind]; unfold member_signatures; cbn [m_shape prop]; rewrite Hr;
    match goal with
    | |- first_applicable _ ?T _ _ = _ => apply (Hall T (TN "this"))
    end; reflexivity.
Qed.

(** X14: [orderBy(column, order)] ([OrderByMethod], lines 360-363, and
    [OrderByDirection], line 132) accepts a string literal as order exactly
    when it is one of ['asc'], ['desc'], ['ASC'], ['DESC']; a value of type
    [string] is rejected, and the order may be left out. *)
Theorem order_by_directions :
  Forall (fun c => forall (M : ty) (s : string),
    call repository (TQB c M (TArr M)) "orderBy" [AExp TString; AExp (TStrLit s)]
    = (if mem s ["asc"; "desc"; "ASC"; "DESC"]
       then Some (TQB c M (TArr M)) else None)
    /\ call repository (TQB c M (TArr M)) "orderBy" [AExp TString; AExp TString] = None
    /\ call repository (TQB c M (TArr M)) "orderBy" [AExp TString]
       = Some (TQB c M (TArr M)))
  (builders_of repository).
Proof.
  rewrite repository_builders.
  apply Forall_cons; [|apply Forall_cons; [|apply Forall_nil]]; intros M0 s;
    (split; [|split; vm_compute; reflexivity]);
    unfold call;
    match goal with
    | |- bind (find_method _ ?T ?n) _ = _ =>
      replace (find_method repository T n) with (Some (prop n (TN "OrderByMethod")))
        by (vm_compute; reflexivity)
    end;
    cbn [bind]; unfold member_signatures; cbn [m_shape prop];
    replace (signatures_of (TN "OrderByMethod")) with OrderByMethod by (vm_compute; reflexivity);
    unfold OrderByMethod, onQB; cbn [first_applicable];
    match goal with
    | |- context [applicable ?p ?T ?args ?o] =>
      match o with
      | context [TArrOf] =>
        replace (applicable p T args o) with false by (vm_compute; reflexivity)
      end
    end;
    unfold applicable;
    match goal with
    | |- context [overload_env ?p ?T ?args ?o] =>
      let e := eval vm_compute in (overload_env p T args o) in
      change (overload_env p T args o) with e
    end;
    cbn [o_params o_ret o_this];
    match goal with
    | |- context [this_ok ?p ?e ?T ?o] =>
      replace (this_ok p e T o) with true by (vm_compute; reflexivity)
    end;
    match goal with
    | |- context [match_args ?p ?e [?q1; ?q2] [?a1; ?a2]] =>
      change (match_args p e [q1; q2] [a1; a2])
        with (fits p e a1 (p_type q1) && (fits p e a2 (p_type q2) && true));
      replace (fits p e a1 (p_type q1)) with true by (vm_compute; reflexivity);
      change (fits p e a2 (p_type q2))
        with (String.eqb "asc" s || (String.eqb "desc" s
              || (String.eqb "ASC" s || String.eqb "DESC" s)))
    end;
    cbn [mem existsb];
    rewrite (String.eqb_sym "asc" s), (String.eqb_sym "desc" s),
            (String.eqb_sym "ASC" s), (String.eqb_sym "DESC" s);
    destruct (String.eqb s "asc"), (String.eqb s "desc"), (String.eqb s "ASC"),
             (String.eqb s "DESC"); reflexivity.
Qed.

(** X15: [OneArgMethod<T>] (lines 420-422) at its two instantiations: [as],
    [alias] and [withSchema] ([OneArgMethod<string>]) accept an argument
    exactly when it is assignable to [string]; [reject] and [resolve]
    ([OneArgMethod<any>]) accept an argument of any type.  All return the
    receiver. *)
Theorem one_argument_methods :
  Forall (fun c => forall (M t : ty),
    Forall (fun name =>
      call repository (TQB c M (TArr M)) name [AExp t]
      = if assignable repository t TString then Some (TQB c M (TArr M)) else None)
      ["as"; "alias"; "withSchema"]
    /\ Forall (fun name =>
      call repository (TQB c M (TArr M)) name [AExp t] = Some (TQB c M (TArr M)))
      ["reject"; "resolve"])
  (builders_of repository).
Proof.
  rewrite repository_builders.
  repeat (apply Forall_cons || apply Forall_nil); intros M0 t; split;
    repeat (apply Forall_cons || apply Forall_nil);
    destruct t; vm_compute; reflexivity.
Qed.

Lemma bind_tparam_inferred (p : program) (ps : list param) (args : list arg) (e : env)
  (n : string) (c : texpr) (t : ty) :
  lookup e n = None -> inferred n ps args = Some t -> fits p e (AExp t) c = true ->
  bind_tparam p ps args e (n, Some c) = (e ++ [(n, t)])%list.
Proof. intros H1 H2 H3. unfold bind_tparam. now rewrite H1, H2, H3. Qed.

(** X16: [compose] and [mixin] (lines 25-26, 52-68).  [compose] of any
    number of plugins, given one by one or as an array, is a [Plugin].
    [mixin] of a model class and any number of plugins, given either way,
    has the type of that very class ("retains the model subclass type",
    lines 62-65).  In general [mixin] of a class and plugins has the type of
    the class when it is [Model] or reaches it through [extends] clauses,
    and is rejected otherwise; each of the five classes of the repository
    that are not model classes is rejected, whatever follows it. *)
Theorem mixin_keeps_the_model_class :
  (forall n : nat,
     call_function repository declarations_file "compose" (repeat AFun n)
     = Some (TNamed "Plugin")
     /\ call_function repository declarations_file "compose" [AArr (repeat AFun n)]
        = Some (TNamed "Plugin"))
  /\ Forall (fun k => forall n : nat,
       call_function repository declarations_file "mixin"
         (AExp (TClass k) :: repeat AFun n) = Some (TClass k)
       /\ call_function repository declarations_file "mixin"
            [AExp (TClass k); AArr (repeat AFun n)] = Some (TClass k))
     (models_of repository)
  /\ (forall (k : string) (n : nat),
        call_function repository declarations_file "mixin"
          (AExp (TClass k) :: repeat AFun n)
        = if is_a repository k "Model" then Some (TClass k) else None)
  /\ non_models_of repository
     = ["QueryBuilder"; "Validator"; "AjvValidator"; "ValidationError";
        "CustomQueryBuilder"]
  /\ Forall (fun c => forall plugins : list arg,
       call_function repository declarations_file "mixin" (AExp (TClass c) :: plugins)
       = None)
     (non_models_of repository).
Proof.
  assert (Hc : signatures_of (TN "ComposeFunction")
               = [sig [rest "plugins" (TArrOf (TN "Plugin"))] (TN "Plugin");
                  sig [req "plugins" (TArrOf (TN "Plugin"))] (TN "Plugin")])
    by (vm_compute; reflexivity).
  assert (Hm : signatures_of (TN "MixinFunction")
               = [mkOverload [("MC", Some (TTypeof "Model"))] None
                    [req "modelClass" (TN "MC"); rest "plugins" (TArrOf (TN "Plugin"))] (TN "MC");
                  mkOverload [("MC", Some (TTypeof "Model"))] None
                    [req "modelClass" (TN "MC"); req "plugins" (TArrOf (TN "Plugin"))] (TN "MC")])
    by (vm_compute; reflexivity).
  split.
  { intros n. unfold call_function.
    replace (find_construct declarations_file "compose")
      with (Some (CConst "compose" (Some (TN "ComposeFunction")) None)) by reflexivity.
    rewrite Hc.
    split.
    - cbn [first_applicable]. unfold applicable.
      match goal with
      | |- context [overload_env ?p ?T ?args ?o] =>
        let e := eval vm_compute in (overload_env p T args o) in
        change (overload_env p T args o) with e
      end.
      unfold sig. cbn [o_params o_ret o_this this_ok andb].
      rewrite match_args_rest, forallb_repeat by reflexivity. reflexivity.
    - cbn [first_applicable].
      match goal with
      | |- context [applicable ?p ?T ?args (sig [rest ?a ?b] ?r)] =>
        replace (applicable p T args (sig [rest a b] r)) with false
          by (vm_compute; reflexivity)
      end.
      unfold applicable.
      match goal with
      | |- context [overload_env ?p ?T ?args ?o] =>
        let e := eval vm_compute in (overload_env p T args o) in
        change (overload_env p T args o) with e
      end.
      unfold sig. cbn [o_params o_ret o_this this_ok andb].
      rewrite match_args_req. rewrite fits_array_literal.
      rewrite forallb_repeat by reflexivity. reflexivity. }
  split.
  { rewrite models_of_repository.
    repeat (apply Forall_cons || apply Forall_nil); intros n; unfold call_function;
      replace (find_construct declarations_file "mixin")
        with (Some (CConst "mixin" (Some (TN "MixinFunction")) None)) by reflexivity;
      rewrite Hm; (split; cbn [first_applicable]).
    all: try match goal with
      | |- context [applicable ?p ?T [?a; AArr ?l] (mkOverload ?tps ?th [?q; rest ?x ?b] ?r)] =>
        replace (applicable p T [a; AArr l] (mkOverload tps th [q; rest x b] r))
          with false by (vm_compute; reflexivity)
      end.
    all: unfold applicable;
      match goal with
      | |- context [overload_env ?p ?T ?args ?o] =>
        let e := eval vm_compute in (overload_env p T args o) in
        change (overload_env p T args o) with e
      end;
      cbn [o_params o_ret o_this this_ok andb];
      rewrite match_args_req;
      match goal with
      | |- context [fits ?p ?e (AExp ?t) (TN "MC")] =>
        replace (fits p e (AExp t) (TN "MC")) with true by (vm_compute; reflexivity)
      end;
      cbn [andb];
      first [ rewrite match_args_rest | rewrite match_args_req, fits_array_literal ];
      rewrite forallb_repeat by reflexivity; reflexivity. }
  split.
  { intros k n.
    change (is_a repository k "Model")
      with (assignable repository (TClass k) (TClass "Model")).
    generalize (TClass k). intros t. unfold call_function.
    replace (find_construct declarations_file "mixin")
      with (Some (CConst "mixin" (Some (TN "MixinFunction")) None)) by reflexivity.
    rewrite Hm.
    assert (Hfit : fits repository [("this", TVoid)] (AExp t) (TTypeof "Model")
                   = assignable repository t (TClass "Model")) by reflexivity.
    destruct (assignable repository t (TClass "Model")) eqn:Hb.
    - cbn [first_applicable]. unfold applicable.
      replace (overload_env repository TVoid (AExp t :: repeat AFun n)
                 (mkOverload [("MC", Some (TTypeof "Model"))] None
                    [req "modelClass" (TN "MC"); rest "plugins" (TArrOf (TN "Plugin"))]
                    (TN "MC")))
        with [("this", TVoid); ("MC", t)].
      2:{ unfold overload_env. cbn [o_this o_tparams o_params fold_left].
          now rewrite (bind_tparam_inferred _ _ _ _ "MC" (TTypeof "Model") t). }
      cbn [o_params o_ret o_this this_ok andb].
      rewrite match_args_req, match_args_rest.
      replace (fits repository [("this", TVoid); ("MC", t)] (AExp t) (TN "MC"))
        with (assignable repository t t) by reflexivity.
      rewrite assignable_refl, forallb_repeat by reflexivity. reflexivity.
    - apply first_applicable_none.
      repeat (apply Forall_cons || apply Forall_nil); unfold apply_overload, applicable;
        match goal with
        | |- context [overload_env ?p ?T ?args ?o] =>
          replace (overload_env p T args o) with [("this", TVoid)]
        end;
        try (unfold overload_env; cbn [o_this o_tparams o_params fold_left];
             now rewrite (bind_tparam_rejected _ _ _ _ "MC" (TTypeof "Model") t));
        cbn [o_params o_ret o_this this_ok andb];
        rewrite match_args_req;
        match goal with
        | |- context [fits ?p ?e (AExp ?t) (TN "MC")] =>
          replace (fits p e (AExp t) (TN "MC")) with false by (vm_compute; reflexivity)
        end; reflexivity. }
  split; [vm_compute; reflexivity|].
  replace (non_models_of repository)
    with ["QueryBuilder"; "Validator"; "AjvValidator"; "ValidationError";
          "CustomQueryBuilder"] by (vm_compute; reflexivity).
  repeat (apply Forall_cons || apply Forall_nil); intros plugins; unfold call_function;
    replace (find_construct declarations_file "mixin")
      with (Some (CConst "mixin" (Some (TN "MixinFunction")) None)) by reflexivity;
    rewrite Hm; apply first_applicable_none;
    repeat (apply Forall_cons || apply Forall_nil);
    unfold apply_overload, applicable;
    match goal with
    | |- context [overload_env ?p ?T ?args ?o] =>
      let e := eval vm_compute in (overload_env p T args o) in
      change (overload_env p T args o) with e
    end;
    cbn [o_params o_ret o_this this_ok andb];
    rewrite match_args_req;
    match goal with
    | |- context [fits ?p ?e (AExp ?t) (TN "MC")] =>
      replace (fits p e (AExp t) (TN "MC")) with false by (vm_compute; reflexivity)
    end; reflexivity.
Qed.

(** X17: the argument-less members of [Castable] (lines 74-87) return
    [this]: any chain of them on a [LiteralBuilder] or a [ReferenceBuilder]
    (lines 40, 47) type-checks and keeps the type of the builder. *)
Theorem cast_chain_keeps_builder (b : string) (names : list string) :
  In b ["LiteralBuilder"; "ReferenceBuilder"] ->
  incl names cast_methods ->
  named_chain repository (TNamed b) names = Some (TNamed b).
Proof.
  intros Hb. induction names as [|n names IH]; intros Hn; [reflexivity|].
  cbn [named_chain].
  assert (Hstep : call_named repository (TNamed b) n [] = Some (TNamed b)).
  { assert (Hin : In n cast_methods) by (apply Hn; left; reflexivity).
    destruct Hb as [<- | [<- | []]];
      repeat (destruct Hin as [<- | Hin]; [vm_compute; reflexivity|]);
      destruct Hin. }
  rewrite Hstep. cbn [bind]. apply IH.
  intros x Hx. apply Hn. right. exact Hx.
Qed.

Lemma cast_chain_keeps_builder_witness :
  In "ReferenceBuilder" ["LiteralBuilder"; "ReferenceBuilder"]
  /\ incl ["castInt"; "asArray"; "castJson"] cast_methods
  /\ named_chain repository (TNamed "ReferenceBuilder") ["castInt"; "asArray"; "castJson"]
     = Some (TNamed "ReferenceBuilder").
Proof.
  assert (Hb : In "ReferenceBuilder" ["LiteralBuilder"; "ReferenceBuilder"])
    by (apply mem_In; vm_compute; reflexivity).
  assert (Hn : incl ["castInt"; "asArray"; "castJson"] cast_methods).
  { intros x Hx. apply mem_In.
    destruct Hx as [<- | [<- | [<- | []]]]; vm_compute; reflexivity. }
  split; [exact Hb|]. split; [exact Hn|].
  exact (cast_chain_keeps_builder "ReferenceBuilder" ["castInt"; "asArray"; "castJson"]
           Hb Hn).
Defined.

(** X18: [query], [$query] and [castTo] (lines 379-381, 738-746, 971, 989, 992).
    For every model class [k] of the repository, [k.query()] is an array
    builder and [new k().$query()] a single builder of the class [k] declares
    as [QueryBuilderType]: [CustomQueryBuilder] for [BaseModel] and its
    subclasses, [QueryBuilder] for [Model].  [castTo(k)] on any builder,
    whatever its model and result types, has the type of [k.query()]; given
    one of the five classes of the repository that are not model classes,
    the two builder classes, [Validator], [AjvValidator] and
    [ValidationError], it is rejected. *)
Theorem query_starts_declared_builder :
  Forall (fun k =>
    let c := if is_a repository k "BaseModel" then "CustomQueryBuilder" else "QueryBuilder" in
    call repository (TClass k) "query" [] = Some (TQB c (TInst k) (TArr (TInst k)))
    /\ call repository (TInst k) "$query" [] = Some (TQB c (TInst k) (TInst k))
    /\ index repository (TInst k) "QueryBuilderType" = Some (TQB c (TInst k) (TArr (TInst k)))
    /\ Forall (fun b => forall M R,
         call repository (TQB b M R) "castTo" [AExp (TClass k)]
         = call repository (TClass k) "query" [])
       (builders_of repository))
  (models_of repository)
  /\ non_models_of repository
     = ["QueryBuilder"; "Validator"; "AjvValidator"; "ValidationError";
        "CustomQueryBuilder"]
  /\ Forall (fun c =>
       Forall (fun b => forall M R,
                 call repository (TQB b M R) "castTo" [AExp (TClass c)] = None)
              (builders_of repository))
     (non_models_of repository).
Proof.
  rewrite models_of_repository, repository_builders. split.
  - repeat (apply Forall_cons || apply Forall_nil); cbv zeta;
      (split; [vm_compute; reflexivity|]);
      (split; [vm_compute; reflexivity|]);
      (split; [vm_compute; reflexivity|]);
      repeat (apply Forall_cons || apply Forall_nil); intros M0 R0;
      vm_compute; reflexivity.
  - split; [vm_compute; reflexivity|].
    replace (non_models_of repository)
      with ["QueryBuilder"; "Validator"; "AjvValidator"; "ValidationError";
            "CustomQueryBuilder"] by (vm_compute; reflexivity).
    repeat (apply Forall_cons || apply Forall_nil); intros M0 R0;
      vm_compute; reflexivity.
Qed.



(** X20: [$relatedQuery] at a key of the model class ([RelatedQueryMethod]
    and [RelatedQueryBuilder], lines 748-760).  Of the keys of the model
    classes of the repository, data properties and methods alike, only the
    two relations give a builder: [pets] of [Person], an [Animal[]], the
    array builder of [Animal], and [owner] of [Animal], a [Person], the
    single builder of [Person]; every other key gives [never].  For a model
    class [k], [RelatedQueryBuilder<k>] is the single builder and
    [RelatedQueryBuilder<k[]>] the builder [k] declares as
    [QueryBuilderType]; for [string], [number], a function, an array of
    strings, an instance of [ValidationError] and a query builder it is
    [never], and for [any] and for [any[]] it is [any]. *)
Theorem related_query_by_relation :
  Forall (fun k =>
    map (fun s => call repository (TInst k) "$relatedQuery" [AExp (TStrLit s)])
        (keyof repository (TInst k))
    = map (fun s =>
             if String.eqb k "Person" && String.eqb s "pets"
             then Some (TQB "CustomQueryBuilder" (TInst "Animal") (TArr (TInst "Animal")))
             else if String.eqb k "Animal" && String.eqb s "owner"
             then Some (TQB "CustomQueryBuilder" (TInst "Person") (TInst "Person"))
             else Some TNever)
          (keyof repository (TInst k))
    /\ RelatedQueryBuilder repository (TInst k)
       = option_map (fun q => match q with TQB c M _ => TQB c M M | _ => q end)
                    (index repository (TInst k) "QueryBuilderType")
    /\ RelatedQueryBuilder repository (TArr (TInst k))
       = index repository (TInst k) "QueryBuilderType"
    /\ index repository (TInst k) "QueryBuilderType" <> None)
    (models_of repository)
  /\ map (fun k => List.length (keyof repository (TInst k))) (models_of repository)
     = [20; 20; 23; 22]%nat
  /\ map (RelatedQueryBuilder repository)
         [TString; TNumber; TNamed "Function"; TArr TString; TInst "ValidationError";
          TQB "QueryBuilder" (TInst "Model") (TArr (TInst "Model")); TAny; TArr TAny]
     = [Some TNever; Some TNever; Some TNever; Some TNever; Some TNever; Some TNever;
        Some TAny; Some TAny].
Proof.
  rewrite models_of_repository. split.
  - repeat (apply Forall_cons || apply Forall_nil);
      (split; [vm_compute; reflexivity|]);
      (split; [vm_compute; reflexivity|]);
      (split; [vm_compute; reflexivity|]);
      vm_compute; discriminate.
  - split; vm_compute; reflexivity.
Qed.
